(** * IOE Static Analyzer: a shallow embedding of [tools/static_analysis.py]

    The development follows the layout of the Python module: string
    helpers of the Python runtime, the regular expressions of
    [SECURITY_PATTERNS], the syntax tree handed over by [ast.parse], the
    four analyzers, the file analyzer [analyze_file] and the report
    renderers.  Theorems come after the definitions.

    Conventions.
    - Python [int] is [Z]; a [float] obtained by dividing two ints is the
      exact rational [Q].
    - A Python [str] read from a file, whose characters the analyzers
      examine, is the list of its code points ([text]); the strings the
      program only compares, joins and prints (paths, messages, dict keys,
      module names) are [string]s.
    - A dict literal with a fixed choice of keys is a record whose optional
      keys are [option] fields; a dict used as a map is a [gmap]; a [set]
      is a [gset].
    - A raised exception is the left summand of a result.  The analyzers
      [analyze_complexity], [analyze_documentation] and [analyze_file]
      give the value returned; their companions with the suffix [_exn]
      add the exceptions that leave them, which the two commands
      handle. *)

From Stdlib Require Import ZArith QArith List String Ascii Bool Lia Permutation.
From Stdlib Require Import DecimalString Qround Sorted.
From stdpp Require Import gmap strings list.
Import ListNotations.

Local Open Scope string_scope.
Local Open Scope Z_scope.
Local Open Scope list_scope.

(** ** Python strings *)

(** A [str] whose characters the analyzers look at: its code points. *)
Abbreviation text := (list N) (only parsing).

Module PyStr.

(** The text of a string literal of this development. *)
Definition chars (s : string) : text :=
  map N_of_ascii (list_ascii_of_string s).

(** [str.isspace] on one character: the code points with the Unicode
    property White_Space or a bidirectional class of a separator. *)
Definition isspace (c : N) : bool :=
  ((9 <=? c) && (c <=? 13) || (28 <=? c) && (c <=? 32)
   || (c =? 133) || (c =? 160) || (c =? 5760)
   || (8192 <=? c) && (c <=? 8202) || (c =? 8232) || (c =? 8233)
   || (c =? 8239) || (c =? 8287) || (c =? 12288))%N.

(** [str.upper] on the characters of a dict key of the program. *)
Definition upper (c : ascii) : ascii :=
  let n := N_of_ascii c in
  if ((97 <=? n) && (n <=? 122))%N then ascii_of_N (n - 32) else c.

Fixpoint str_upper (s : string) : string :=
  match s with
  | EmptyString => EmptyString
  | String c r => String (upper c) (str_upper r)
  end.

Definition newline : N := 10%N.

(** [s.split('\n')]: never empty, the separators are dropped. *)
Fixpoint split_lines (s : text) : list text :=
  match s with
  | [] => [[]]
  | c :: r =>
      if N.eqb c newline then [] :: split_lines r
      else match split_lines r with
           | [] => [[c]]
           | l :: ls => (c :: l) :: ls
           end
  end.

Fixpoint lstrip (s : text) : text :=
  match s with
  | [] => []
  | c :: r => if isspace c then lstrip r else s
  end.

Fixpoint rstrip (s : text) : text :=
  match s with
  | [] => []
  | c :: r =>
      match rstrip r with
      | [] => if isspace c then [] else [c]
      | r' => c :: r'
      end
  end.

(** [s.strip()] *)
Definition strip (s : text) : text := rstrip (lstrip s).

(** [s.startswith(p)] *)
Fixpoint startswith (p s : text) : bool :=
  match p, s with
  | [], _ => true
  | a :: p', b :: s' => N.eqb a b && startswith p' s'
  | _ :: _, [] => false
  end.

(** Truth value of a string: non-empty. *)
Definition truthy (s : string) : bool :=
  match s with EmptyString => false | _ => true end.

Definition text_truthy (s : text) : bool :=
  match s with [] => false | _ => true end.

(** [str(n)] for an int. *)
Definition of_int (n : Z) : string := NilZero.string_of_int (Z.to_int n).

(** [enumerate(l, start)] *)
Fixpoint enumerate {A} (start : Z) (l : list A) : list (Z * A) :=
  match l with
  | [] => []
  | x :: r => (start, x) :: enumerate (start + 1) r
  end.

End PyStr.

(** ** Regular expressions: the fragment of [re] used by the catalog *)

Module Re.

(** One-character items of a pattern; a pattern character is one of the
    first 256 code points. *)
Inductive cset : Type :=
| CLit (c : ascii)        (* a literal or escaped character *)
| CSpace                  (* \s *)
| CAny                    (* .  : anything but a newline *)
| CNot (c : ascii).       (* [^c] *)

Inductive regex : Type :=
| Void
| Eps
| Chr (cs : cset)
| Cat (r1 r2 : regex)
| Alt (r1 r2 : regex)
| Star (r : regex).

(** Flags of [re.search]; only [re.IGNORECASE] is used. *)
Record flags := { ignorecase : bool }.
Definition IGNORECASE : flags := {| ignorecase := true |}.
Definition NOFLAG : flags := {| ignorecase := false |}.

(** The code points beyond the two cases of a letter that
    [re.IGNORECASE] takes for a pattern character, given in lower case:
    those whose lower case is the character, and those of the table of
    case fixes of [re]. *)
Definition case_fixes (lo : N) : list N :=
  (if lo =? 105 then [304; 305]          (* i: dotted capital, dotless small *)
   else if lo =? 107 then [8490]         (* k: kelvin sign *)
   else if lo =? 115 then [383]          (* s: long s *)
   else if lo =? 181 then [924; 956]     (* micro sign: greek mu *)
   else if lo =? 223 then [7838]         (* sharp s: its capital *)
   else if lo =? 229 then [8491]         (* a with ring: angstrom sign *)
   else if lo =? 255 then [376]          (* y with diaeresis: its capital *)
   else [])%N.

(** Whether a code point below 256 is an upper-case, respectively a
    lower-case letter with its other case 32 code points away. *)
Definition is_upper (n : N) : bool :=
  ((65 <=? n) && (n <=? 90)
   || (192 <=? n) && (n <=? 222) && negb (n =? 215))%N.

Definition is_lower (n : N) : bool :=
  ((97 <=? n) && (n <=? 122)
   || (224 <=? n) && (n <=? 254) && negb (n =? 247))%N.

(** All the code points a pattern character matches without regard to
    case. *)
Definition ignorecase_class (l : N) : list N :=
  (if is_upper l then l :: (l + 32) :: case_fixes (l + 32)
   else if is_lower l then (l - 32) :: l :: case_fixes l
   else l :: case_fixes l)%N.

Definition lit_matches (f : flags) (l : ascii) (c : N) : bool :=
  if ignorecase f then existsb (N.eqb c) (ignorecase_class (N_of_ascii l))
  else N.eqb c (N_of_ascii l).

Definition cset_matches (f : flags) (cs : cset) (c : N) : bool :=
  match cs with
  | CLit l => lit_matches f l c
  | CSpace => PyStr.isspace c
  | CAny => negb (N.eqb c PyStr.newline)
  | CNot l => negb (lit_matches f l c)
  end.

(** *** The language of a pattern

    The reference reading of a pattern, stated on code points without
    the tables of the matcher. *)

(** The code points [str.isspace] and [\s] accept. *)
Definition whitespace : list N :=
  [9; 10; 11; 12; 13; 28; 29; 30; 31; 32; 133; 160; 5760; 8192; 8193; 8194;
   8195; 8196; 8197; 8198; 8199; 8200; 8201; 8202; 8232; 8233; 8239; 8287;
   12288]%N.

(** Pairs of a pattern character and a code point outside the first 256
    that is the same character when case is ignored. *)
Definition caseless_pairs : list (N * N) :=
  [(73, 304); (105, 304); (73, 305); (105, 305); (75, 8490); (107, 8490);
   (83, 383); (115, 383); (181, 924); (181, 956); (223, 7838);
   (197, 8491); (229, 8491); (255, 376)]%N.

(** The two cases of one letter among the first 256 code points: [lo] is
    the lower-case one. *)
Definition letter_pair (up lo : N) : Prop :=
  (lo = up + 32
   /\ (65 <= up <= 90 \/ (192 <= up <= 222 /\ up <> 215)))%N.

(** [c] is the pattern character [l], case ignored. *)
Definition caseless (l c : N) : Prop :=
  l = c \/ letter_pair l c \/ letter_pair c l \/ In (l, c) caseless_pairs.

Definition lit_in (f : flags) (l : ascii) (c : N) : Prop :=
  if ignorecase f then caseless (N_of_ascii l) c else N_of_ascii l = c.

Definition char_in (f : flags) (cs : cset) (c : N) : Prop :=
  match cs with
  | CLit l => lit_in f l c
  | CSpace => In c whitespace
  | CAny => c <> 10%N
  | CNot l => ~ lit_in f l c
  end.

Inductive matches (f : flags) : regex -> text -> Prop :=
| MEps : matches f Eps []
| MChr cs c : char_in f cs c -> matches f (Chr cs) [c]
| MCat r1 r2 s1 s2 :
    matches f r1 s1 -> matches f r2 s2 -> matches f (Cat r1 r2) (s1 ++ s2)
| MAltL r1 r2 s : matches f r1 s -> matches f (Alt r1 r2) s
| MAltR r1 r2 s : matches f r2 s -> matches f (Alt r1 r2) s
| MStar0 r : matches f (Star r) []
| MStarS r s1 s2 :
    matches f r s1 -> matches f (Star r) s2 -> matches f (Star r) (s1 ++ s2).

(** *** The matcher *)

Fixpoint nullable (r : regex) : bool :=
  match r with
  | Void => false
  | Eps => true
  | Chr _ => false
  | Cat r1 r2 => nullable r1 && nullable r2
  | Alt r1 r2 => nullable r1 || nullable r2
  | Star _ => true
  end.

Definition alt (r1 r2 : regex) : regex :=
  match r1, r2 with
  | Void, _ => r2
  | _, Void => r1
  | _, _ => Alt r1 r2
  end.

Definition cat (r1 r2 : regex) : regex :=
  match r1, r2 with
  | Void, _ => Void
  | _, Void => Void
  | Eps, _ => r2
  | _, _ => Cat r1 r2
  end.

(** Brzozowski derivative. *)
Fixpoint deriv (f : flags) (c : N) (r : regex) : regex :=
  match r with
  | Void => Void
  | Eps => Void
  | Chr cs => if cset_matches f cs c then Eps else Void
  | Cat r1 r2 =>
      if nullable r1
      then alt (cat (deriv f c r1) r2) (deriv f c r2)
      else cat (deriv f c r1) r2
  | Alt r1 r2 => alt (deriv f c r1) (deriv f c r2)
  | Star r1 => cat (deriv f c r1) (Star r1)
  end.

(** Some prefix of [s] is in the language of [r]. *)
Fixpoint match_prefix (f : flags) (r : regex) (s : text) : bool :=
  nullable r ||
  match s with
  | [] => false
  | c :: s' => match_prefix f (deriv f c r) s'
  end.

(** Some factor of [s] is in the language of [r]. *)
Fixpoint search_list (f : flags) (r : regex) (s : text) : bool :=
  match_prefix f r s ||
  match s with
  | [] => false
  | _ :: s' => search_list f r s'
  end.

(** [re.search(pattern, line, flags)] as a truth value. *)
Definition search (r : regex) (line : text) (f : flags) : bool :=
  search_list f r line.

(** Pattern-building helpers, named after the concrete syntax. *)
Fixpoint lit (s : string) : regex :=
  match s with
  | EmptyString => Eps
  | String c EmptyString => Chr (CLit c)
  | String c r => Cat (Chr (CLit c)) (lit r)
  end.

Definition ws_star : regex := Star (Chr CSpace).                 (* \s* *)
Definition opt (r : regex) : regex := Alt r Eps.                  (* r?  *)
Definition not_rparen_star : regex := Star (Chr (CNot ")"%char)). (* [^)]* *)
Definition any_star : regex := Star (Chr CAny).                   (* .*  *)

Fixpoint seq (rs : list regex) : regex :=
  match rs with
  | [] => Eps
  | [r] => r
  | r :: rest => Cat r (seq rest)
  end.

End Re.


(** ** The security catalog *)

(** [SECURITY_PATTERNS]: each rule is a pattern and its message, in the
    order of the source.  The concrete syntax of each pattern is quoted. *)
Definition SECURITY_PATTERNS : list (Re.regex * string) :=
  [ (* eval\s*\( *)
    (Re.seq [Re.lit "eval"; Re.ws_star; Re.lit "("],
     "Use of eval() can be dangerous");
    (* exec\s*\( *)
    (Re.seq [Re.lit "exec"; Re.ws_star; Re.lit "("],
     "Use of exec() can be dangerous");
    (* subprocess\.call\s*\([^)]*shell\s*=\s*True *)
    (Re.seq [Re.lit "subprocess.call"; Re.ws_star; Re.lit "(";
             Re.not_rparen_star; Re.lit "shell"; Re.ws_star; Re.lit "=";
             Re.ws_star; Re.lit "True"],
     "Shell=True in subprocess can be risky");
    (* pickle\.loads?\s*\( *)
    (Re.seq [Re.lit "pickle.load"; Re.opt (Re.lit "s"); Re.ws_star;
             Re.lit "("],
     "Pickle deserialization can be unsafe");
    (* yaml\.load\s*\([^)]*Loader\s*=\s*yaml\.Loader *)
    (Re.seq [Re.lit "yaml.load"; Re.ws_star; Re.lit "(";
             Re.not_rparen_star; Re.lit "Loader"; Re.ws_star; Re.lit "=";
             Re.ws_star; Re.lit "yaml.Loader"],
     "YAML unsafe loading");
    (* request\.args\.get\([^)]*\) *)
    (Re.seq [Re.lit "request.args.get("; Re.not_rparen_star; Re.lit ")"],
     "Direct use of request parameters without validation");
    (* sql.*%.*% *)
    (Re.seq [Re.lit "sql"; Re.any_star; Re.lit "%"; Re.any_star; Re.lit "%"],
     "Possible SQL injection vulnerability");
    (* os\.system\s*\( *)
    (Re.seq [Re.lit "os.system"; Re.ws_star; Re.lit "("],
     "Use of os.system() can be dangerous") ].

(** [COMPLEXITY_THRESHOLDS] *)
Definition COMPLEXITY_THRESHOLDS : gmap string Z :=
  <["function_lines" := 50]>
  (<["function_params" := 7]>
  (<["class_methods" := 20]>
  (<["nesting_depth" := 4]>
  (<["cyclomatic_complexity" := 10]> ∅)))).

(** Subscription of a dict whose key is present in the literal above. *)
Definition threshold (key : string) : Z :=
  default 0 (COMPLEXITY_THRESHOLDS !! key).

Definition TOOL_VERSION : string := "1.0.0".
Definition TOOL_NAME : string := "IOE Static Analyzer".

(** ** Syntax trees *)

(** The node classes the analyzers distinguish.  A function node carries
    its [lineno] and, when present, its [end_lineno]; an import node its
    alias names; an import-from node its [module]. *)
Inductive kind : Type :=
| KModule
| KFunctionDef (lineno : Z) (end_lineno : option Z)
| KAsyncFunctionDef (lineno : Z) (end_lineno : option Z)
| KClassDef
| KIf
| KWhile
| KFor
| KTry
| KExceptHandler
| KImport (names : list string)
| KImportFrom (module : option string)
| KExpr
| KConstantStr (value : text)
| KOther.

(** A node with its child nodes in field order: the children that come
    before the [body] field, the statements of [body], and the children of
    the fields after it (a node without a [body] keeps all its children in
    [pre]). *)
#[warnings="-register-all"]
Inductive node : Type :=
| Node (k : kind) (pre body post : list node).

Definition node_kind (n : node) : kind := match n with Node k _ _ _ => k end.
Definition node_body (n : node) : list node :=
  match n with Node _ _ b _ => b end.

(** [ast.iter_child_nodes] *)
Definition iter_child_nodes (n : node) : list node :=
  match n with Node _ pre body post => pre ++ body ++ post end.

Fixpoint node_size (n : node) : nat :=
  match n with
  | Node _ pre body post =>
      S (list_sum (map node_size pre) + list_sum (map node_size body)
         + list_sum (map node_size post))
  end.

(** All nodes of a tree, depth first. *)
Fixpoint nodes (n : node) : list node :=
  match n with
  | Node _ pre body post =>
      n :: flat_map nodes pre ++ flat_map nodes body ++ flat_map nodes post
  end.

(** [ast.walk]: breadth first, from a queue of pending nodes. *)
Fixpoint walk_queue (fuel : nat) (todo : list node) : list node :=
  match fuel with
  | O => []
  | S fuel' =>
      match todo with
      | [] => []
      | n :: rest => n :: walk_queue fuel' (rest ++ iter_child_nodes n)
      end
  end.

Definition walk (tree : node) : list node :=
  walk_queue (node_size tree) [tree].

(** ** Complexity visitor *)

Module ComplexityAnalyzer.

Record t : Type := mk {
  complexity : Z;
  nesting_depth : Z;
  max_nesting_depth : Z;
  function_count : Z;
  class_count : Z;
  lines_of_code : Z;
  function_lengths : list Z;
  current_function_lines : Z
}.

(** [__init__] *)
Definition init : t := mk 0 0 0 0 0 0 [] 0.

Definition add_complexity (self : t) : t :=
  mk (complexity self + 1) (nesting_depth self) (max_nesting_depth self)
     (function_count self) (class_count self) (lines_of_code self)
     (function_lengths self) (current_function_lines self).

(** [self.nesting_depth += 1;
     self.max_nesting_depth = max(self.max_nesting_depth, self.nesting_depth)] *)
Definition enter (self : t) : t :=
  mk (complexity self) (nesting_depth self + 1)
     (Z.max (max_nesting_depth self) (nesting_depth self + 1))
     (function_count self) (class_count self) (lines_of_code self)
     (function_lengths self) (current_function_lines self).

(** [self.nesting_depth -= 1] *)
Definition leave (self : t) : t :=
  mk (complexity self) (nesting_depth self - 1) (max_nesting_depth self)
     (function_count self) (class_count self) (lines_of_code self)
     (function_lengths self) (current_function_lines self).

Definition add_function (self : t) : t :=
  mk (complexity self) (nesting_depth self) (max_nesting_depth self)
     (function_count self + 1) (class_count self) (lines_of_code self)
     (function_lengths self) (current_function_lines self).

Definition add_class (self : t) : t :=
  mk (complexity self) (nesting_depth self) (max_nesting_depth self)
     (function_count self) (class_count self + 1) (lines_of_code self)
     (function_lengths self) (current_function_lines self).

Definition append_length (len : Z) (self : t) : t :=
  mk (complexity self) (nesting_depth self) (max_nesting_depth self)
     (function_count self) (class_count self) (lines_of_code self)
     (function_lengths self ++ [len]) (current_function_lines self).

Definition set_lines_of_code (loc : Z) (self : t) : t :=
  mk (complexity self) (nesting_depth self) (max_nesting_depth self)
     (function_count self) (class_count self) loc
     (function_lengths self) (current_function_lines self).

(** The visitor methods.  [generic_visit] stands for
    [self.generic_visit(node)], the visit of the node's children. *)
Definition visit_FunctionDef (lineno : Z) (end_lineno : option Z)
    (generic_visit : t -> t) (self : t) : t :=
  let self := add_function self in
  let self :=
    match end_lineno with
    | Some e =>
        if Z.eqb e 0 then self else append_length (e - lineno + 1) self
    | None => self
    end in
  let self := enter self in
  let self := generic_visit self in
  leave self.

Definition visit_AsyncFunctionDef (lineno : Z) (end_lineno : option Z)
    (generic_visit : t -> t) (self : t) : t :=
  visit_FunctionDef lineno end_lineno generic_visit self.

Definition visit_ClassDef (generic_visit : t -> t) (self : t) : t :=
  leave (generic_visit (enter (add_class self))).

Definition visit_If (generic_visit : t -> t) (self : t) : t :=
  leave (generic_visit (enter (add_complexity self))).

Definition visit_While (generic_visit : t -> t) (self : t) : t :=
  leave (generic_visit (enter (add_complexity self))).

Definition visit_For (generic_visit : t -> t) (self : t) : t :=
  leave (generic_visit (enter (add_complexity self))).

Definition visit_Try (generic_visit : t -> t) (self : t) : t :=
  leave (generic_visit (enter (add_complexity self))).

Definition visit_ExceptHandler (generic_visit : t -> t) (self : t) : t :=
  generic_visit (add_complexity self).

(** [NodeVisitor.visit]: dispatch on the node class, [generic_visit] for
    the classes without a method. *)
Fixpoint visit (n : node) (self : t) : t :=
  match n with
  | Node k pre body post =>
      let visit_all := fold_left (fun s c => visit c s) in
      let generic_visit :=
        fun s => visit_all post (visit_all body (visit_all pre s)) in
      match k with
      | KFunctionDef l e => visit_FunctionDef l e generic_visit self
      | KAsyncFunctionDef l e => visit_AsyncFunctionDef l e generic_visit self
      | KClassDef => visit_ClassDef generic_visit self
      | KIf => visit_If generic_visit self
      | KWhile => visit_While generic_visit self
      | KFor => visit_For generic_visit self
      | KTry => visit_Try generic_visit self
      | KExceptHandler => visit_ExceptHandler generic_visit self
      | _ => generic_visit self
      end
  end.

End ComplexityAnalyzer.

(** [ComplexityMetrics] *)
Record ComplexityMetrics : Type := mkComplexityMetrics {
  cyclomatic_complexity : Z;
  lines_of_code : Z;
  function_count : Z;
  class_count : Z;
  max_nesting_depth : Z;
  avg_function_length : Q
}.

(** ** Issues and results *)

(** An issue dict.  Every issue has a [type] and a [message]; the keys
    [severity], [line], [threshold] and [code] are present or not
    depending on the producer. *)
Record Issue : Type := mkIssue {
  type_ : string;
  severity : option string;
  message : string;
  line : option Z;
  threshold_ : option Z;
  code : option text
}.

(** The dict returned by [analyze_documentation]. *)
Record DocumentationMetrics : Type := mkDocumentationMetrics {
  function_docstring_coverage : Q;
  class_docstring_coverage : Q;
  total_functions : Z;
  total_classes : Z;
  documented_functions : Z;
  documented_classes : Z
}.

(** The dict returned by [DependencyAnalyzer.analyze_file]. *)
Record DependencyInfo : Type := mkDependencyInfo {
  imports : list string;
  total_modules : Z
}.

(** The [metrics] dict of a result that has one. *)
Record Metrics : Type := mkMetrics {
  m_complexity : ComplexityMetrics;
  m_documentation : DocumentationMetrics;
  m_dependencies : DependencyInfo
}.

(** [AnalysisResult]; [metrics = None] is the empty dict. *)
Record AnalysisResult : Type := mkAnalysisResult {
  file_path : string;
  issues : list Issue;
  metrics : option Metrics;
  suggestions : list string
}.

(** ** Security scanner *)

Module SecurityAnalyzer.

Definition issue (i : Z) (line : text) (message : string) : Issue :=
  {| type_ := "security";
     severity := Some "high";
     message := message;
     line := Some i;
     threshold_ := None;
     code := Some (PyStr.strip line) |}.

(** The inner loop: the rules tried in order on one line. *)
Definition scan_line (issues : list Issue) (il : Z * text) : list Issue :=
  fold_left
    (fun issues (rule : Re.regex * string) =>
       if Re.search (fst rule) (snd il) Re.IGNORECASE
       then issues ++ [issue (fst il) (snd il) (snd rule)]
       else issues)
    SECURITY_PATTERNS issues.

Definition analyze_file (file_path : string) (content : text)
  : list Issue :=
  let issues := [] in
  let lines := PyStr.split_lines content in
  fold_left scan_line (PyStr.enumerate 1 lines) issues.

End SecurityAnalyzer.

(** ** Dependency extractor *)

Module DependencyAnalyzer.

Record t : Type := mk {
  imports_of : gmap string (gset string);   (* self.imports *)
  modules : gset string                     (* self.modules *)
}.

(** [__init__] *)
Definition init : t := mk ∅ ∅.

(** [self.imports[key]] on a [defaultdict(set)]: a missing key is created. *)
Definition touch (key : string) (self : t) : t :=
  match imports_of self !! key with
  | Some _ => self
  | None => mk (<[key := ∅]> (imports_of self)) (modules self)
  end.

Definition get (key : string) (self : t) : gset string :=
  default ∅ (imports_of self !! key).

(** [self.imports[key].add(name); self.modules.add(name)] *)
Definition add (key name : string) (self : t) : t :=
  mk (<[key := get key self ∪ {[name]}]> (imports_of self))
     (modules self ∪ {[name]}).

(** The body of the loop over [ast.walk(tree)]. *)
Definition record_node (key : string) (self : t) (n : node) : t :=
  match node_kind n with
  | KImport names => fold_left (fun s name => add key name s) names self
  | KImportFrom (Some m) => if PyStr.truthy m then add key m self else self
  | _ => self
  end.

Definition analyze_file (parse : text -> option node)
    (file_path : string) (content : text) (self : t) : t * DependencyInfo :=
  let self :=
    match parse content with
    | Some tree => fold_left (record_node file_path) (walk tree) self
    | None => self                          (* except SyntaxError: pass *)
    end in
  let self := touch file_path self in
  (self,
   {| imports := elements (get file_path self);
      total_modules := Z.of_nat (size (modules self)) |}).

End DependencyAnalyzer.

(** ** What the analyzer takes from its environment *)

Inductive read_result : Type :=
| ReadError (e : string)      (* [open]/[read] raised; [e] is [str(exc)] *)
| ReadOk (content : text).

Record Runtime : Type := mkRuntime {
  (** [ast.parse]; [None] when it raises [SyntaxError] *)
  ast_parse : text -> option node;
  (** [inspect.cleandoc], applied by [ast.get_docstring] *)
  cleandoc : text -> text;
  (** [open(path, 'r', encoding='utf-8').read()] *)
  read_file : string -> read_result;
  (** the float format [:.1f] *)
  format_1f : Q -> string;
  (** [str(datetime.now())] *)
  now : string;
  (** [Path(p).name] *)
  path_name : string -> string
}.

Definition Qgtb (a b : Q) : bool := negb (Qle_bool a b).
Definition Qltb (a b : Q) : bool := negb (Qle_bool b a).

(** Python's [sum] and [len]. *)
Definition sum (l : list Z) : Z := fold_left Z.add l 0.
Definition len {A} (l : list A) : Z := Z.of_nat (length l).

Section Analysis.

Variable rt : Runtime.

(** [ast.get_docstring(node)] *)
Definition get_docstring (n : node) : option text :=
  match node_body n with
  | Node KExpr [Node (KConstantStr value) _ _ _] _ _ :: _ =>
      Some (cleandoc rt value)
  | _ => None
  end.

(** Truth value of [ast.get_docstring(node)]. *)
Definition has_docstring (n : node) : bool :=
  match get_docstring n with
  | Some d => PyStr.text_truthy d
  | None => false
  end.

(** The line filter of [analyze_complexity]. *)
Definition is_code_line (line : text) : bool :=
  PyStr.text_truthy (PyStr.strip line)
  && negb (PyStr.startswith (PyStr.chars "#") (PyStr.strip line)).

Definition analyze_complexity (file_path : string) (content : text)
  : ComplexityMetrics :=
  match ast_parse rt content with
  | Some tree =>
      let analyzer := ComplexityAnalyzer.visit tree ComplexityAnalyzer.init in
      let lines := List.filter is_code_line (PyStr.split_lines content) in
      let analyzer := ComplexityAnalyzer.set_lines_of_code (len lines) analyzer in
      let lengths := ComplexityAnalyzer.function_lengths analyzer in
      let avg_function_length :=
        match lengths with
        | [] => 0%Q
        | _ => (inject_Z (sum lengths) / inject_Z (len lengths))%Q
        end in
      {| cyclomatic_complexity := ComplexityAnalyzer.complexity analyzer;
         lines_of_code := ComplexityAnalyzer.lines_of_code analyzer;
         function_count := ComplexityAnalyzer.function_count analyzer;
         class_count := ComplexityAnalyzer.class_count analyzer;
         max_nesting_depth := ComplexityAnalyzer.max_nesting_depth analyzer;
         avg_function_length := avg_function_length |}
  | None => mkComplexityMetrics 0 0 0 0 0 0%Q
  end.

(** The four counters of [analyze_documentation]. *)
Record doc_counts : Type := mkDocCounts {
  functions_with_docstrings : Z;
  n_functions : Z;
  classes_with_docstrings : Z;
  n_classes : Z
}.

(** The body of the loop over [ast.walk(tree)]. *)
Definition count_node (c : doc_counts) (n : node) : doc_counts :=
  match node_kind n with
  | KFunctionDef _ _ =>
      mkDocCounts
        (if has_docstring n then functions_with_docstrings c + 1
         else functions_with_docstrings c)
        (n_functions c + 1) (classes_with_docstrings c) (n_classes c)
  | KClassDef =>
      mkDocCounts
        (functions_with_docstrings c) (n_functions c)
        (if has_docstring n then classes_with_docstrings c + 1
         else classes_with_docstrings c)
        (n_classes c + 1)
  | _ => c
  end.

Definition coverage (documented total : Z) : Q :=
  if 0 <? total
  then ((inject_Z documented / inject_Z total) * 100)%Q
  else 0%Q.

Definition analyze_documentation (file_path : string) (content : text)
  : DocumentationMetrics :=
  match ast_parse rt content with
  | Some tree =>
      let c := fold_left count_node (walk tree) (mkDocCounts 0 0 0 0) in
      {| function_docstring_coverage :=
           coverage (functions_with_docstrings c) (n_functions c);
         class_docstring_coverage :=
           coverage (classes_with_docstrings c) (n_classes c);
         total_functions := n_functions c;
         total_classes := n_classes c;
         documented_functions := functions_with_docstrings c;
         documented_classes := classes_with_docstrings c |}
  | None => mkDocumentationMetrics 0%Q 0%Q 0 0 0 0
  end.

End Analysis.

(** ** File analyzer *)

Definition cyclomatic_issue (c : ComplexityMetrics) : Issue :=
  {| type_ := "complexity";
     severity := Some "warning";
     message :=
       "High cyclomatic complexity: " +:+ PyStr.of_int (cyclomatic_complexity c);
     line := None;
     threshold_ := Some (threshold "cyclomatic_complexity");
     code := None |}.

Definition nesting_issue (c : ComplexityMetrics) : Issue :=
  {| type_ := "complexity";
     severity := Some "warning";
     message :=
       "Deep nesting detected: " +:+ PyStr.of_int (max_nesting_depth c)
       +:+ " levels";
     line := None;
     threshold_ := Some (threshold "nesting_depth");
     code := None |}.

Definition length_issue (rt : Runtime) (c : ComplexityMetrics) : Issue :=
  {| type_ := "complexity";
     severity := Some "info";
     message :=
       "Long functions detected: avg "
       +:+ format_1f rt (avg_function_length c) +:+ " lines";
     line := None;
     threshold_ := Some (threshold "function_lines");
     code := None |}.

Definition function_doc_issue (rt : Runtime) (d : DocumentationMetrics)
  : Issue :=
  {| type_ := "documentation";
     severity := Some "info";
     message :=
       "Low function documentation coverage: "
       +:+ format_1f rt (function_docstring_coverage d) +:+ "%";
     line := None;
     threshold_ := None;
     code := None |}.

Definition class_doc_issue (rt : Runtime) (d : DocumentationMetrics)
  : Issue :=
  {| type_ := "documentation";
     severity := Some "info";
     message :=
       "Low class documentation coverage: "
       +:+ format_1f rt (class_docstring_coverage d) +:+ "%";
     line := None;
     threshold_ := None;
     code := None |}.

(** The issue of the [except Exception as e] branch: no [severity] key. *)
Definition read_error_issue (e : string) : Issue :=
  {| type_ := "error";
     severity := None;
     message := "Cannot read file: " +:+ e;
     line := None;
     threshold_ := None;
     code := None |}.

Definition suggest_complexity : string :=
  "Consider breaking down complex functions into smaller ones".
Definition suggest_nesting : string :=
  "Reduce nesting depth by extracting functions or using early returns".
Definition suggest_length : string :=
  "Consider breaking long functions into smaller, focused functions".
Definition suggest_function_docs : string :=
  "Add docstrings to functions for better documentation".
Definition suggest_class_docs : string :=
  "Add docstrings to classes for better documentation".

(** The two lists [analyze_file] appends to. *)
Definition report_state : Type := (list Issue * list string)%type.

(** [if cond: issues.append(i); suggestions.append(s)] *)
Definition flag (cond : bool) (i : Issue) (s : string) (st : report_state)
  : report_state :=
  if cond then (fst st ++ [i], snd st ++ [s]) else st.

(** [issues.extend(more)] *)
Definition extend (more : list Issue) (st : report_state) : report_state :=
  (fst st ++ more, snd st).

Definition analyze_file (rt : Runtime) (file_path : string) : AnalysisResult :=
  match read_file rt file_path with
  | ReadError e =>
      {| file_path := file_path;
         issues := [read_error_issue e];
         metrics := None;
         suggestions := [] |}
  | ReadOk content =>
      let st : report_state := ([], []) in
      (* Complexity analysis *)
      let complexity := analyze_complexity rt file_path content in
      let st :=
        flag (cyclomatic_complexity complexity
                >? threshold "cyclomatic_complexity")
             (cyclomatic_issue complexity) suggest_complexity st in
      let st :=
        flag (max_nesting_depth complexity >? threshold "nesting_depth")
             (nesting_issue complexity) suggest_nesting st in
      let st :=
        flag (Qgtb (avg_function_length complexity)
                   (inject_Z (threshold "function_lines")))
             (length_issue rt complexity) suggest_length st in
      (* Security analysis *)
      let security_issues := SecurityAnalyzer.analyze_file file_path content in
      let st := extend security_issues st in
      (* Documentation analysis *)
      let doc_analysis := analyze_documentation rt file_path content in
      let st :=
        flag (Qltb (function_docstring_coverage doc_analysis) 50)
             (function_doc_issue rt doc_analysis) suggest_function_docs st in
      let st :=
        flag (Qltb (class_docstring_coverage doc_analysis) 70)
             (class_doc_issue rt doc_analysis) suggest_class_docs st in
      (* Dependency analysis: a new analyzer for this file *)
      let dep_analyzer := DependencyAnalyzer.init in
      let dep_analysis :=
        snd (DependencyAnalyzer.analyze_file (ast_parse rt) file_path content
               dep_analyzer) in
      {| file_path := file_path;
         issues := fst st;
         metrics := Some {| m_complexity := complexity;
                            m_documentation := doc_analysis;
                            m_dependencies := dep_analysis |};
         suggestions := snd st |}
  end.

(** The loop of the [analyze] command over the files found. *)
Definition analyze_files (rt : Runtime) (files_to_analyze : list string)
  : list AnalysisResult :=
  fold_left (fun results file_path => results ++ [analyze_file rt file_path])
            files_to_analyze [].

(** One [DependencyAnalyzer] carried through a list of files: what its
    methods report when the instance is kept between calls. *)
Fixpoint dependency_run (parse : text -> option node)
    (self : DependencyAnalyzer.t) (files : list (string * text))
  : list DependencyInfo :=
  match files with
  | [] => []
  | (file_path, content) :: rest =>
      let r := DependencyAnalyzer.analyze_file parse file_path content self in
      snd r :: dependency_run parse (fst r) rest
  end.

(** ** Report renderers *)

Inductive exn : Type :=
| KeyError (key : string).

Definition severity_levels : gmap string Z :=
  <["info" := 1]> (<["warning" := 2]> (<["error" := 3]> ∅)).

(** [severity_levels[min_severity]] *)
Definition min_level_of (min_severity : string) : exn + Z :=
  match severity_levels !! min_severity with
  | Some l => inr l
  | None => inl (KeyError min_severity)
  end.

(** [severity_levels.get(issue.get('severity', 'info'), 1)] *)
Definition issue_level (i : Issue) : Z :=
  default 1 (severity_levels !! default "info" (severity i)).

(** [[i for i in issues if level(i) >= min_level]] *)
Definition filter_issues (min_level : Z) (issues : list Issue) : list Issue :=
  List.filter (fun i => issue_level i >=? min_level) issues.

Record FileData : Type := mkFileData {
  fd_path : string;
  fd_issues : list Issue;
  fd_metrics : option Metrics;
  fd_suggestions : list string
}.

Record ReportMetadata : Type := mkReportMetadata {
  md_tool : string;
  md_version : string;
  md_timestamp : string;
  md_min_severity : string
}.

Record ReportSummary : Type := mkReportSummary {
  total_files : Z;
  total_issues : Z;
  total_suggestions : Z
}.

Record JsonReport : Type := mkJsonReport {
  metadata : ReportMetadata;
  summary : ReportSummary;
  files : list FileData
}.

Definition generate_json_report (rt : Runtime)
    (results : list AnalysisResult) (min_severity : string)
  : exn + JsonReport :=
  match min_level_of min_severity with
  | inl e => inl e
  | inr min_level =>
      let report_data :=
        {| metadata := {| md_tool := TOOL_NAME;
                          md_version := TOOL_VERSION;
                          md_timestamp := now rt;
                          md_min_severity := min_severity |};
           summary :=
             {| total_files := len results;
                total_issues :=
                  sum (map (fun r => len (filter_issues min_level (issues r)))
                           results);
                total_suggestions :=
                  sum (map (fun r => len (suggestions r)) results) |};
           files := [] |} in
      inr (fold_left
             (fun report_data result =>
                let filtered_issues :=
                  filter_issues min_level (issues result) in
                let file_data :=
                  {| fd_path := file_path result;
                     fd_issues := filtered_issues;
                     fd_metrics := metrics result;
                     fd_suggestions := suggestions result |} in
                {| metadata := metadata report_data;
                   summary := summary report_data;
                   files := files report_data ++ [file_data] |})
             results report_data)
  end.

(** *** The text report

    What [generate_text_report] hands to the console: the rows of the
    summary table, the detailed listing and the suggestion list.  An
    exception ends the report. *)

Record SummaryRow : Type := mkSummaryRow {
  row_file : string;
  row_issues : string;
  row_complexity : string;
  row_loc : string;
  row_doc_coverage : string
}.

Record TextReport : Type := mkTextReport {
  summary_table : list SummaryRow;
  printed_total_issues : Z;
  printed_total_suggestions : Z;
  (** per file with issues to show: its name and the styled lines *)
  detailed_issues : list (string * list (string * string));
  suggestion_list : list string
}.

(** [result.metrics.get('complexity', {}).get(key, 0)] and the like. *)
Definition metric_cyclomatic (r : AnalysisResult) : Z :=
  match metrics r with
  | Some m => cyclomatic_complexity (m_complexity m)
  | None => 0
  end.

Definition metric_loc (r : AnalysisResult) : Z :=
  match metrics r with
  | Some m => lines_of_code (m_complexity m)
  | None => 0
  end.

Definition metric_doc_coverage (r : AnalysisResult) : Q :=
  match metrics r with
  | Some m => function_docstring_coverage (m_documentation m)
  | None => 0%Q
  end.

(** [{'info': 'cyan', 'warning': 'yellow', 'error': 'red'}[severity]] *)
Definition severity_styles : gmap string string :=
  <["info" := "cyan"]> (<["warning" := "yellow"]> (<["error" := "red"]> ∅)).

Definition style_of (sev : string) : exn + string :=
  match severity_styles !! sev with
  | Some s => inr s
  | None => inl (KeyError sev)
  end.

(** One line of the detailed listing, with its style. *)
Definition render_issue (i : Issue) : exn + (string * string) :=
  let sev := default "info" (severity i) in
  let issue_type := type_ i in
  let msg := message i in
  match style_of sev with
  | inl e => inl e
  | inr style =>
      let line_info :=
        match line i with
        | Some l => if Z.eqb l 0 then "" else ":" +:+ PyStr.of_int l
        | None => ""
        end in
      inr ("  [" +:+ PyStr.str_upper sev +:+ "] " +:+ issue_type
           +:+ line_info +:+ ": " +:+ msg, style)
  end.

Fixpoint render_issues (l : list Issue) : exn + list (string * string) :=
  match l with
  | [] => inr []
  | i :: rest =>
      match render_issue i with
      | inl e => inl e
      | inr x =>
          match render_issues rest with
          | inl e => inl e
          | inr xs => inr (x :: xs)
          end
      end
  end.

Section TextReport.

Variable rt : Runtime.

Definition summary_row (min_level : Z) (result : AnalysisResult)
  : SummaryRow :=
  let filtered_issues := filter_issues min_level (issues result) in
  {| row_file := path_name rt (file_path result);
     row_issues := PyStr.of_int (len filtered_issues);
     row_complexity := PyStr.of_int (metric_cyclomatic result);
     row_loc := PyStr.of_int (metric_loc result);
     row_doc_coverage := format_1f rt (metric_doc_coverage result) +:+ "%" |}.

Fixpoint render_details (min_level : Z) (results : list AnalysisResult)
  : exn + list (string * list (string * string)) :=
  match results with
  | [] => inr []
  | result :: rest =>
      let file_issues := filter_issues min_level (issues result) in
      match file_issues with
      | [] => render_details min_level rest
      | _ =>
          match render_issues file_issues with
          | inl e => inl e
          | inr shown =>
              match render_details min_level rest with
              | inl e => inl e
              | inr more =>
                  inr ((path_name rt (file_path result), shown) :: more)
              end
          end
      end
  end.

(** Removal of duplicates, first occurrences kept. *)
Definition unique_suggestions (all_suggestions : list string) : list string :=
  fold_left
    (fun unique suggestion =>
       if existsb (String.eqb suggestion) unique then unique
       else unique ++ [suggestion])
    all_suggestions [].

Definition generate_text_report (results : list AnalysisResult)
    (min_severity : string) : exn + TextReport :=
  match min_level_of min_severity with
  | inl e => inl e
  | inr min_level =>
      let rows := map (summary_row min_level) results in
      let total_issues :=
        fold_left
          (fun n r => n + len (filter_issues min_level (issues r)))
          results 0 in
      let total_suggestions :=
        fold_left (fun n r => n + len (suggestions r)) results 0 in
      let details :=
        if total_issues >? 0 then render_details min_level results
        else inr [] in
      match details with
      | inl e => inl e
      | inr details =>
          let suggestion_lines :=
            if total_suggestions >? 0 then
              let all_suggestions :=
                fold_left (fun all r => all ++ suggestions r) results [] in
              map (fun p => "  " +:+ PyStr.of_int (fst p) +:+ ". " +:+ snd p)
                  (PyStr.enumerate 1 (unique_suggestions all_suggestions))
            else [] in
          inr {| summary_table := rows;
                 printed_total_issues := total_issues;
                 printed_total_suggestions := total_suggestions;
                 detailed_issues := details;
                 suggestion_list := suggestion_lines |}
      end
  end.

End TextReport.

(** ** Auxiliary notions used by the statements *)

(** Structural induction on trees, through the three child lists. *)
Fixpoint node_forall_ind (P : node -> Prop)
    (step : forall k pre body post,
        Forall P pre -> Forall P body -> Forall P post ->
        P (Node k pre body post))
    (n : node) {struct n} : P n :=
  match n with
  | Node k pre body post =>
      let fix all (l : list node) : Forall P l :=
        match l with
        | [] => @List.Forall_nil _ P
        | x :: r =>
            @List.Forall_cons _ P x r (node_forall_ind P step x) (all r)
        end in
      step k pre body post (all pre) (all body) (all post)
  end.

Definition is_function_def (n : node) : bool :=
  match node_kind n with KFunctionDef _ _ => true | _ => false end.

Definition is_async_function_def (n : node) : bool :=
  match node_kind n with KAsyncFunctionDef _ _ => true | _ => false end.

(** What the complexity visitor takes for a function. *)
Definition is_any_function (n : node) : bool :=
  is_function_def n || is_async_function_def n.

(** Number of nodes of a list that satisfy a test. *)
Definition count (p : node -> bool) (l : list node) : Z :=
  len (List.filter p l).

(** The module names one node contributes to the dependency sets. *)
Definition node_modules (n : node) : list string :=
  match node_kind n with
  | KImport names => names
  | KImportFrom (Some m) => if PyStr.truthy m then [m] else []
  | _ => []
  end.

(** The modules imported by one file. *)
Definition file_modules (parse : text -> option node) (content : text)
  : gset string :=
  match parse content with
  | Some tree => list_to_set (flat_map node_modules (walk tree))
  | None => ∅
  end.

(** The totals a shared analyzer reports file after file: the sizes of the
    growing union of the modules seen so far. *)
Fixpoint running_totals (parse : text -> option node) (seen : gset string)
    (files : list (string * text)) : list Z :=
  match files with
  | [] => []
  | (_, content) :: rest =>
      let seen := seen ∪ file_modules parse content in
      Z.of_nat (size seen) :: running_totals parse seen rest
  end.

(** An issue the severity table does not rank: no [severity] key, or a
    name other than the three of [severity_levels]. *)
Definition unranked (i : Issue) : bool :=
  match severity i with
  | None => true
  | Some s =>
      negb (String.eqb s "info" || String.eqb s "warning"
            || String.eqb s "error")
  end.

(** A result without its unranked issues. *)
Definition drop_unranked (r : AnalysisResult) : AnalysisResult :=
  {| file_path := file_path r;
     issues := List.filter (fun i => negb (unranked i)) (issues r);
     metrics := metrics r;
     suggestions := suggestions r |}.

(** The rules of the catalog that fire on a line. *)
Definition matching_rules (line : text) : list (Re.regex * string) :=
  List.filter (fun rule => Re.search (fst rule) line Re.IGNORECASE)
              SECURITY_PATTERNS.

(** ["\n".join(lines)] *)
Fixpoint join_lines (lines : list text) : text :=
  match lines with
  | [] => []
  | l :: rest =>
      match rest with
      | [] => l
      | _ => l ++ PyStr.newline :: join_lines rest
      end
  end.

(** Two code points that are equal or the two cases of one letter. *)
Definition case_variant (a b : N) : Prop :=
  a = b \/ Re.letter_pair a b \/ Re.letter_pair b a.

(** The entry of one file in the structured report. *)
Definition file_data (min_level : Z) (r : AnalysisResult) : FileData :=
  {| fd_path := file_path r;
     fd_issues := filter_issues min_level (issues r);
     fd_metrics := metrics r;
     fd_suggestions := suggestions r |}.

(** The issues one numbered line gives rise to. *)
Definition line_issues (il : Z * text) : list Issue :=
  map (fun rule => SecurityAnalyzer.issue (fst il) (snd il) (snd rule))
      (matching_rules (snd il)).

(** The issue list of [analyze_file], part by part. *)
Definition when {A} (cond : bool) (x : A) : list A :=
  if cond then [x] else [].

(** ** A table-driven runtime for closed instances

    Files and parse results are looked up in tables; the remaining
    services are simple stand-ins. *)

Definition assoc {A} (key : string) (table : list (string * A)) : option A :=
  match List.find (fun p => String.eqb key (fst p)) table with
  | Some p => Some (snd p)
  | None => None
  end.

Definition format_tenths (q : Q) : string :=
  let t := Qfloor (q * 10 + (1 # 2))%Q in
  PyStr.of_int (t / 10) +:+ "." +:+ PyStr.of_int (t mod 10).

Fixpoint text_eqb (a b : text) : bool :=
  match a, b with
  | [], [] => true
  | x :: a', y :: b' => N.eqb x y && text_eqb a' b'
  | _, _ => false
  end.

Definition parse_table (parser : list (text * node)) (content : text)
  : option node :=
  match List.find (fun p => text_eqb content (fst p)) parser with
  | Some p => Some (snd p)
  | None => None
  end.

(** A missing file gives the message of [FileNotFoundError]. *)
Definition table_runtime (fs : list (string * text))
    (parser : list (text * node)) : Runtime :=
  {| ast_parse := parse_table parser;
     cleandoc := PyStr.strip;
     read_file := fun p =>
       match assoc p fs with
       | Some content => ReadOk content
       | None =>
           ReadError
             ("[Errno 2] No such file or directory: '" +:+ p +:+ "'")
       end;
     format_1f := format_tenths;
     now := "2025-10-23 12:00:00";
     path_name := fun p => p |}.

Definition leaf (k : kind) : node := Node k [] [] [].
(** [Name(id, ctx)]: the context is its only child node. *)
Definition name_node : node := Node KOther [leaf KOther] [] [].
Definition nl : string := String "010"%char EmptyString.
Definition dquote : string := String "034"%char EmptyString.

(** *** The scenario of one undocumented function

<<
def process(items):
    for item in items:
        if item:
            if item > 1:
                os.system("rm -rf /tmp/x")
>> *)
Definition scenario_call_line : string :=
  "                os.system(" +:+ dquote +:+ "rm -rf /tmp/x" +:+ dquote
  +:+ ")".

Definition scenario_source : text :=
  PyStr.chars
    ("def process(items):" +:+ nl +:+
     "    for item in items:" +:+ nl +:+
     "        if item:" +:+ nl +:+
     "            if item > 1:" +:+ nl +:+
     scenario_call_line +:+ nl).

(** The tree [ast.parse] builds for it. *)
Definition scenario_call : node :=
  (* Expr(Call(Attribute(Name os, system), [Constant str])) *)
  Node KExpr
    [Node KOther
       [Node KOther [name_node; leaf KOther] [] [];
        leaf (KConstantStr (PyStr.chars "rm -rf /tmp/x"))] [] []] [] [].

Definition scenario_inner_if : node :=
  (* If(Compare(Name item, [Gt], [Constant 1]), [Expr ...], []) *)
  Node KIf [Node KOther [name_node; leaf KOther; leaf KOther] [] []]
       [scenario_call] [].

Definition scenario_outer_if : node :=
  Node KIf [name_node] [scenario_inner_if] [].

Definition scenario_for : node :=
  Node KFor [name_node; name_node] [scenario_outer_if] [].

Definition scenario_function : node :=
  (* arguments(args=[arg items]) comes before the body *)
  Node (KFunctionDef 1 (Some 5)) [Node KOther [leaf KOther] [] []]
       [scenario_for] [].

Definition scenario_tree : node := Node KModule [] [scenario_function] [].

Definition scenario_runtime : Runtime :=
  table_runtime [("process.py", scenario_source)]
                [(scenario_source, scenario_tree)].

(** *** Further small files *)

(** [eval(x)] on a line of its own: [Expr(Call(Name eval, [Name x]))]. *)
Definition eval_source : text := PyStr.chars "eval(x)".
Definition eval_tree : node :=
  Node KModule []
    [Node KExpr [Node KOther [name_node; name_node] [] []] [] []] [].

(** Five lines for the security scanner; the fourth has the kelvin sign
    (8490) for [K], the fifth the long s (383) and an em space (8195):
<<
x = 1
s = 'EVAL(x)'
    # OS.System (cmd)
picKle.loads(data)
os.system (x); exec(y)
>> *)
Definition mixed_case_source : text :=
  PyStr.chars ("x = 1" +:+ nl +:+ "s = 'EVAL(x)'" +:+ nl
               +:+ "    # OS.System (cmd)" +:+ nl +:+ "pic")
  ++ [8490%N] ++ PyStr.chars ("le.loads(data)" +:+ nl +:+ "o")
  ++ [383%N] ++ PyStr.chars ".system" ++ [8195%N]
  ++ PyStr.chars "(x); exec(y)".

(** [import os] and [import sys]; the alias is the import's child. *)
Definition import_os_source : text := PyStr.chars "import os".
Definition import_sys_source : text := PyStr.chars "import sys".
Definition import_tree (name : string) : node :=
  Node KModule [] [Node (KImport [name]) [leaf KOther] [] []] [].

(** [async def fetch(): pass] *)
Definition async_source : text := PyStr.chars "async def fetch(): pass".
Definition async_tree : node :=
  Node KModule []
    [Node (KAsyncFunctionDef 1 (Some 1)) [leaf KOther] [leaf KOther] []] [].

(** A text that does not parse. *)
Definition broken_source : text := PyStr.chars "def broken(:".

Definition sample_runtime : Runtime :=
  table_runtime
    [("app.py", eval_source); ("a.py", import_os_source);
     ("b.py", import_sys_source); ("fetch.py", async_source);
     ("broken.py", broken_source)]
    [(eval_source, eval_tree); (import_os_source, import_tree "os");
     (import_sys_source, import_tree "sys"); (async_source, async_tree)].

(** Three issues, one of each ranked severity. *)
Definition sample_issue (sev : string) : Issue :=
  {| type_ := "complexity"; severity := Some sev; message := sev;
     line := None; threshold_ := None; code := None |}.

Definition sample_result : AnalysisResult :=
  {| file_path := "three.py";
     issues := [sample_issue "info"; sample_issue "warning";
                sample_issue "error"];
     metrics := None;
     suggestions := ["Add docstrings to functions for better documentation"] |}.

(** ** Measures of a tree *)

(** The node classes whose visit adds one to the complexity. *)
Definition is_branch (n : node) : bool :=
  match node_kind n with
  | KIf | KWhile | KFor | KTry | KExceptHandler => true
  | _ => false
  end.

Definition is_class_def (n : node) : bool :=
  match node_kind n with KClassDef => true | _ => false end.

(** The node classes whose visit raises the nesting depth around the
    children. *)
Definition opens_block (k : kind) : bool :=
  match k with
  | KFunctionDef _ _ | KAsyncFunctionDef _ _ | KClassDef
  | KIf | KWhile | KFor | KTry => true
  | _ => false
  end.

(** The largest number of block-opening nodes on a path from the node
    downwards. *)
Fixpoint nesting_height (n : node) : Z :=
  match n with
  | Node k pre body post =>
      let highest := fold_right (fun c m => Z.max (nesting_height c) m) 0 in
      let below := Z.max (highest pre) (Z.max (highest body) (highest post)) in
      if opens_block k then 1 + below else below
  end.

Definition forest_height (l : list node) : Z :=
  fold_right (fun c m => Z.max (nesting_height c) m) 0 l.

(** The length a function node adds to [function_lengths]. *)
Definition node_length (n : node) : list Z :=
  match node_kind n with
  | KFunctionDef l (Some e) | KAsyncFunctionDef l (Some e) =>
      if Z.eqb e 0 then [] else [e - l + 1]
  | _ => []
  end.

(** A visitor state after some nodes have been visited: [nb] more
    branches, blocks nested [h] deep below the current depth, [nf] more
    functions, [nc] more classes and the lengths [ls]. *)
Definition visited (s : ComplexityAnalyzer.t) (nb h nf nc : Z)
    (ls : list Z) : ComplexityAnalyzer.t :=
  ComplexityAnalyzer.mk
    (ComplexityAnalyzer.complexity s + nb)
    (ComplexityAnalyzer.nesting_depth s)
    (Z.max (ComplexityAnalyzer.max_nesting_depth s)
           (ComplexityAnalyzer.nesting_depth s + h))
    (ComplexityAnalyzer.function_count s + nf)
    (ComplexityAnalyzer.class_count s + nc)
    (ComplexityAnalyzer.lines_of_code s)
    (ComplexityAnalyzer.function_lengths s ++ ls)
    (ComplexityAnalyzer.current_function_lines s).

(** The arithmetic mean of a list of ints, 0 for the empty list. *)
Definition mean (ls : list Z) : Q :=
  match ls with
  | [] => 0%Q
  | _ => (inject_Z (sum ls) / inject_Z (len ls))%Q
  end.

Definition block_node (n : node) : bool := opens_block (node_kind n).

(** The maximum recorded so far is at least the current depth. *)
Definition depth_recorded (s : ComplexityAnalyzer.t) : Prop :=
  ComplexityAnalyzer.nesting_depth s <= ComplexityAnalyzer.max_nesting_depth s.

(** The documented function and class nodes. *)
Definition documented_function (rt : Runtime) (n : node) : bool :=
  is_function_def n && has_docstring rt n.

Definition documented_class (rt : Runtime) (n : node) : bool :=
  is_class_def n && has_docstring rt n.

(** An issue whose severity has no entry in the style table of the text
    report. *)
Definition unstyled (i : Issue) : bool :=
  match severity i with
  | None => false
  | Some _ => unranked i
  end.

(** ** File discovery *)

(** [pattern in s]: [pattern] is a factor of [s]. *)
Fixpoint str_contains (pattern s : string) : bool :=
  String.prefix pattern s ||
  match s with
  | EmptyString => false
  | String _ r => str_contains pattern r
  end.

Definition default_exclude_patterns : list string :=
  ["__pycache__"; ".venv"; "venv"; ".git"; "build"; "dist"].

(** The patterns in force: the default ones when none are given. *)
Definition exclusions (exclude_patterns : option (list string))
  : list string :=
  match exclude_patterns with
  | None => default_exclude_patterns
  | Some l => l
  end.

(** The inner loop of [find_python_files]: stop at the first pattern found
    in the path. *)
Fixpoint skip_file (exclude_patterns : list string) (file_path : string)
  : bool :=
  match exclude_patterns with
  | [] => false
  | pattern :: rest =>
      if str_contains pattern file_path then true
      else skip_file rest file_path
  end.

(** [rglob directory] stands for [directory.rglob("*.py")]. *)
Definition find_python_files (rglob : string -> list string)
    (directory : string) (exclude_patterns : option (list string))
  : list string :=
  let exclude_patterns :=
    match exclude_patterns with
    | None => default_exclude_patterns
    | Some l => l
    end in
  fold_left
    (fun python_files file_path =>
       if skip_file exclude_patterns file_path then python_files
       else python_files ++ [file_path])
    (rglob directory) [].

(** ** The hypertext report and the commands *)

(** What the commands take from the file system and the clock. *)
Record Cli : Type := mkCli {
  (** [Path(path).is_file()] *)
  is_file : string -> bool;
  (** [Path(path).rglob("*.py")] *)
  rglob : string -> list string;
  (** whether [open(file, 'w')] and the write succeed *)
  can_write : string -> bool;
  (** [datetime.now().strftime('%Y-%m-%d %H:%M:%S')] *)
  strftime_now : string
}.

(** The values [generate_html_report] places in its fixed markup: the
    header and summary fields, and per file its name and one
    [(class, message)] pair per issue. *)
Record HtmlReport : Type := mkHtmlReport {
  html_tool : string;
  html_generated_on : string;
  html_total_files : Z;
  html_min_severity : string;
  html_files : list (string * list (string * string))
}.

Inductive failure : Type :=
| Raised (e : exn)
| WriteFailed (file : string)
| Escaped (e : string).   (* an exception out of the analysis of a file *)

Definition html_issue (i : Issue) : string * string :=
  (default "info" (severity i), message i).

Definition generate_html_report (rt : Runtime) (cli : Cli)
    (results : list AnalysisResult) (min_severity output_file : string)
  : failure + HtmlReport :=
  let html_content :=
    {| html_tool := TOOL_NAME;
       html_generated_on := strftime_now cli;
       html_total_files := len results;
       html_min_severity := min_severity;
       html_files := [] |} in
  let html_content :=
    fold_left
      (fun html result =>
         let divs :=
           fold_left (fun divs i => divs ++ [html_issue i])
                     (issues result) [] in
         {| html_tool := html_tool html;
            html_generated_on := html_generated_on html;
            html_total_files := html_total_files html;
            html_min_severity := html_min_severity html;
            html_files :=
              html_files html ++ [(path_name rt (file_path result), divs)] |})
      results html_content in
  if can_write cli output_file then inr html_content
  else inl (WriteFailed output_file).

(** How a command ends. *)
Inductive outcome : Type :=
| NoPythonFiles
| TextPrinted (report : TextReport)
| JsonPrinted (report : JsonReport)
| JsonSaved (file : string) (report : JsonReport)
| HtmlSaved (file : string) (report : HtmlReport)
| NothingRendered
| Exit1 (e : failure).

(** Truth value of the optional [report_file]. *)
Definition given (report_file : option string) : option string :=
  match report_file with
  | Some f => if PyStr.truthy f then Some f else None
  | None => None
  end.

(** *** Exceptions that leave the analyzers

    [analyze_complexity], [analyze_documentation] and the dependency
    extractor catch [SyntaxError] and nothing else.  [ast.parse] raises
    other exceptions too ([ValueError] on a null character up to Python
    3.11, [RecursionError] on deeply nested source), and the recursive
    [NodeVisitor] raises [RecursionError] on a tree deeper than the
    recursion limit allows.  The environment says which texts and trees
    do so, by the name of the exception class. *)
Record Raising : Type := mkRaising {
  (** [ast.parse(content)] raises this exception, which is no
      [SyntaxError] *)
  parse_raises : text -> option string;
  (** [analyzer.visit(tree)] raises this exception *)
  visit_raises : node -> option string
}.

(** [analyze_complexity]: the value it returns, or the exception that
    leaves it. *)
Definition analyze_complexity_exn (rt : Runtime) (ex : Raising)
    (file_path : string) (content : text) : string + ComplexityMetrics :=
  match parse_raises ex content with
  | Some e => inl e
  | None =>
      match ast_parse rt content with
      | Some tree =>
          match visit_raises ex tree with
          | Some e => inl e
          | None => inr (analyze_complexity rt file_path content)
          end
      | None => inr (analyze_complexity rt file_path content)
      end
  end.

(** [analyze_documentation] and [DependencyAnalyzer.analyze_file] walk the
    tree with [ast.walk], which does not recurse: only [ast.parse] can
    raise. *)
Definition analyze_documentation_exn (rt : Runtime) (ex : Raising)
    (file_path : string) (content : text) : string + DocumentationMetrics :=
  match parse_raises ex content with
  | Some e => inl e
  | None => inr (analyze_documentation rt file_path content)
  end.

Definition dependency_analyze_file_exn (rt : Runtime) (ex : Raising)
    (file_path : string) (content : text) (self : DependencyAnalyzer.t)
  : string + (DependencyAnalyzer.t * DependencyInfo) :=
  match parse_raises ex content with
  | Some e => inl e
  | None =>
      inr (DependencyAnalyzer.analyze_file (ast_parse rt) file_path content
             self)
  end.

(** [analyze_file]: only the read is under a handler; the analyses run
    in the order complexity, security, documentation, dependencies. *)
Definition analyze_file_exn (rt : Runtime) (ex : Raising)
    (file_path : string) : string + AnalysisResult :=
  match read_file rt file_path with
  | ReadError _ => inr (analyze_file rt file_path)
  | ReadOk content =>
      match analyze_complexity_exn rt ex file_path content with
      | inl e => inl e
      | inr _ =>
          match analyze_documentation_exn rt ex file_path content with
          | inl e => inl e
          | inr _ =>
              match dependency_analyze_file_exn rt ex file_path content
                      DependencyAnalyzer.init with
              | inl e => inl e
              | inr _ => inr (analyze_file rt file_path)
              end
          end
      end
  end.

(** The loop of the [analyze] command: the first exception ends it. *)
Fixpoint analyze_files_exn (rt : Runtime) (ex : Raising)
    (files_to_analyze : list string) : string + list AnalysisResult :=
  match files_to_analyze with
  | [] => inr []
  | file_path :: rest =>
      match analyze_file_exn rt ex file_path with
      | inl e => inl e
      | inr result =>
          match analyze_files_exn rt ex rest with
          | inl e => inl e
          | inr results => inr (result :: results)
          end
      end
  end.

(** The [analyze] command.  Every exception raised in its body is caught
    by its handler, which prints it and exits with status 1. *)
Definition analyze (rt : Runtime) (ex : Raising) (cli : Cli)
    (path output min_severity : string) (report_file : option string)
  : outcome :=
  let files_to_analyze :=
    if is_file cli path then [path]
    else find_python_files (rglob cli) path None in
  match files_to_analyze with
  | [] => NoPythonFiles
  | _ =>
      match analyze_files_exn rt ex files_to_analyze with
      | inl e => Exit1 (Escaped e)
      | inr results =>
          if String.eqb output "text" then
            match generate_text_report rt results min_severity with
            | inl e => Exit1 (Raised e)
            | inr report => TextPrinted report
            end
          else if String.eqb output "json" then
            match generate_json_report rt results min_severity with
            | inl e => Exit1 (Raised e)
            | inr report_data =>
                match given report_file with
                | Some f =>
                    if can_write cli f then JsonSaved f report_data
                    else Exit1 (WriteFailed f)
                | None => JsonPrinted report_data
                end
            end
          else if String.eqb output "html" then
            let report_file :=
              match given report_file with
              | Some f => f
              | None => "analysis_report.html"
              end in
            match generate_html_report rt cli results min_severity
                    report_file with
            | inl e => Exit1 e
            | inr html => HtmlSaved report_file html
            end
          else NothingRendered
      end
  end.

(** *** The [complexity] command *)

Record ComplexityRow : Type := mkComplexityRow {
  cr_file : string;
  cr_complexity : string;
  cr_loc : string;
  cr_functions : string;
  cr_classes : string;
  cr_max_depth : string;
  cr_style : string
}.

(** The four running totals. *)
Record Totals : Type := mkTotals {
  total_complexity : Z;
  total_loc : Z;
  total_function_count : Z;
  total_class_count : Z
}.

Inductive recommendation : Type :=
| HighComplexity       (* "High average complexity detected ..." *)
| ModerateComplexity   (* "Moderate complexity ..." *)
| GoodComplexity.      (* "Good complexity levels maintained" *)

(** The row of a file whose read or analysis raised. *)
Definition error_row (rt : Runtime) (file_path : string) : ComplexityRow :=
  {| cr_file := path_name rt file_path;
     cr_complexity := "Error"; cr_loc := "-"; cr_functions := "-";
     cr_classes := "-"; cr_max_depth := "-"; cr_style := "red" |}.

(** The body of the loop over the files: one row, and the totals.  The
    read and the analysis are under one handler. *)
Definition complexity_step (rt : Runtime) (ex : Raising)
    (acc : list ComplexityRow * Totals) (file_path : string)
  : list ComplexityRow * Totals :=
  let '(table, t) := acc in
  match read_file rt file_path with
  | ReadOk content =>
      match analyze_complexity_exn rt ex file_path content with
      | inr complexity_metrics =>
          let complexity_style :=
            if cyclomatic_complexity complexity_metrics >? 20 then "red"
            else if cyclomatic_complexity complexity_metrics >? 10
                 then "yellow"
            else "green" in
          (table ++
             [{| cr_file := path_name rt file_path;
                 cr_complexity :=
                   PyStr.of_int (cyclomatic_complexity complexity_metrics);
                 cr_loc := PyStr.of_int (lines_of_code complexity_metrics);
                 cr_functions :=
                   PyStr.of_int (function_count complexity_metrics);
                 cr_classes := PyStr.of_int (class_count complexity_metrics);
                 cr_max_depth :=
                   PyStr.of_int (max_nesting_depth complexity_metrics);
                 cr_style := complexity_style |}],
           {| total_complexity :=
                total_complexity t + cyclomatic_complexity complexity_metrics;
              total_loc := total_loc t + lines_of_code complexity_metrics;
              total_function_count :=
                total_function_count t + function_count complexity_metrics;
              total_class_count :=
                total_class_count t + class_count complexity_metrics |})
      | inl _ => (table ++ [error_row rt file_path], t)
      end
  | ReadError _ => (table ++ [error_row rt file_path], t)
  end.

Inductive complexity_outcome : Type :=
| ComplexityNoFiles
| ComplexityTable (rows : list ComplexityRow) (totals : Totals)
                  (advice : recommendation).

Definition recommend (avg_complexity : Q) : recommendation :=
  if Qgtb avg_complexity 15 then HighComplexity
  else if Qgtb avg_complexity 8 then ModerateComplexity
  else GoodComplexity.

Definition complexity (rt : Runtime) (ex : Raising) (cli : Cli)
    (path : string) : complexity_outcome :=
  let files_to_analyze :=
    if is_file cli path then [path]
    else find_python_files (rglob cli) path None in
  match files_to_analyze with
  | [] => ComplexityNoFiles
  | _ =>
      let '(table, t) :=
        fold_left (complexity_step rt ex) files_to_analyze
                  ([], mkTotals 0 0 0 0) in
      let avg_complexity :=
        (inject_Z (total_complexity t) / inject_Z (len files_to_analyze))%Q in
      ComplexityTable table t (recommend avg_complexity)
  end.

(** The metrics of a file of the [complexity] command, when its read and
    its analysis both return. *)
Definition measure (rt : Runtime) (ex : Raising) (file_path : string)
  : option ComplexityMetrics :=
  match read_file rt file_path with
  | ReadOk content =>
      match analyze_complexity_exn rt ex file_path content with
      | inr m => Some m
      | inl _ => None
      end
  | ReadError _ => None
  end.

(** The row of one file in the table of the [complexity] command. *)
Definition complexity_row (rt : Runtime) (ex : Raising) (file_path : string)
  : ComplexityRow :=
  match measure rt ex file_path with
  | Some m =>
      {| cr_file := path_name rt file_path;
         cr_complexity := PyStr.of_int (cyclomatic_complexity m);
         cr_loc := PyStr.of_int (lines_of_code m);
         cr_functions := PyStr.of_int (function_count m);
         cr_classes := PyStr.of_int (class_count m);
         cr_max_depth := PyStr.of_int (max_nesting_depth m);
         cr_style :=
           if cyclomatic_complexity m >? 20 then "red"
           else if cyclomatic_complexity m >? 10 then "yellow"
           else "green" |}
  | None => error_row rt file_path
  end.

(** The metrics of the files that could be read and analyzed. *)
Definition measured (rt : Runtime) (ex : Raising) (files : list string)
  : list ComplexityMetrics :=
  flat_map
    (fun f => match measure rt ex f with Some m => [m] | None => [] end)
    files.

(** What makes the analysis of a file raise [e]: the file is read, and
    the parser raises [e] on its text, or the visitor on its tree. *)
Definition raises (rt : Runtime) (ex : Raising) (file_path e : string)
  : Prop :=
  exists content,
    read_file rt file_path = ReadOk content
    /\ (parse_raises ex content = Some e
        \/ (parse_raises ex content = None
            /\ exists tree,
                 ast_parse rt content = Some tree
                 /\ visit_raises ex tree = Some e)).

(** The file section of the hypertext report for one result. *)
Definition html_file (rt : Runtime) (r : AnalysisResult)
  : string * list (string * string) :=
  (path_name rt (file_path r), map html_issue (issues r)).

(** The files a command works on. *)
Definition files_of (cli : Cli) (path : string) : list string :=
  if is_file cli path then [path]
  else find_python_files (rglob cli) path None.

(** *** The control skeleton of a file and its rule matches *)

(** The nodes that open a block or add to the complexity. *)
Definition control_node (n : node) : bool := block_node n || is_branch n.

(** Their classes, in depth-first order. *)
Definition skeleton (tree : node) : list kind :=
  map node_kind (List.filter control_node (nodes tree)).

(** [node_length] reads the class of the node only. *)
Definition kind_length (k : kind) : list Z :=
  match k with
  | KFunctionDef l (Some e) | KAsyncFunctionDef l (Some e) =>
      if Z.eqb e 0 then [] else [e - l + 1]
  | _ => []
  end.

(** The matches of the catalog in a text: line number, line and rule, in
    the order of the scan. *)
Definition rule_matches (content : text)
  : list (Z * text * (Re.regex * string)) :=
  flat_map
    (fun il => map (fun rule => (fst il, snd il, rule))
                   (matching_rules (snd il)))
    (PyStr.enumerate 1 (PyStr.split_lines content)).

(** The last rule of the catalog. *)
Definition os_system_rule : Re.regex * string :=
  (Re.seq [Re.lit "os.system"; Re.ws_star; Re.lit "("],
   "Use of os.system() can be dangerous").

(** The scenario file with another argument of the call:
<<
def process(items):
    for item in items:
        if item:
            if item > 1:
                os.system(eval(cmd))
>> *)
Definition variant_source : text :=
  PyStr.chars
    ("def process(items):" +:+ nl +:+
     "    for item in items:" +:+ nl +:+
     "        if item:" +:+ nl +:+
     "            if item > 1:" +:+ nl +:+
     "                os.system(eval(cmd))" +:+ nl).

Definition variant_call : node :=
  (* Expr(Call(Attribute(Name os, system), [Call(Name eval, [Name cmd])])) *)
  Node KExpr
    [Node KOther
       [Node KOther [name_node; leaf KOther] [] [];
        Node KOther [name_node; name_node] [] []] [] []] [] [].

Definition variant_tree : node :=
  Node KModule []
    [Node (KFunctionDef 1 (Some 5)) [Node KOther [leaf KOther] [] []]
       [Node KFor [name_node; name_node]
          [Node KIf [name_node]
             [Node KIf
                [Node KOther [name_node; leaf KOther; leaf KOther] [] []]
                [variant_call] []] []] []] []] [].

Definition variant_runtime : Runtime :=
  table_runtime [("process.py", variant_source)]
                [(variant_source, variant_tree)].

(** The scenario file with 55 comment lines before the call, so that the
    function spans 60 lines. *)
Fixpoint repeat_line (n : nat) (l : string) : string :=
  match n with
  | O => EmptyString
  | S n' => l +:+ nl +:+ repeat_line n' l
  end.

Definition long_source : text :=
  PyStr.chars
    ("def process(items):" +:+ nl +:+
     "    for item in items:" +:+ nl +:+
     "        if item:" +:+ nl +:+
     "            if item > 1:" +:+ nl +:+
     repeat_line 55 "                # step" +:+
     scenario_call_line +:+ nl).

Definition long_tree : node :=
  Node KModule []
    [Node (KFunctionDef 1 (Some 60)) [Node KOther [leaf KOther] [] []]
       [scenario_for] []] [].

Definition long_runtime : Runtime :=
  table_runtime [("process.py", long_source)] [(long_source, long_tree)].

(** An environment in which nothing but [SyntaxError] is raised, and the
    one of Python 3.8 to 3.11, where [ast.parse] raises [ValueError] on a
    text with a null character. *)
Definition no_raising : Raising :=
  {| parse_raises := fun _ => None; visit_raises := fun _ => None |}.

Definition null_byte_raising : Raising :=
  {| parse_raises := fun content =>
       if existsb (N.eqb 0) content then Some "ValueError" else None;
     visit_raises := fun _ => None |}.

(** [x = 1] followed by a null character. *)
Definition nul_source : text := PyStr.chars "x = 1" ++ [0%N; 10%N].

Definition scan_runtime : Runtime :=
  table_runtime
    [("a.py", import_os_source); ("nul.py", nul_source);
     ("broken.py", broken_source)]
    [(import_os_source, import_tree "os")].

(** A command-line environment over a fixed listing. *)
Definition listing_cli (single : list string) (listing : list string) : Cli :=
  {| is_file := fun p => existsb (String.eqb p) single;
     rglob := fun _ => listing;
     can_write := fun _ => true;
     strftime_now := "2025-10-23 12:00:00" |}.

(** * Properties *)

(** ** The matcher decides the language of a pattern *)

(** Boolean tests on code points, as propositions. *)
Ltac reflect_tests :=
  repeat progress rewrite ?andb_true_iff, ?orb_true_iff, ?andb_false_iff, ?orb_false_iff,
    ?negb_true_iff, ?negb_false_iff, ?N.leb_le, ?N.leb_gt, ?N.eqb_eq,
    ?N.eqb_neq in *.

Lemma isspace_spec (c : N) : PyStr.isspace c = true <-> In c Re.whitespace.
Proof.
  unfold PyStr.isspace, Re.whitespace. reflect_tests. simpl. lia.
Qed.

(** The table of the matcher agrees with the reference reading, for each
    of the 256 pattern characters. *)
Lemma ignorecase_class_spec (l : ascii) (c : N) :
  existsb (N.eqb c) (Re.ignorecase_class (N_of_ascii l)) = true
  <-> Re.caseless (N_of_ascii l) c.
Proof.
  unfold Re.caseless, Re.letter_pair, Re.caseless_pairs. simpl In.
  rewrite !pair_equal_spec.
  destruct l as [[] [] [] [] [] [] [] []];
    match goal with
    | |- context [Re.ignorecase_class ?n] =>
        let n' := eval vm_compute in n in
        change n with n';
        let cl := eval vm_compute in (Re.ignorecase_class n') in
        change (Re.ignorecase_class n') with cl
    end;
    cbn [existsb]; reflect_tests; lia.
Qed.

Lemma lit_matches_spec (f : Re.flags) (l : ascii) (c : N) :
  Re.lit_matches f l c = true <-> Re.lit_in f l c.
Proof.
  unfold Re.lit_matches, Re.lit_in. destruct (Re.ignorecase f).
  - apply ignorecase_class_spec.
  - rewrite N.eqb_eq. split; congruence.
Qed.

Lemma cset_matches_spec (f : Re.flags) (cs : Re.cset) (c : N) :
  Re.cset_matches f cs c = true <-> Re.char_in f cs c.
Proof.
  destruct cs as [l | | | l]; simpl.
  - apply lit_matches_spec.
  - apply isspace_spec.
  - unfold PyStr.newline. rewrite negb_true_iff, N.eqb_neq. tauto.
  - rewrite negb_true_iff, <- not_true_iff_false, lit_matches_spec. tauto.
Qed.

Section RegexFacts.

Variable f : Re.flags.

Create HintDb re.
Local Hint Constructors Re.matches : re.

Ltac invc H := inversion H; subst; clear H.

Lemma nullable_spec (r : Re.regex) :
  Re.nullable r = true <-> Re.matches f r [].
Proof.
  induction r as [| | cs | r1 IH1 r2 IH2 | r1 IH1 r2 IH2 | r IH]; simpl.
  - split; [discriminate | intros H; invc H].
  - split; auto with re.
  - split; [discriminate | intros H; invc H].
  - rewrite andb_true_iff, IH1, IH2. split.
    + intros [H1 H2]. change (Re.matches f (Re.Cat r1 r2) ([] ++ [])).
      auto with re.
    + intros H. invc H.
      match goal with E : _ ++ _ = [] |- _ =>
        apply app_eq_nil in E; destruct E; subst end.
      auto.
  - rewrite orb_true_iff, IH1, IH2. split.
    + intros [H | H]; auto with re.
    + intros H. invc H; auto.
  - split; auto with re.
Qed.

Lemma matches_void (s : text) : ~ Re.matches f Re.Void s.
Proof. intros H; invc H. Qed.

Lemma matches_eps (s : text) : Re.matches f Re.Eps s -> s = [].
Proof. intros H; invc H; reflexivity. Qed.

Lemma alt_spec (a b : Re.regex) (s : text) :
  Re.matches f (Re.alt a b) s <-> Re.matches f (Re.Alt a b) s.
Proof.
  split.
  - destruct a, b; simpl; intros H; auto with re.
  - intros H. invc H.
    + destruct a, b; simpl; auto with re;
        match goal with H : Re.matches _ Re.Void _ |- _ =>
          destruct (matches_void _ H) end.
    + destruct a, b; simpl; auto with re;
        match goal with H : Re.matches _ Re.Void _ |- _ =>
          destruct (matches_void _ H) end.
Qed.

Lemma cat_eps_l (b : Re.regex) (s : text) :
  Re.matches f b s -> Re.matches f (Re.Cat Re.Eps b) s.
Proof.
  intros H. change (Re.matches f (Re.Cat Re.Eps b) ([] ++ s)). auto with re.
Qed.

Lemma cat_spec (a b : Re.regex) (s : text) :
  Re.matches f (Re.cat a b) s <-> Re.matches f (Re.Cat a b) s.
Proof.
  split.
  - destruct a, b; simpl; intros H; auto using cat_eps_l with re;
      destruct (matches_void _ H).
  - intros H. invc H.
    destruct a, b; simpl; auto with re;
      try match goal with H : Re.matches _ Re.Void _ |- _ =>
            destruct (matches_void _ H) end;
      match goal with H : Re.matches _ Re.Eps _ |- _ =>
        apply matches_eps in H; subst; simpl; assumption end.
Qed.

Lemma star_cons_inv (r : Re.regex) (c : N) (s : text) :
  Re.matches f (Re.Star r) (c :: s) ->
  exists s1 s2, s = s1 ++ s2 /\ Re.matches f r (c :: s1)
                /\ Re.matches f (Re.Star r) s2.
Proof.
  intros H. remember (Re.Star r) as r' eqn:Er. remember (c :: s) as t eqn:Et.
  revert s Et.
  induction H as [| | | | | |r0 s1 s2 H1 _ H2 IH2]; try discriminate Er;
    intros s Et; [discriminate Et|].
  invc Er. destruct s1 as [|c1 s1]; simpl in Et.
  - apply IH2; auto.
  - invc Et. exists s1, s2. auto.
Qed.

Lemma deriv_spec (c : N) (r : Re.regex) (s : text) :
  Re.matches f (Re.deriv f c r) s <-> Re.matches f r (c :: s).
Proof.
  revert s.
  induction r as [| | cs | r1 IH1 r2 IH2 | r1 IH1 r2 IH2 | r IH];
    intros s; simpl.
  - split; intros H; invc H.
  - split; intros H; invc H.
  - destruct (Re.cset_matches f cs c) eqn:E; split; intros H.
    + apply matches_eps in H; subst. apply Re.MChr, cset_matches_spec, E.
    + invc H. auto with re.
    + invc H.
    + invc H.
      match goal with H : Re.char_in _ _ _ |- _ =>
        apply cset_matches_spec in H; congruence end.
  - assert (Hcat : forall t,
               Re.matches f (Re.cat (Re.deriv f c r1) r2) t ->
               Re.matches f (Re.Cat r1 r2) (c :: t)).
    { intros t H. apply cat_spec in H. invc H.
      change (Re.matches f (Re.Cat r1 r2) ((c :: s1) ++ s2)).
      apply Re.MCat; [apply IH1|]; assumption. }
    destruct (Re.nullable r1) eqn:N; split; intros H.
    + apply alt_spec in H. invc H; [auto|].
      change (Re.matches f (Re.Cat r1 r2) ([] ++ c :: s)).
      apply Re.MCat; [apply nullable_spec | apply IH2]; assumption.
    + apply alt_spec. invc H. destruct s1 as [|c1 s1]; simpl in *.
      * subst. apply Re.MAltR, IH2. assumption.
      * match goal with E : _ :: _ = _ :: _ |- _ => invc E end.
        apply Re.MAltL, cat_spec, Re.MCat; [apply IH1|]; assumption.
    + auto.
    + invc H. destruct s1 as [|c1 s1]; simpl in *.
      * match goal with H : Re.matches f r1 [] |- _ =>
          apply nullable_spec in H; congruence end.
      * match goal with E : _ :: _ = _ :: _ |- _ => invc E end.
        apply cat_spec, Re.MCat; [apply IH1|]; assumption.
  - split; intros H.
    + apply alt_spec in H. invc H; [apply Re.MAltL, IH1 | apply Re.MAltR, IH2];
        assumption.
    + apply alt_spec. invc H; [apply Re.MAltL, IH1 | apply Re.MAltR, IH2];
        assumption.
  - split; intros H.
    + apply cat_spec in H. invc H.
      change (Re.matches f (Re.Star r) ((c :: s1) ++ s2)).
      apply Re.MStarS; [apply IH|]; assumption.
    + apply star_cons_inv in H. destruct H as (s1 & s2 & -> & H1 & H2).
      apply cat_spec, Re.MCat; [apply IH|]; assumption.
Qed.

Lemma match_prefix_spec (r : Re.regex) (s : text) :
  Re.match_prefix f r s = true <->
  exists s1 s2, s = s1 ++ s2 /\ Re.matches f r s1.
Proof.
  revert r. induction s as [|c s IH]; intros r; simpl.
  - rewrite orb_false_r, nullable_spec. split.
    + intros H. exists [], []. auto.
    + intros (s1 & s2 & E & H). symmetry in E.
      apply app_eq_nil in E. destruct E; subst. assumption.
  - rewrite orb_true_iff, nullable_spec, IH. split.
    + intros [H | (s1 & s2 & -> & H)].
      * exists [], (c :: s). auto.
      * exists (c :: s1), s2. split; [reflexivity | apply deriv_spec, H].
    + intros (s1 & s2 & E & H). destruct s1 as [|c1 s1]; simpl in E.
      * left. assumption.
      * invc E. right. exists s1, s2. split; [reflexivity|].
        apply deriv_spec, H.
Qed.

Lemma search_list_spec (r : Re.regex) (s : text) :
  Re.search_list f r s = true <->
  exists pre m post, s = pre ++ m ++ post /\ Re.matches f r m.
Proof.
  induction s as [|c s IH]; simpl.
  - rewrite !orb_false_r, nullable_spec. split.
    + intros H. exists [], [], []. auto.
    + intros (pre & m & post & E & H). symmetry in E.
      apply app_eq_nil in E. destruct E as [-> E].
      apply app_eq_nil in E. destruct E; subst. assumption.
  - rewrite orb_true_iff, IH.
    pose proof (match_prefix_spec r (c :: s)) as P. simpl in P. rewrite P.
    split.
    + intros [(s1 & s2 & E & H) | (pre & m & post & -> & H)].
      * exists [], s1, s2. auto.
      * exists (c :: pre), m, post. auto.
    + intros (pre & m & post & E & H). destruct pre as [|c1 pre]; simpl in E.
      * left. exists m, post. auto.
      * invc E. right. exists pre, m, post. auto.
Qed.

End RegexFacts.

(** ** Loops that append *)

Lemma fold_append_filter {A B} (p : A -> bool) (g : A -> B)
    (l : list A) (acc : list B) :
  fold_left (fun acc x => if p x then acc ++ [g x] else acc) l acc
  = acc ++ map g (List.filter p l).
Proof.
  revert acc. induction l as [|x l IH]; intros acc; simpl.
  - now rewrite app_nil_r.
  - rewrite IH. destruct (p x); simpl; [|reflexivity].
    now rewrite <- app_assoc.
Qed.

Lemma fold_append_flat_map {A B} (g : A -> list B)
    (step : list B -> A -> list B)
    (Hstep : forall acc x, step acc x = acc ++ g x)
    (l : list A) (acc : list B) :
  fold_left step l acc = acc ++ flat_map g l.
Proof.
  revert acc. induction l as [|x l IH]; intros acc; simpl.
  - now rewrite app_nil_r.
  - rewrite IH, Hstep. now rewrite <- app_assoc.
Qed.

Lemma sum_from (l : list Z) (a : Z) : fold_left Z.add l a = a + sum l.
Proof.
  unfold sum. revert a. induction l as [|x l IH]; intros a; simpl.
  - lia.
  - rewrite (IH (a + x)), (IH (0 + x)). lia.
Qed.

Lemma sum_cons (x : Z) (l : list Z) : sum (x :: l) = x + sum l.
Proof. unfold sum at 1. simpl. apply sum_from. Qed.

Lemma len_app {A} (l1 l2 : list A) : len (l1 ++ l2) = len l1 + len l2.
Proof. unfold len. rewrite length_app. lia. Qed.

Lemma len_flat_map {A B} (g : A -> list B) (l : list A) :
  len (flat_map g l) = sum (map (fun x => len (g x)) l).
Proof.
  induction l as [|x l IH]; simpl; [reflexivity|].
  now rewrite len_app, sum_cons, IH.
Qed.

(** [enumerate] numbers the elements consecutively from [start]. *)
Lemma in_enumerate {A} (l : list A) (start i : Z) (x : A) :
  In (i, x) (PyStr.enumerate start l)
  <-> start <= i /\ l !! Z.to_nat (i - start) = Some x.
Proof.
  revert start. induction l as [|a l IH]; intros start; simpl.
  - split; [tauto | intros [_ H]; discriminate H].
  - rewrite IH. split.
    + intros [E | [Hle Hl]].
      * inversion E; subst. split; [lia|].
        now replace (i - i) with 0 by lia.
      * split; [lia|].
        replace (Z.to_nat (i - start)) with (S (Z.to_nat (i - (start + 1))))
          by lia.
        exact Hl.
    + intros [Hle Hl]. destruct (Z.eq_dec i start) as [->|Hne].
      * left. replace (start - start) with 0 in Hl by lia.
        simpl in Hl. now inversion Hl.
      * right. split; [lia|].
        replace (Z.to_nat (i - start)) with (S (Z.to_nat (i - (start + 1))))
          in Hl by lia.
        exact Hl.
Qed.

Lemma map_snd_enumerate {A} (l : list A) (start : Z) :
  map snd (PyStr.enumerate start l) = l.
Proof.
  revert start. induction l as [|a l IH]; intros start; simpl;
    [reflexivity | now rewrite IH].
Qed.

(** ** Security scanner *)

Lemma scan_line_spec (issues : list Issue) (il : Z * text) :
  SecurityAnalyzer.scan_line issues il = issues ++ line_issues il.
Proof.
  unfold SecurityAnalyzer.scan_line, line_issues, matching_rules.
  apply (fold_append_filter
           (fun rule => Re.search (fst rule) (snd il) Re.IGNORECASE)
           (fun rule => SecurityAnalyzer.issue (fst il) (snd il) (snd rule))).
Qed.

Lemma security_analyze_file_spec (file_path : string) (content : text) :
  SecurityAnalyzer.analyze_file file_path content
  = flat_map line_issues (PyStr.enumerate 1 (PyStr.split_lines content)).
Proof.
  unfold SecurityAnalyzer.analyze_file.
  now rewrite (fold_append_flat_map line_issues _ scan_line_spec).
Qed.

(** The messages of the catalog identify its rules. *)
Lemma catalog_messages_distinct (r1 r2 : Re.regex * string) :
  In r1 SECURITY_PATTERNS -> In r2 SECURITY_PATTERNS ->
  snd r1 = snd r2 -> r1 = r2.
Proof.
  unfold SECURITY_PATTERNS. simpl.
  intros H1 H2 E.
  repeat (destruct H1 as [<- | H1]; [| ]); try contradiction;
    repeat (destruct H2 as [<- | H2]; [| ]); try contradiction;
    first [reflexivity | discriminate E].
Qed.

Lemma in_security_issues (file_path : string) (content : text) (x : Issue) :
  In x (SecurityAnalyzer.analyze_file file_path content)
  <-> exists i line rule,
        1 <= i /\ PyStr.split_lines content !! Z.to_nat (i - 1) = Some line
        /\ In rule SECURITY_PATTERNS
        /\ Re.search (fst rule) line Re.IGNORECASE = true
        /\ x = SecurityAnalyzer.issue i line (snd rule).
Proof.
  rewrite security_analyze_file_spec, in_flat_map. split.
  - intros ([i line] & Hin & Hx). apply in_enumerate in Hin as [Hi Hl].
    unfold line_issues, matching_rules in Hx. cbn [fst snd] in Hx.
    apply in_map_iff in Hx as (rule & <- & Hr).
    apply filter_In in Hr as [Hr Hs].
    exists i, line, rule. auto.
  - intros (i & line & rule & Hi & Hl & Hr & Hs & ->).
    exists (i, line). split; [apply in_enumerate; auto|].
    unfold line_issues, matching_rules. cbn [fst snd].
    apply in_map_iff. exists rule. split; [reflexivity|].
    apply filter_In. auto.
Qed.

(** *** Lines *)

Lemma split_lines_nonempty (s : text) : PyStr.split_lines s <> [].
Proof.
  destruct s as [|c r]; simpl; [discriminate|].
  destruct (N.eqb c PyStr.newline); [discriminate|].
  destruct (PyStr.split_lines r); discriminate.
Qed.

(** The lines are the text cut at its newline characters: joined again by
    newlines they give the text back, and none contains a newline. *)
Lemma join_split_lines (s : text) : join_lines (PyStr.split_lines s) = s.
Proof.
  induction s as [|c r IH]; [reflexivity|].
  pose proof (split_lines_nonempty r) as Hne.
  cbn [PyStr.split_lines]. destruct (N.eqb c PyStr.newline) eqn:E.
  - apply N.eqb_eq in E. subst c.
    destruct (PyStr.split_lines r) as [|l ls]; [contradiction|].
    cbn [join_lines] in *. cbn [app]. now rewrite IH.
  - destruct (PyStr.split_lines r) as [|l ls]; [contradiction|].
    cbn [join_lines] in *. destruct ls; simpl; now rewrite <- IH.
Qed.

Lemma split_lines_no_newline (s : text) :
  Forall (fun l => ~ In PyStr.newline l) (PyStr.split_lines s).
Proof.
  induction s as [|c r IH]; simpl.
  - constructor; [intros [] | constructor].
  - destruct (N.eqb c PyStr.newline) eqn:E.
    + constructor; [intros [] | exact IH].
    + apply N.eqb_neq in E.
      destruct (PyStr.split_lines r) as [|l ls].
      * constructor; [|constructor]. intros [H | []]. congruence.
      * inversion IH as [|? ? Hl Hls]; subst.
        constructor; [|exact Hls]. intros [H | H]; [congruence | auto].
Qed.

(** *** Case *)

(** The code points of the table of case pairs lie beyond the first 256,
    and no letter is white space. *)
Lemma caseless_pairs_beyond (l c : N) :
  In (l, c) Re.caseless_pairs -> (255 < c)%N.
Proof.
  unfold Re.caseless_pairs. simpl. rewrite !pair_equal_spec. lia.
Qed.

Lemma whitespace_not_letter (c : N) :
  In c Re.whitespace -> (c <= 32 \/ c = 133 \/ c = 160 \/ 5000 < c)%N.
Proof. unfold Re.whitespace. simpl. lia. Qed.

Lemma caseless_letter_pair (l a b : N) :
  Re.letter_pair a b -> Re.caseless l a <-> Re.caseless l b.
Proof.
  intros Hab. unfold Re.caseless. split.
  - intros [H | [H | [H | H]]].
    + subst l. right. left. exact Hab.
    + exfalso. unfold Re.letter_pair in *. lia.
    + left. unfold Re.letter_pair in *. lia.
    + apply caseless_pairs_beyond in H. unfold Re.letter_pair in *. lia.
  - intros [H | [H | [H | H]]].
    + subst l. right. right. left. exact Hab.
    + left. unfold Re.letter_pair in *. lia.
    + exfalso. unfold Re.letter_pair in *. lia.
    + apply caseless_pairs_beyond in H. unfold Re.letter_pair in *. lia.
Qed.

Lemma char_in_letter_pair (cs : Re.cset) (a b : N) :
  Re.letter_pair a b ->
  Re.char_in Re.IGNORECASE cs a <-> Re.char_in Re.IGNORECASE cs b.
Proof.
  intros Hab.
  destruct cs as [l | | | l]; simpl; unfold Re.lit_in; simpl.
  - now apply caseless_letter_pair.
  - split; intros H; apply whitespace_not_letter in H;
      unfold Re.letter_pair in *; lia.
  - unfold Re.letter_pair in *. lia.
  - now rewrite (caseless_letter_pair _ a b Hab).
Qed.

(** The two cases of a letter are taken for the same character by every
    item of a pattern. *)
Lemma cset_matches_case (cs : Re.cset) (a b : N) :
  case_variant a b ->
  Re.cset_matches Re.IGNORECASE cs a = Re.cset_matches Re.IGNORECASE cs b.
Proof.
  intros H. apply eq_true_iff_eq. rewrite !cset_matches_spec.
  destruct H as [-> | [H | H]]; [tauto | |].
  - now apply char_in_letter_pair.
  - symmetry. now apply char_in_letter_pair.
Qed.

Lemma deriv_case (a b : N) (r : Re.regex) :
  case_variant a b ->
  Re.deriv Re.IGNORECASE a r = Re.deriv Re.IGNORECASE b r.
Proof.
  intros H. induction r as [| | cs | r1 IH1 r2 IH2 | r1 IH1 r2 IH2 | r IH];
    simpl; try reflexivity.
  - now rewrite (cset_matches_case cs a b H).
  - now rewrite IH1, IH2.
  - now rewrite IH1, IH2.
  - now rewrite IH.
Qed.

Lemma match_prefix_case (r : Re.regex) (l1 l2 : text) :
  Forall2 case_variant l1 l2 ->
  Re.match_prefix Re.IGNORECASE r l1 = Re.match_prefix Re.IGNORECASE r l2.
Proof.
  intros H. revert r. induction H as [|a b l1 l2 Hab _ IH]; intros r; simpl.
  - reflexivity.
  - now rewrite (deriv_case a b r Hab), IH.
Qed.

Lemma search_case (r : Re.regex) (l1 l2 : text) :
  Forall2 case_variant l1 l2 ->
  Re.search r l1 Re.IGNORECASE = Re.search r l2 Re.IGNORECASE.
Proof.
  unfold Re.search. intros H.
  induction H as [|a b l1 l2 Hab H IH]; [reflexivity|].
  cbn [Re.search_list]. rewrite IH. f_equal.
  apply match_prefix_case. now constructor.
Qed.

Lemma filter_sublist {A} (p : A -> bool) (l : list A) :
  sublist (List.filter p l) l.
Proof.
  induction l as [|x l IH]; simpl; [constructor|].
  destruct (p x); now constructor.
Qed.

(** C7. The security scanner cuts the text at its newline characters into
    lines numbered from 1, and reports, line after line and for each line
    in the order of the catalog, one issue of severity [high] for every
    rule whose pattern is found in the line: nothing is merged, so the
    number of issues is the sum over the lines of the numbers of matching
    rules, and the matching rules of a line come in catalog order.  A rule is found in a line exactly when some factor of the line
    is in the language of its pattern, whatever text surrounds it, and two
    lines that differ only in the case of letters match the same rules. *)
Theorem security_scan_lexical (file_path : string) (content : text) :
  let lines := PyStr.split_lines content in
  (join_lines lines = content
   /\ Forall (fun l => ~ In 10%N l) lines)
  /\ SecurityAnalyzer.analyze_file file_path content
     = flat_map
         (fun il =>
            map (fun rule =>
                   {| type_ := "security";
                      severity := Some "high";
                      message := snd rule;
                      line := Some (fst il);
                      threshold_ := None;
                      code := Some (PyStr.strip (snd il)) |})
                (matching_rules (snd il)))
         (PyStr.enumerate 1 lines)
  /\ (forall (i : Z) (l : text),
         In (i, l) (PyStr.enumerate 1 lines)
         <-> 1 <= i /\ lines !! Z.to_nat (i - 1) = Some l)
  /\ len (SecurityAnalyzer.analyze_file file_path content)
     = sum (map (fun l => len (matching_rules l)) lines)
  /\ (forall l : text, sublist (matching_rules l) SECURITY_PATTERNS)
  /\ (forall (l : text) (pattern : Re.regex) (msg : string),
         In (pattern, msg) (matching_rules l)
         <-> In (pattern, msg) SECURITY_PATTERNS
             /\ exists pre m post,
                  l = pre ++ m ++ post
                  /\ Re.matches Re.IGNORECASE pattern m)
  /\ (forall l1 l2 : text,
         Forall2 case_variant l1 l2 -> matching_rules l1 = matching_rules l2)
  /\ (forall (i : Z) (l : text) (k : nat) (pattern : Re.regex)
             (msg : string),
         1 <= i ->
         lines !! Z.to_nat (i - 1) = Some l ->
         SECURITY_PATTERNS !! k = Some (pattern, msg) ->
         (In (SecurityAnalyzer.issue i l msg)
             (SecurityAnalyzer.analyze_file file_path content)
          <-> exists pre m post,
                l = pre ++ m ++ post
                /\ Re.matches Re.IGNORECASE pattern m)).
Proof.
  intros lines. subst lines.
  split; [split; [apply join_split_lines | apply split_lines_no_newline]|].
  split; [apply security_analyze_file_spec|].
  split; [intros i l; apply in_enumerate|].
  split.
  { rewrite security_analyze_file_spec, len_flat_map.
    rewrite <- (map_snd_enumerate (PyStr.split_lines content) 1) at 2.
    rewrite map_map. f_equal. apply map_ext. intros [i l].
    unfold line_issues, len. cbn [fst snd]. now rewrite length_map. }
  split; [intros l; apply filter_sublist|].
  split.
  { intros l pattern msg. unfold matching_rules.
    rewrite filter_In. cbn [fst].
    unfold Re.search. now rewrite search_list_spec. }
  split.
  { intros l1 l2 H. unfold matching_rules. apply filter_ext.
    intros rule. now apply search_case. }
  intros i line k pattern msg Hi Hl Hk.
  assert (Hin : In (pattern, msg) SECURITY_PATTERNS).
  { apply list_elem_of_In. eapply list_elem_of_lookup_2. exact Hk. }
  rewrite <- (search_list_spec Re.IGNORECASE pattern).
  rewrite in_security_issues. split.
  - intros (i' & line' & rule & Hi' & Hl' & Hr & Hs & E).
    unfold SecurityAnalyzer.issue in E. inversion E as [[Em Ei Ec]].
    subst i'. rewrite Hl in Hl'. inversion Hl'; subst line'.
    assert (rule = (pattern, msg)) as ->.
    { apply catalog_messages_distinct; auto. }
    exact Hs.
  - intros Hs. exists i, line, (pattern, msg). auto.
Qed.

(** ** File analyzer *)

Lemma threshold_cyclomatic : threshold "cyclomatic_complexity" = 10.
Proof. vm_compute. reflexivity. Qed.

Lemma threshold_nesting : threshold "nesting_depth" = 4.
Proof. vm_compute. reflexivity. Qed.

Lemma threshold_function_lines : threshold "function_lines" = 50.
Proof. vm_compute. reflexivity. Qed.

Lemma Qgtb_lt (a b : Q) : Qgtb a b = true <-> (b < a)%Q.
Proof.
  unfold Qgtb. rewrite negb_true_iff, <- not_true_iff_false, Qle_bool_iff.
  split; [apply Qnot_le_lt | apply Qlt_not_le].
Qed.

Lemma Qltb_lt (a b : Q) : Qltb a b = true <-> (a < b)%Q.
Proof. apply Qgtb_lt. Qed.

Lemma in_when {A} (b : bool) (x y : A) : In x (when b y) <-> b = true /\ x = y.
Proof.
  unfold when. destruct b; simpl; split; try tauto.
  - intros [-> | []]. auto.
  - intros [_ ->]. auto.
  - intros [H _]. discriminate H.
Qed.

Lemma security_issue_type (file_path : string) (content : text) (x : Issue) :
  In x (SecurityAnalyzer.analyze_file file_path content) ->
  type_ x = "security" /\ severity x = Some "high".
Proof.
  intros H. apply in_security_issues in H as (i & l & r & _ & _ & _ & _ & ->).
  split; reflexivity.
Qed.

(** The result of [analyze_file] on a readable file, part by part. *)
Lemma analyze_file_readable (rt : Runtime) (path : string) (content : text) :
  read_file rt path = ReadOk content ->
  let c := analyze_complexity rt path content in
  let d := analyze_documentation rt path content in
  let r := analyze_file rt path in
  file_path r = path
  /\ issues r
     = when (cyclomatic_complexity c >? 10) (cyclomatic_issue c)
       ++ when (max_nesting_depth c >? 4) (nesting_issue c)
       ++ when (Qgtb (avg_function_length c) 50) (length_issue rt c)
       ++ SecurityAnalyzer.analyze_file path content
       ++ when (Qltb (function_docstring_coverage d) 50)
               (function_doc_issue rt d)
       ++ when (Qltb (class_docstring_coverage d) 70) (class_doc_issue rt d)
  /\ suggestions r
     = when (cyclomatic_complexity c >? 10) suggest_complexity
       ++ when (max_nesting_depth c >? 4) suggest_nesting
       ++ when (Qgtb (avg_function_length c) 50) suggest_length
       ++ when (Qltb (function_docstring_coverage d) 50) suggest_function_docs
       ++ when (Qltb (class_docstring_coverage d) 70) suggest_class_docs
  /\ metrics r
     = Some {| m_complexity := c;
               m_documentation := d;
               m_dependencies :=
                 snd (DependencyAnalyzer.analyze_file (ast_parse rt) path
                        content DependencyAnalyzer.init) |}.
Proof.
  intros Hread c d r. subst r. unfold analyze_file. rewrite Hread.
  fold c. fold d.
  rewrite threshold_cyclomatic, threshold_nesting, threshold_function_lines.
  change (inject_Z 50) with 50%Q.
  unfold flag, extend, when.
  destruct (cyclomatic_complexity c >? 10), (max_nesting_depth c >? 4),
    (Qgtb (avg_function_length c) 50),
    (Qltb (function_docstring_coverage d) 50),
    (Qltb (class_docstring_coverage d) 70);
    cbn [fst snd file_path issues suggestions metrics app];
    rewrite ?app_nil_r, <- ?app_assoc; cbn [app]; auto.
Qed.

(** Two issues, or two suggestions, that differ in a field. *)
Ltac differ E :=
  first
    [ apply (f_equal type_) in E; discriminate E
    | apply (f_equal severity) in E; discriminate E
    | apply (f_equal threshold_) in E; vm_compute in E; discriminate E
    | apply (f_equal message) in E; cbn in E; discriminate E
    | vm_compute in E; discriminate E ].

Ltac not_security H :=
  apply security_issue_type in H; destruct H as [H _]; discriminate H.

(** C8. On a readable file, [analyze_file] reports the cyclomatic warning
    and its suggestion exactly when the cyclomatic complexity exceeds 10,
    the nesting warning and its suggestion exactly when the maximal
    nesting depth exceeds 4, the function-length info issue and its
    suggestion exactly when the average function length exceeds 50, and
    the two documentation info issues with their suggestions exactly when
    the function coverage is below 50, respectively the class coverage
    below 70; each of them at most once, in this order, the security
    issues between the complexity and the documentation ones. *)
Theorem threshold_issues (rt : Runtime) (path : string) (content : text) :
  read_file rt path = ReadOk content ->
  let c := analyze_complexity rt path content in
  let d := analyze_documentation rt path content in
  let r := analyze_file rt path in
  (issues r
   = when (cyclomatic_complexity c >? 10) (cyclomatic_issue c)
     ++ when (max_nesting_depth c >? 4) (nesting_issue c)
     ++ when (Qgtb (avg_function_length c) 50) (length_issue rt c)
     ++ SecurityAnalyzer.analyze_file path content
     ++ when (Qltb (function_docstring_coverage d) 50)
             (function_doc_issue rt d)
     ++ when (Qltb (class_docstring_coverage d) 70) (class_doc_issue rt d)
   /\ suggestions r
      = when (cyclomatic_complexity c >? 10) suggest_complexity
        ++ when (max_nesting_depth c >? 4) suggest_nesting
        ++ when (Qgtb (avg_function_length c) 50) suggest_length
        ++ when (Qltb (function_docstring_coverage d) 50)
                suggest_function_docs
        ++ when (Qltb (class_docstring_coverage d) 70) suggest_class_docs)
  /\ ((10 < cyclomatic_complexity c <-> In (cyclomatic_issue c) (issues r))
      /\ (10 < cyclomatic_complexity c
          <-> In suggest_complexity (suggestions r))
      /\ severity (cyclomatic_issue c) = Some "warning")
  /\ ((4 < max_nesting_depth c <-> In (nesting_issue c) (issues r))
      /\ (4 < max_nesting_depth c <-> In suggest_nesting (suggestions r))
      /\ severity (nesting_issue c) = Some "warning")
  /\ (((50 < avg_function_length c)%Q <-> In (length_issue rt c) (issues r))
      /\ ((50 < avg_function_length c)%Q
          <-> In suggest_length (suggestions r))
      /\ severity (length_issue rt c) = Some "info")
  /\ (((function_docstring_coverage d < 50)%Q
       <-> In (function_doc_issue rt d) (issues r))
      /\ ((function_docstring_coverage d < 50)%Q
          <-> In suggest_function_docs (suggestions r))
      /\ severity (function_doc_issue rt d) = Some "info")
  /\ (((class_docstring_coverage d < 70)%Q
       <-> In (class_doc_issue rt d) (issues r))
      /\ ((class_docstring_coverage d < 70)%Q
          <-> In suggest_class_docs (suggestions r))
      /\ severity (class_doc_issue rt d) = Some "info").
Proof.
  intros Hread c d r.
  destruct (analyze_file_readable rt path content Hread)
    as (_ & Hi & Hs & _).
  fold c in Hi, Hs. fold d in Hi, Hs. fold r in Hi, Hs.
  split; [split; assumption|].
  rewrite Hi, Hs. clear Hi Hs.
  rewrite <- !Z.gtb_lt, <- !(Qgtb_lt _ 50),
    <- !(Qltb_lt _ 50), <- !(Qltb_lt _ 70).
  repeat split; rewrite ?in_app_iff, ?in_when; try tauto;
    intros H; decompose [and or] H; clear H;
    try assumption;
    try match goal with H : In _ (SecurityAnalyzer.analyze_file _ _) |- _ =>
          not_security H end;
    match goal with E : _ = _ :> Issue |- _ => differ E
               | E : _ = _ :> string |- _ => differ E end.
Qed.

(** ** Trees: the two traversals see the same nodes *)

Lemma nodes_children (n : node) :
  nodes n = n :: flat_map nodes (iter_child_nodes n).
Proof.
  destruct n as [k pre body post]. simpl.
  now rewrite !flat_map_app.
Qed.

Lemma node_size_children (n : node) :
  node_size n = S (list_sum (map node_size (iter_child_nodes n))).
Proof.
  destruct n as [k pre body post]. simpl.
  rewrite !map_app, !list_sum_app. lia.
Qed.

Lemma walk_queue_complete (fuel : nat) (todo : list node) :
  (list_sum (map node_size todo) <= fuel)%nat ->
  Permutation (walk_queue fuel todo) (flat_map nodes todo).
Proof.
  revert todo. induction fuel as [|fuel IH]; intros todo Hfuel.
  - destruct todo as [|n rest]; simpl in *; [constructor|].
    rewrite node_size_children in Hfuel. lia.
  - destruct todo as [|n rest]; simpl in *; [constructor|].
    rewrite nodes_children. simpl. constructor.
    rewrite IH.
    + rewrite flat_map_app. apply Permutation_app_comm.
    + rewrite node_size_children in Hfuel.
      rewrite map_app, list_sum_app. lia.
Qed.

(** [ast.walk] returns every node of the tree, each once. *)
Lemma walk_complete (tree : node) : Permutation (walk tree) (nodes tree).
Proof.
  unfold walk.
  etransitivity; [apply walk_queue_complete; simpl; lia|].
  simpl. now rewrite app_nil_r.
Qed.

Lemma count_cons (p : node -> bool) (n : node) (l : list node) :
  count p (n :: l) = (if p n then 1 else 0) + count p l.
Proof.
  unfold count, len. simpl. destruct (p n); simpl; lia.
Qed.

Lemma count_app (p : node -> bool) (l1 l2 : list node) :
  count p (l1 ++ l2) = count p l1 + count p l2.
Proof.
  induction l1 as [|n l1 IH]; simpl; [reflexivity|].
  rewrite !count_cons, IH. lia.
Qed.

Lemma count_nonneg (p : node -> bool) (l : list node) : 0 <= count p l.
Proof. unfold count, len. lia. Qed.

Lemma count_permutation (p : node -> bool) (l1 l2 : list node) :
  Permutation l1 l2 -> count p l1 = count p l2.
Proof.
  induction 1; rewrite ?count_cons; lia.
Qed.

(** ** Complexity visitor: how many functions it counts *)




(** ** Documentation analyzer: how many functions it counts *)




(** ** Fail-soft behaviour *)

Lemma analyze_files_map (rt : Runtime) (files : list string) :
  analyze_files rt files = map (analyze_file rt) files.
Proof.
  unfold analyze_files.
  rewrite (fold_append_flat_map (fun p => [analyze_file rt p]));
    [|reflexivity].
  simpl. induction files as [|p files IH]; simpl; [reflexivity|].
  now rewrite IH.
Qed.

(** ** Report renderers *)

Lemma min_level_of_info : min_level_of "info" = inr 1.
Proof. vm_compute. reflexivity. Qed.

Lemma min_level_of_warning : min_level_of "warning" = inr 2.
Proof. vm_compute. reflexivity. Qed.

Lemma min_level_of_error : min_level_of "error" = inr 3.
Proof. vm_compute. reflexivity. Qed.

Lemma json_files_loop (min_level : Z) (results : list AnalysisResult)
    (rd : JsonReport) :
  fold_left
    (fun report_data result =>
       {| metadata := metadata report_data;
          summary := summary report_data;
          files := files report_data
                   ++ [{| fd_path := file_path result;
                          fd_issues :=
                            filter_issues min_level (issues result);
                          fd_metrics := metrics result;
                          fd_suggestions := suggestions result |}] |})
    results rd
  = {| metadata := metadata rd;
       summary := summary rd;
       files := files rd ++ map (file_data min_level) results |}.
Proof.
  revert rd. induction results as [|r results IH]; intros rd; simpl.
  - rewrite app_nil_r. now destruct rd.
  - rewrite IH. simpl. now rewrite <- app_assoc.
Qed.

(** The structured report, in closed form. *)
Lemma json_report_spec (rt : Runtime) (results : list AnalysisResult)
    (min_severity : string) (min_level : Z) :
  min_level_of min_severity = inr min_level ->
  generate_json_report rt results min_severity
  = inr {| metadata := {| md_tool := TOOL_NAME;
                          md_version := TOOL_VERSION;
                          md_timestamp := now rt;
                          md_min_severity := min_severity |};
           summary :=
             {| total_files := len results;
                total_issues :=
                  sum (map (fun r => len (filter_issues min_level (issues r)))
                           results);
                total_suggestions :=
                  sum (map (fun r => len (suggestions r)) results) |};
           files := map (file_data min_level) results |}.
Proof.
  intros Hlvl. unfold generate_json_report. rewrite Hlvl.
  now rewrite json_files_loop.
Qed.

Lemma filter_permutation {A} (p : A -> bool) (l1 l2 : list A) :
  Permutation l1 l2 -> Permutation (List.filter p l1) (List.filter p l2).
Proof.
  induction 1 as [|x l1 l2 _ IH|x y l|l1 l2 l3 _ IH1 _ IH2]; simpl.
  - constructor.
  - destruct (p x); [constructor|]; exact IH.
  - destruct (p x), (p y); try reflexivity. constructor.
  - etransitivity; eassumption.
Qed.

Lemma level_of_named (i : Issue) (s : string) :
  severity i = Some s -> issue_level i = default 1 (severity_levels !! s).
Proof. intros H. unfold issue_level. now rewrite H. Qed.

(** C6. The severity threshold only selects issues.  For every list of
    results and any two thresholds, the structured reports list the same
    paths, metrics and suggestions, those of the results, and count the
    same files and suggestions.  For a file with one [info], one
    [warning] and one [error] issue, the report at [warning] shows the
    warning and the error issue, two issues, counts two, and does not
    show the info issue. *)
Theorem severity_filter_frame (rt : Runtime) :
  (forall results ms1 ms2 rep1 rep2,
      generate_json_report rt results ms1 = inr rep1 ->
      generate_json_report rt results ms2 = inr rep2 ->
      map fd_metrics (files rep1) = map metrics results
      /\ map fd_suggestions (files rep1) = map suggestions results
      /\ map fd_metrics (files rep1) = map fd_metrics (files rep2)
      /\ map fd_suggestions (files rep1) = map fd_suggestions (files rep2)
      /\ map fd_path (files rep1) = map fd_path (files rep2)
      /\ total_files (summary rep1) = total_files (summary rep2)
      /\ total_suggestions (summary rep1) = total_suggestions (summary rep2))
  /\ (forall r i_info i_warning i_error,
         severity i_info = Some "info" ->
         severity i_warning = Some "warning" ->
         severity i_error = Some "error" ->
         Permutation (issues r) [i_info; i_warning; i_error] ->
         exists rep fd,
           generate_json_report rt [r] "warning" = inr rep
           /\ files rep = [fd]
           /\ Permutation (fd_issues fd) [i_warning; i_error]
           /\ len (fd_issues fd) = 2
           /\ total_issues (summary rep) = 2
           /\ ~ In i_info (fd_issues fd)
           /\ fd_metrics fd = metrics r
           /\ fd_suggestions fd = suggestions r).
Proof.
  split.
  - intros results ms1 ms2 rep1 rep2 H1 H2.
    assert (Hshape : forall ms rep,
               generate_json_report rt results ms = inr rep ->
               exists lvl,
                 files rep = map (file_data lvl) results
                 /\ total_files (summary rep) = len results
                 /\ total_suggestions (summary rep)
                    = sum (map (fun r => len (suggestions r)) results)).
    { intros ms rep H. destruct (min_level_of ms) as [e|lvl] eqn:Hl.
      - unfold generate_json_report in H. rewrite Hl in H. discriminate H.
      - rewrite (json_report_spec rt results ms lvl Hl) in H.
        inversion H; subst rep. exists lvl. auto. }
    destruct (Hshape ms1 rep1 H1) as (l1 & F1 & T1 & S1).
    destruct (Hshape ms2 rep2 H2) as (l2 & F2 & T2 & S2).
    rewrite F1, F2, T1, T2, S1, S2, !map_map. simpl.
    repeat split; reflexivity.
  - intros r i1 i2 i3 Hs1 Hs2 Hs3 Hperm.
    rewrite (json_report_spec rt [r] "warning" 2 min_level_of_warning).
    eexists. exists (file_data 2 r). split; [reflexivity|].
    assert (Hf : Permutation (filter_issues 2 (issues r)) [i2; i3]).
    { unfold filter_issues.
      rewrite (filter_permutation _ _ _ Hperm). cbn [List.filter].
      rewrite (level_of_named i1 "info" Hs1),
        (level_of_named i2 "warning" Hs2), (level_of_named i3 "error" Hs3).
      vm_compute. reflexivity. }
    assert (Hlen : len (filter_issues 2 (issues r)) = 2).
    { unfold len. now rewrite (Permutation_length Hf). }
    cbn [files summary total_issues map file_data fd_issues fd_metrics
           fd_suggestions].
    split; [reflexivity|]. split; [exact Hf|]. split; [exact Hlen|]. split.
    { rewrite sum_cons, Hlen. reflexivity. }
    split; [|split; reflexivity].
    intros Hin. apply (Permutation_in _ Hf) in Hin.
    destruct Hin as [E | [E | []]]; subst; congruence.
Qed.

Lemma severity_filter_frame_witness :
  exists rep fd,
    generate_json_report sample_runtime [sample_result] "warning" = inr rep
    /\ files rep = [fd]
    /\ Permutation (fd_issues fd) [sample_issue "warning"; sample_issue "error"]
    /\ len (fd_issues fd) = 2
    /\ total_issues (summary rep) = 2
    /\ ~ In (sample_issue "info") (fd_issues fd)
    /\ fd_metrics fd = metrics sample_result
    /\ fd_suggestions fd = suggestions sample_result.
Proof.
  apply (proj2 (severity_filter_frame sample_runtime) sample_result
           (sample_issue "info") (sample_issue "warning")
           (sample_issue "error"));
    [reflexivity | reflexivity | reflexivity | reflexivity].
Defined.

(** ** Issues the severity table does not rank *)

Lemma unranked_spec (i : Issue) :
  unranked i = true
  <-> severity i = None
      \/ exists s, severity i = Some s
                   /\ s <> "info" /\ s <> "warning" /\ s <> "error".
Proof.
  unfold unranked. destruct (severity i) as [s|].
  - rewrite negb_true_iff, !orb_false_iff, !String.eqb_neq. split.
    + intros [[H1 H2] H3]. right. exists s. auto.
    + intros [H | (s' & E & H1 & H2 & H3)]; [discriminate H|].
      inversion E; subst. auto.
  - split; auto.
Qed.

Lemma unranked_level (i : Issue) : unranked i = true -> issue_level i = 1.
Proof.
  intros H. apply unranked_spec in H. unfold issue_level.
  destruct H as [-> | (s & -> & H1 & H2 & H3)].
  - vm_compute. reflexivity.
  - cbn [default from_option id]. unfold severity_levels.
    rewrite !lookup_insert_ne by congruence. now rewrite lookup_empty.
Qed.

Lemma security_issue_unranked (i : Z) (l : text) (m : string) :
  unranked (SecurityAnalyzer.issue i l m) = true.
Proof. reflexivity. Qed.

Lemma filter_drop_unranked (lvl : Z) (l : list Issue) :
  2 <= lvl ->
  filter_issues lvl (List.filter (fun i => negb (unranked i)) l)
  = filter_issues lvl l.
Proof.
  intros Hlvl. unfold filter_issues.
  induction l as [|i l IH]; simpl; [reflexivity|].
  destruct (unranked i) eqn:U; simpl.
  - rewrite IH, (unranked_level i U).
    destruct (1 >=? lvl) eqn:E; [|reflexivity].
    apply Z.geb_le in E. lia.
  - now rewrite IH.
Qed.

Lemma filter_issues_ranked (lvl : Z) (l : list Issue) :
  2 <= lvl -> Forall (fun i => unranked i = false) (filter_issues lvl l).
Proof.
  intros Hlvl. apply List.Forall_forall. intros i Hi.
  apply filter_In in Hi as [_ Hi].
  destruct (unranked i) eqn:U; [|reflexivity].
  rewrite (unranked_level i U) in Hi. apply Z.geb_le in Hi. lia.
Qed.

Section DropUnranked.

Variable rt : Runtime.
Variable lvl : Z.
Hypothesis Hlvl : 2 <= lvl.

Lemma summary_row_drop (r : AnalysisResult) :
  summary_row rt lvl (drop_unranked r) = summary_row rt lvl r.
Proof.
  unfold summary_row, drop_unranked, metric_cyclomatic, metric_loc,
    metric_doc_coverage. cbn [issues file_path metrics].
  now rewrite filter_drop_unranked.
Qed.

Lemma issue_total_drop (results : list AnalysisResult) (n : Z) :
  fold_left (fun n r => n + len (filter_issues lvl (issues r)))
            (map drop_unranked results) n
  = fold_left (fun n r => n + len (filter_issues lvl (issues r))) results n.
Proof.
  revert n. induction results as [|r results IH]; intros n; simpl;
    [reflexivity|].
  now rewrite IH, filter_drop_unranked.
Qed.

Lemma suggestion_total_drop (results : list AnalysisResult) (n : Z) :
  fold_left (fun n r => n + len (suggestions r))
            (map drop_unranked results) n
  = fold_left (fun n r => n + len (suggestions r)) results n.
Proof.
  revert n. induction results as [|r results IH]; intros n; simpl;
    [reflexivity | now rewrite IH].
Qed.

Lemma all_suggestions_drop (results : list AnalysisResult)
    (acc : list string) :
  fold_left (fun all r => all ++ suggestions r)
            (map drop_unranked results) acc
  = fold_left (fun all r => all ++ suggestions r) results acc.
Proof.
  revert acc. induction results as [|r results IH]; intros acc; simpl;
    [reflexivity | now rewrite IH].
Qed.

Lemma render_details_drop (results : list AnalysisResult) :
  render_details rt lvl (map drop_unranked results)
  = render_details rt lvl results.
Proof.
  induction results as [|r results IH]; simpl; [reflexivity|].
  now rewrite IH, filter_drop_unranked.
Qed.

End DropUnranked.

Lemma json_report_drop (rt : Runtime) (results : list AnalysisResult)
    (ms : string) (lvl : Z) :
  min_level_of ms = inr lvl -> 2 <= lvl ->
  generate_json_report rt (map drop_unranked results) ms
  = generate_json_report rt results ms.
Proof.
  intros Hms Hlvl.
  rewrite !(json_report_spec rt _ ms lvl Hms), !map_map.
  assert (Hi : forall r,
             len (filter_issues lvl (issues (drop_unranked r)))
             = len (filter_issues lvl (issues r))).
  { intros r. unfold drop_unranked. cbn [issues].
    now rewrite filter_drop_unranked. }
  assert (Hf : forall r,
             file_data lvl (drop_unranked r) = file_data lvl r).
  { intros r. unfold file_data, drop_unranked.
    cbn [issues file_path metrics suggestions].
    now rewrite filter_drop_unranked. }
  rewrite (map_ext _ _ Hi), (map_ext _ _ Hf).
  unfold len at 1 3. rewrite length_map. reflexivity.
Qed.

Lemma text_report_drop (rt : Runtime) (results : list AnalysisResult)
    (ms : string) (lvl : Z) :
  min_level_of ms = inr lvl -> 2 <= lvl ->
  generate_text_report rt (map drop_unranked results) ms
  = generate_text_report rt results ms.
Proof.
  intros Hms Hlvl. unfold generate_text_report. rewrite Hms.
  rewrite map_map, (map_ext _ _ (summary_row_drop rt lvl Hlvl)).
  rewrite issue_total_drop, suggestion_total_drop, render_details_drop,
    all_suggestions_drop by assumption.
  reflexivity.
Qed.

(** C9. In the severity filter of the text and of the structured report,
    an issue without a [severity] key, or with a severity other than
    [info], [warning] and [error] (as the [high] of the security issues),
    has level 1.  At the thresholds [warning] and [error] such issues are
    neither shown nor counted: both reports are those of the results with
    these issues removed, and no file entry of the structured report
    contains one. *)
Theorem unranked_issues_filtered (rt : Runtime)
    (results : list AnalysisResult) (ms : string) :
  ms = "warning" \/ ms = "error" ->
  (forall i,
      severity i = None
      \/ (exists s, severity i = Some s
                    /\ s <> "info" /\ s <> "warning" /\ s <> "error") ->
      unranked i = true /\ issue_level i = 1)
  /\ (forall n l m,
         unranked (SecurityAnalyzer.issue n l m) = true
         /\ issue_level (SecurityAnalyzer.issue n l m) = 1)
  /\ generate_json_report rt (map drop_unranked results) ms
     = generate_json_report rt results ms
  /\ generate_text_report rt (map drop_unranked results) ms
     = generate_text_report rt results ms
  /\ (exists rep,
         generate_json_report rt results ms = inr rep
         /\ Forall (fun fd => Forall (fun i => unranked i = false)
                                     (fd_issues fd))
                   (files rep)).
Proof.
  intros Hms.
  assert (Hlvl : exists lvl, min_level_of ms = inr lvl /\ 2 <= lvl).
  { destruct Hms as [-> | ->]; [exists 2 | exists 3];
      (split; [vm_compute; reflexivity | lia]). }
  destruct Hlvl as (lvl & Hmin & Hlvl).
  split.
  { intros i Hi. apply unranked_spec in Hi.
    split; [exact Hi | apply unranked_level, Hi]. }
  split.
  { intros n l m. split; [reflexivity | apply unranked_level; reflexivity]. }
  split; [apply (json_report_drop rt results ms lvl); assumption|].
  split; [apply (text_report_drop rt results ms lvl); assumption|].
  eexists. split; [apply (json_report_spec rt results ms lvl Hmin)|].
  cbn [files]. apply List.Forall_forall. intros fd Hfd.
  apply in_map_iff in Hfd as (r & <- & _).
  apply filter_issues_ranked, Hlvl.
Qed.

Lemma unranked_issues_filtered_witness :
  generate_json_report sample_runtime
    (map drop_unranked [analyze_file sample_runtime "app.py"]) "warning"
  = generate_json_report sample_runtime
      [analyze_file sample_runtime "app.py"] "warning".
Proof.
  destruct (unranked_issues_filtered sample_runtime
              [analyze_file sample_runtime "app.py"] "warning")
    as (_ & _ & H & _); [left; reflexivity | exact H].
Defined.

(** ** Dependency extractor *)

#[local] Set Warnings "-clear-no-such-hyp".

Lemma add_all_modules (key : string) (names : list string)
    (self : DependencyAnalyzer.t) :
  DependencyAnalyzer.modules
    (fold_left (fun s name => DependencyAnalyzer.add key name s) names self)
  = DependencyAnalyzer.modules self ∪ list_to_set names.
Proof.
  revert self. induction names as [|x names IH]; intros self; simpl.
  - set_solver.
  - rewrite IH. simpl. set_solver.
Qed.

Lemma record_node_modules (key : string) (self : DependencyAnalyzer.t)
    (n : node) :
  DependencyAnalyzer.modules (DependencyAnalyzer.record_node key self n)
  = DependencyAnalyzer.modules self ∪ list_to_set (node_modules n).
Proof.
  unfold DependencyAnalyzer.record_node, node_modules.
  destruct (node_kind n) as [| | | | | | | | |names|[m|]| | |];
    try (simpl; set_solver).
  - apply add_all_modules.
  - destruct (PyStr.truthy m); simpl; set_solver.
Qed.

Lemma record_nodes_modules (key : string) (l : list node)
    (self : DependencyAnalyzer.t) :
  DependencyAnalyzer.modules
    (fold_left (DependencyAnalyzer.record_node key) l self)
  = DependencyAnalyzer.modules self ∪ list_to_set (flat_map node_modules l).
Proof.
  revert self. induction l as [|n l IH]; intros self; simpl.
  - set_solver.
  - rewrite IH, record_node_modules, list_to_set_app_L. set_solver.
Qed.

Lemma touch_modules (key : string) (self : DependencyAnalyzer.t) :
  DependencyAnalyzer.modules (DependencyAnalyzer.touch key self)
  = DependencyAnalyzer.modules self.
Proof.
  unfold DependencyAnalyzer.touch.
  now destruct (DependencyAnalyzer.imports_of self !! key).
Qed.

(** One call on an analyzer adds the modules of the file to those it has
    already seen, and reports the size of the result. *)
Lemma dependency_analyze_file_modules (parse : text -> option node)
    (path : string) (content : text) (self : DependencyAnalyzer.t) :
  DependencyAnalyzer.modules
    (fst (DependencyAnalyzer.analyze_file parse path content self))
  = DependencyAnalyzer.modules self ∪ file_modules parse content
  /\ total_modules
       (snd (DependencyAnalyzer.analyze_file parse path content self))
     = Z.of_nat (size (DependencyAnalyzer.modules self
                       ∪ file_modules parse content)).
Proof.
  unfold DependencyAnalyzer.analyze_file, file_modules.
  cbn [fst snd total_modules]. rewrite touch_modules.
  destruct (parse content) as [tree|].
  - rewrite record_nodes_modules. auto.
  - replace (DependencyAnalyzer.modules self ∪ ∅)
      with (DependencyAnalyzer.modules self) by set_solver.
    auto.
Qed.

(** Kept between calls, an analyzer reports the size of the union of the
    modules of all the files it has analyzed so far. *)
Lemma dependency_run_totals (parse : text -> option node)
    (files : list (string * text)) (self : DependencyAnalyzer.t) :
  map total_modules (dependency_run parse self files)
  = running_totals parse (DependencyAnalyzer.modules self) files.
Proof.
  revert self. induction files as [|[path content] files IH]; intros self;
    [reflexivity|].
  destruct (dependency_analyze_file_modules parse path content self)
    as [Hm Ht].
  cbn [dependency_run map running_totals].
  now rewrite IH, Hm, Ht.
Qed.

(** [analyze_file] starts from a new analyzer: the total of a file is the
    number of its own modules. *)
Lemma analyze_file_total_modules (rt : Runtime) (path : string) (content : text) :
  read_file rt path = ReadOk content ->
  exists m,
    metrics (analyze_file rt path) = Some m
    /\ total_modules (m_dependencies m)
       = Z.of_nat (size (file_modules (ast_parse rt) content)).
Proof.
  intros Hread.
  destruct (analyze_file_readable rt path content Hread) as (_ & _ & _ & Hm).
  eexists. split; [exact Hm|]. cbn [m_dependencies].
  destruct (dependency_analyze_file_modules (ast_parse rt) path content
              DependencyAnalyzer.init) as [_ Ht].
  rewrite Ht. cbn [DependencyAnalyzer.init DependencyAnalyzer.modules].
  do 2 f_equal. set_solver.
Qed.

(** C4, the code at two files.  Scanning [a.py] ([import os]) and then
    [b.py] ([import sys]), [analyze_file] reports a total of 1 module for
    each file, although two modules have been seen after the second; one
    analyzer kept for both files reports 1 and then 2. *)
Theorem total_modules_not_cumulative :
  map (fun r => option_map (fun m => total_modules (m_dependencies m))
                           (metrics r))
      (analyze_files sample_runtime ["a.py"; "b.py"])
  = [Some 1; Some 1]
  /\ map total_modules
         (dependency_run (ast_parse sample_runtime) DependencyAnalyzer.init
            [("a.py", import_os_source); ("b.py", import_sys_source)])
     = [1; 2]
  /\ Z.of_nat (size (file_modules (ast_parse sample_runtime) import_os_source
                     ∪ file_modules (ast_parse sample_runtime)
                                    import_sys_source)) = 2.
Proof.
  split; [vm_compute; reflexivity|].
  split; vm_compute; reflexivity.
Qed.

(** C1, the code at one file.  The file [app.py] consists of the line
    [eval(x)]; its result carries the security issue of severity [high].
    At the thresholds [warning] and [error] the structured and the text
    report show and count no issue for the file; at [info] the structured
    report shows it and the text report fails on the style of [high]. *)
Theorem high_severity_hidden_above_info :
  In (SecurityAnalyzer.issue 1 (PyStr.chars "eval(x)")
        "Use of eval() can be dangerous")
     (issues (analyze_file sample_runtime "app.py"))
  /\ (exists rep,
         generate_json_report sample_runtime
           [analyze_file sample_runtime "app.py"] "warning" = inr rep
         /\ map fd_issues (files rep) = [[]]
         /\ total_issues (summary rep) = 0)
  /\ (exists rep,
         generate_json_report sample_runtime
           [analyze_file sample_runtime "app.py"] "error" = inr rep
         /\ map fd_issues (files rep) = [[]]
         /\ total_issues (summary rep) = 0)
  /\ (exists rep,
         generate_text_report sample_runtime
           [analyze_file sample_runtime "app.py"] "warning" = inr rep
         /\ map row_issues (summary_table rep) = ["0"]
         /\ printed_total_issues rep = 0
         /\ detailed_issues rep = [])
  /\ (exists rep,
         generate_text_report sample_runtime
           [analyze_file sample_runtime "app.py"] "error" = inr rep
         /\ map row_issues (summary_table rep) = ["0"]
         /\ printed_total_issues rep = 0
         /\ detailed_issues rep = [])
  /\ (exists rep,
         generate_json_report sample_runtime
           [analyze_file sample_runtime "app.py"] "info" = inr rep
         /\ total_issues (summary rep) = 3)
  /\ generate_text_report sample_runtime
       [analyze_file sample_runtime "app.py"] "info"
     = inl (KeyError "high").
Proof.
  split; [vm_compute; auto|].
  repeat (split;
          [eexists; split; [vm_compute; reflexivity | repeat split]|]).
  vm_compute. reflexivity.
Qed.

(** ** Closed instances *)

Lemma security_scan_lexical_witness :
  matching_rules (PyStr.chars "OS.SYSTEM (cmd)")
  = matching_rules (PyStr.chars "os.system (cmd)")
  /\ (In (SecurityAnalyzer.issue 2 (PyStr.chars "s = 'EVAL(x)'")
            "Use of eval() can be dangerous")
         (SecurityAnalyzer.analyze_file "demo.py" mixed_case_source)
      <-> exists pre m post,
            PyStr.chars "s = 'EVAL(x)'" = pre ++ m ++ post
            /\ Re.matches Re.IGNORECASE
                 (Re.seq [Re.lit "eval"; Re.ws_star; Re.lit "("]) m).
Proof.
  destruct (security_scan_lexical "demo.py" mixed_case_source)
    as (_ & _ & _ & _ & _ & _ & Hcase & Hin).
  split.
  - apply Hcase. unfold PyStr.chars. simpl.
    repeat (constructor; [unfold case_variant, Re.letter_pair; lia|]).
    constructor.
  - apply (Hin 2 _ 0%nat); [lia | reflexivity | reflexivity].
Defined.

Lemma threshold_issues_witness :
  (10 < cyclomatic_complexity
          (analyze_complexity scenario_runtime "process.py" scenario_source)
   <-> In (cyclomatic_issue
             (analyze_complexity scenario_runtime "process.py"
                scenario_source))
          (issues (analyze_file scenario_runtime "process.py")))
  /\ ((function_docstring_coverage
         (analyze_documentation scenario_runtime "process.py"
            scenario_source) < 50)%Q
      <-> In suggest_function_docs
             (suggestions (analyze_file scenario_runtime "process.py"))).
Proof.
  destruct (threshold_issues scenario_runtime "process.py" scenario_source)
    as (_ & (H1 & _) & _ & _ & (_ & H2 & _) & _); [reflexivity|].
  split; [exact H1 | exact H2].
Defined.

(** A match inside a string literal is reported. *)
Example string_literal_is_flagged :
  SecurityAnalyzer.analyze_file "demo.py" (PyStr.chars "s = 'eval(x)'")
  = [SecurityAnalyzer.issue 1 (PyStr.chars "s = 'eval(x)'")
       "Use of eval() can be dangerous"].
Proof. vm_compute. reflexivity. Qed.

(** A match inside a comment is reported, with the line number of the
    comment and the stripped line as code. *)
Example comment_is_flagged :
  SecurityAnalyzer.analyze_file "demo.py"
    (PyStr.chars ("x = 1" +:+ nl +:+ "    # OS.System (cmd)"))
  = [{| type_ := "security"; severity := Some "high";
        message := "Use of os.system() can be dangerous";
        line := Some 2; threshold_ := None;
        code := Some (PyStr.chars "# OS.System (cmd)") |}].
Proof. vm_compute. reflexivity. Qed.

(** A line that matches two rules gives two issues, in catalog order. *)
Example two_rules_two_issues :
  SecurityAnalyzer.analyze_file "demo.py" (PyStr.chars "eval(exec(x))")
  = [SecurityAnalyzer.issue 1 (PyStr.chars "eval(exec(x))")
       "Use of eval() can be dangerous";
     SecurityAnalyzer.issue 1 (PyStr.chars "eval(exec(x))")
       "Use of exec() can be dangerous"].
Proof. vm_compute. reflexivity. Qed.

(** The same line twice gives the same issue twice, once per line. *)
Example repeated_line_not_merged :
  map line (SecurityAnalyzer.analyze_file "demo.py"
              (PyStr.chars ("eval(x)" +:+ nl +:+ "eval(x)")))
  = [Some 1; Some 2].
Proof. vm_compute. reflexivity. Qed.

(** Upper case, a string literal, a comment, and the letters and spaces
    beyond ASCII that [re.IGNORECASE] and [\s] accept: the kelvin sign for
    [k], the long s for [s], an em space before the parenthesis. *)
Example mixed_case_lines_are_flagged :
  map (fun i => (line i, message i))
      (SecurityAnalyzer.analyze_file "demo.py" mixed_case_source)
  = [(Some 2, "Use of eval() can be dangerous");
     (Some 3, "Use of os.system() can be dangerous");
     (Some 4, "Pickle deserialization can be unsafe");
     (Some 5, "Use of exec() can be dangerous");
     (Some 5, "Use of os.system() can be dangerous")].
Proof. vm_compute. reflexivity. Qed.

(** Without the flag the same patterns are matched with regard to case. *)
Example case_matters_without_flag :
  Re.search (Re.lit "eval") (PyStr.chars "EVAL(x)") Re.NOFLAG = false
  /\ Re.search (Re.lit "eval") (PyStr.chars "EVAL(x)") Re.IGNORECASE = true.
Proof. split; vm_compute; reflexivity. Qed.

(** * Further properties of the analyzer *)

(** ** The complexity visitor in closed form *)

Lemma count_nil (p : node -> bool) : count p [] = 0.
Proof. reflexivity. Qed.

Lemma forest_height_nonneg (l : list node) : 0 <= forest_height l.
Proof.
  unfold forest_height. induction l as [|n l IH]; simpl; lia.
Qed.

Lemma forest_height_cons (n : node) (l : list node) :
  forest_height (n :: l) = Z.max (nesting_height n) (forest_height l).
Proof. reflexivity. Qed.

Lemma nesting_height_node (k : kind) (pre body post : list node) :
  nesting_height (Node k pre body post)
  = (if opens_block k then 1 else 0)
    + Z.max (forest_height pre)
            (Z.max (forest_height body) (forest_height post)).
Proof.
  change (nesting_height (Node k pre body post))
    with (let below :=
            Z.max (forest_height pre)
                  (Z.max (forest_height body) (forest_height post)) in
          if opens_block k then 1 + below else below).
  cbv zeta. destruct (opens_block k); lia.
Qed.

Lemma nesting_height_nonneg (n : node) : 0 <= nesting_height n.
Proof.
  destruct n as [k pre body post]. rewrite nesting_height_node.
  pose proof (forest_height_nonneg pre). destruct (opens_block k); lia.
Qed.

Lemma visited_id (s : ComplexityAnalyzer.t) :
  depth_recorded s -> visited s 0 0 0 0 [] = s.
Proof.
  destruct s. unfold depth_recorded, visited. simpl. intros H.
  rewrite app_nil_r. f_equal; lia.
Qed.

Lemma visited_visited (s : ComplexityAnalyzer.t)
    (a h b c a' h' b' c' : Z) (l l' : list Z) :
  visited (visited s a h b c l) a' h' b' c' l'
  = visited s (a + a') (Z.max h h') (b + b') (c + c') (l ++ l').
Proof.
  destruct s. unfold visited. simpl. rewrite <- app_assoc. f_equal; lia.
Qed.

Lemma depth_recorded_visited (s : ComplexityAnalyzer.t)
    (a h b c : Z) (l : list Z) :
  depth_recorded s -> depth_recorded (visited s a h b c l).
Proof. destruct s. unfold depth_recorded, visited. simpl. lia. Qed.

Lemma visit_all_closed_form (l : list node) :
  Forall (fun n => forall s, depth_recorded s ->
            ComplexityAnalyzer.visit n s
            = visited s (count is_branch (nodes n)) (nesting_height n)
                (count is_any_function (nodes n))
                (count is_class_def (nodes n))
                (flat_map node_length (nodes n))) l ->
  forall s, depth_recorded s ->
    fold_left (fun s c => ComplexityAnalyzer.visit c s) l s
    = visited s (count is_branch (flat_map nodes l)) (forest_height l)
        (count is_any_function (flat_map nodes l))
        (count is_class_def (flat_map nodes l))
        (flat_map node_length (flat_map nodes l)).
Proof.
  induction 1 as [|n l Hn _ IH]; intros s Hs.
  - simpl. rewrite !count_nil. symmetry. apply visited_id, Hs.
  - cbn [fold_left flat_map]. rewrite (Hn s Hs).
    rewrite IH by (apply depth_recorded_visited, Hs).
    rewrite visited_visited, !count_app, flat_map_app, forest_height_cons.
    reflexivity.
Qed.

Lemma visit_closed_form (n : node) (s : ComplexityAnalyzer.t) :
  depth_recorded s ->
  ComplexityAnalyzer.visit n s
  = visited s (count is_branch (nodes n)) (nesting_height n)
      (count is_any_function (nodes n)) (count is_class_def (nodes n))
      (flat_map node_length (nodes n)).
Proof.
  revert s. induction n as [k pre body post Hpre Hbody Hpost]
    using node_forall_ind.
  intros s Hs.
  assert (Hgen : forall s, depth_recorded s ->
    fold_left (fun s c => ComplexityAnalyzer.visit c s) post
      (fold_left (fun s c => ComplexityAnalyzer.visit c s) body
         (fold_left (fun s c => ComplexityAnalyzer.visit c s) pre s))
    = visited s
        (count is_branch
           (flat_map nodes pre ++ flat_map nodes body ++ flat_map nodes post))
        (Z.max (forest_height pre)
               (Z.max (forest_height body) (forest_height post)))
        (count is_any_function
           (flat_map nodes pre ++ flat_map nodes body ++ flat_map nodes post))
        (count is_class_def
           (flat_map nodes pre ++ flat_map nodes body ++ flat_map nodes post))
        (flat_map node_length
           (flat_map nodes pre ++ flat_map nodes body
            ++ flat_map nodes post))).
  { intros s0 Hs0.
    rewrite (visit_all_closed_form pre Hpre s0 Hs0).
    rewrite (visit_all_closed_form body Hbody)
      by (apply depth_recorded_visited, Hs0).
    rewrite (visit_all_closed_form post Hpost)
      by (do 2 apply depth_recorded_visited; exact Hs0).
    rewrite !visited_visited, !count_app, !flat_map_app.
    f_equal; lia. }
  rewrite nesting_height_node.
  change (nodes (Node k pre body post))
    with (Node k pre body post
          :: flat_map nodes pre ++ flat_map nodes body ++ flat_map nodes post).
  rewrite !count_cons. cbn [flat_map].
  pose proof (forest_height_nonneg pre) as Hh.
  revert Hgen.
  generalize (count is_branch
           (flat_map nodes pre ++ flat_map nodes body ++ flat_map nodes post)).
  generalize (count is_any_function
           (flat_map nodes pre ++ flat_map nodes body ++ flat_map nodes post)).
  generalize (count is_class_def
           (flat_map nodes pre ++ flat_map nodes body ++ flat_map nodes post)).
  generalize (flat_map node_length
           (flat_map nodes pre ++ flat_map nodes body
            ++ flat_map nodes post)).
  assert (Hmax : 0 <= Z.max (forest_height pre)
                   (Z.max (forest_height body) (forest_height post))) by lia.
  revert Hmax.
  generalize (Z.max (forest_height pre)
                (Z.max (forest_height body) (forest_height post))).
  intros H Hmax L C F B Hgen.
  destruct s as [c d m f cl loc fl cur].
  unfold depth_recorded in Hs. cbn in Hs.
  destruct k as [|l e|l e| | | | | | |names|md| |v|];
    cbn [ComplexityAnalyzer.visit];
    unfold ComplexityAnalyzer.visit_AsyncFunctionDef,
      ComplexityAnalyzer.visit_FunctionDef,
      ComplexityAnalyzer.visit_ClassDef, ComplexityAnalyzer.visit_If,
      ComplexityAnalyzer.visit_While, ComplexityAnalyzer.visit_For,
      ComplexityAnalyzer.visit_Try, ComplexityAnalyzer.visit_ExceptHandler;
    unfold is_branch, is_any_function, is_function_def,
      is_async_function_def, is_class_def, node_length;
    cbn [node_kind opens_block orb];
    try (destruct e as [e|]; [destruct (Z.eqb e 0)|]);
    unfold ComplexityAnalyzer.add_function, ComplexityAnalyzer.add_class,
      ComplexityAnalyzer.add_complexity, ComplexityAnalyzer.append_length,
      ComplexityAnalyzer.enter;
    cbn [ComplexityAnalyzer.complexity ComplexityAnalyzer.nesting_depth
           ComplexityAnalyzer.max_nesting_depth
           ComplexityAnalyzer.function_count ComplexityAnalyzer.class_count
           ComplexityAnalyzer.lines_of_code
           ComplexityAnalyzer.function_lengths
           ComplexityAnalyzer.current_function_lines];
    rewrite Hgen by (unfold depth_recorded; cbn; lia);
    unfold visited, ComplexityAnalyzer.leave;
    cbn [ComplexityAnalyzer.complexity ComplexityAnalyzer.nesting_depth
           ComplexityAnalyzer.max_nesting_depth
           ComplexityAnalyzer.function_count ComplexityAnalyzer.class_count
           ComplexityAnalyzer.lines_of_code
           ComplexityAnalyzer.function_lengths
           ComplexityAnalyzer.current_function_lines app];
    rewrite <- ?app_assoc; cbn [app];
    f_equal; lia.
Qed.

Lemma depth_recorded_init : depth_recorded ComplexityAnalyzer.init.
Proof. unfold depth_recorded. simpl. lia. Qed.

(** The metrics of a text that parses, read off its tree. *)
Lemma analyze_complexity_parsed (rt : Runtime) (path : string) (content : text)
    (tree : node) :
  ast_parse rt content = Some tree ->
  analyze_complexity rt path content
  = {| cyclomatic_complexity := count is_branch (nodes tree);
       lines_of_code :=
         len (List.filter is_code_line (PyStr.split_lines content));
       function_count := count is_any_function (nodes tree);
       class_count := count is_class_def (nodes tree);
       max_nesting_depth := nesting_height tree;
       avg_function_length := mean (flat_map node_length (nodes tree)) |}.
Proof.
  intros Hparse. unfold analyze_complexity. rewrite Hparse.
  rewrite (visit_closed_form tree _ depth_recorded_init).
  unfold visited, ComplexityAnalyzer.set_lines_of_code, mean. simpl.
  pose proof (nesting_height_nonneg tree).
  f_equal. lia.
Qed.

Lemma count_le (p q : node -> bool) (l : list node) :
  (forall n, p n = true -> q n = true) -> count p l <= count q l.
Proof.
  intros Hpq. induction l as [|n l IH]; [rewrite !count_nil; lia|].
  rewrite !count_cons. specialize (Hpq n).
  destruct (p n), (q n); try lia; discriminate (Hpq eq_refl).
Qed.

Lemma count_zero_iff (p : node -> bool) (l : list node) :
  count p l = 0 <-> Forall (fun n => p n = false) l.
Proof.
  induction l as [|n l IH]; [rewrite count_nil; split; auto|].
  rewrite count_cons. pose proof (count_nonneg p l). split.
  - intros H0. destruct (p n) eqn:E; [lia|].
    constructor; [exact E | apply IH; lia].
  - intros Hall. inversion Hall as [|? ? Hn Hl]; subst.
    rewrite Hn. apply IH in Hl. lia.
Qed.

Lemma forest_height_bound (l : list node) :
  Forall (fun n => nesting_height n <= count block_node (nodes n)) l ->
  forest_height l <= count block_node (flat_map nodes l).
Proof.
  induction 1 as [|n l Hn _ IH]; [rewrite count_nil; reflexivity|].
  rewrite forest_height_cons. cbn [flat_map]. rewrite count_app.
  pose proof (count_nonneg block_node (nodes n)).
  pose proof (count_nonneg block_node (flat_map nodes l)). lia.
Qed.

Lemma nesting_height_bound (n : node) :
  nesting_height n <= count block_node (nodes n).
Proof.
  induction n as [k pre body post Hpre Hbody Hpost] using node_forall_ind.
  rewrite nesting_height_node.
  change (nodes (Node k pre body post))
    with (Node k pre body post
          :: flat_map nodes pre ++ flat_map nodes body ++ flat_map nodes post).
  rewrite count_cons, !count_app.
  apply forest_height_bound in Hpre, Hbody, Hpost.
  pose proof (count_nonneg block_node (flat_map nodes pre)).
  pose proof (count_nonneg block_node (flat_map nodes body)).
  pose proof (count_nonneg block_node (flat_map nodes post)).
  unfold block_node at 1. cbn [node_kind].
  destruct (opens_block k); lia.
Qed.

Lemma forest_height_positive (l : list node) :
  Forall (fun n => 0 < count block_node (nodes n) -> 1 <= nesting_height n) l ->
  0 < count block_node (flat_map nodes l) -> 1 <= forest_height l.
Proof.
  induction 1 as [|n l Hn _ IH]; [rewrite count_nil; lia|].
  rewrite forest_height_cons. cbn [flat_map]. rewrite count_app.
  pose proof (count_nonneg block_node (nodes n)).
  pose proof (count_nonneg block_node (flat_map nodes l)). lia.
Qed.

Lemma nesting_height_positive (n : node) :
  0 < count block_node (nodes n) -> 1 <= nesting_height n.
Proof.
  induction n as [k pre body post Hpre Hbody Hpost] using node_forall_ind.
  rewrite nesting_height_node.
  change (nodes (Node k pre body post))
    with (Node k pre body post
          :: flat_map nodes pre ++ flat_map nodes body ++ flat_map nodes post).
  rewrite count_cons, !count_app.
  pose proof (forest_height_positive _ Hpre).
  pose proof (forest_height_positive _ Hbody).
  pose proof (forest_height_positive _ Hpost).
  pose proof (forest_height_nonneg pre).
  pose proof (forest_height_nonneg body).
  pose proof (forest_height_nonneg post).
  pose proof (count_nonneg block_node (flat_map nodes pre)).
  pose proof (count_nonneg block_node (flat_map nodes body)).
  pose proof (count_nonneg block_node (flat_map nodes post)).
  unfold block_node at 1. cbn [node_kind].
  destruct (opens_block k); lia.
Qed.

Lemma len_filter_le {A} (p : A -> bool) (l : list A) :
  0 <= len (List.filter p l) <= len l.
Proof.
  unfold len. pose proof (filter_length_le p l). lia.
Qed.

Lemma sum_at_least (ls : list Z) :
  Forall (fun x => 1 <= x) ls -> len ls <= sum ls.
Proof.
  induction 1 as [|x ls Hx _ IH]; [reflexivity|].
  rewrite sum_cons. unfold len in *. simpl length. lia.
Qed.

Lemma mean_at_least_one (ls : list Z) :
  Forall (fun x => 1 <= x) ls -> ls <> [] -> (1 <= mean ls)%Q.
Proof.
  intros Hall Hne. pose proof (sum_at_least ls Hall) as Hsum.
  destruct ls as [|x ls]; [congruence|]. unfold mean.
  assert (Hlen : 0 < len (x :: ls)) by (unfold len; simpl length; lia).
  apply Qle_shift_div_l.
  - change 0%Q with (inject_Z 0). rewrite <- Zlt_Qlt. exact Hlen.
  - rewrite Qmult_1_l. rewrite <- Zle_Qle. exact Hsum.
Qed.

(** X1. The cyclomatic complexity of a file that parses is the number of
    [if], [while], [for], [try] and [except] nodes of its tree, and its
    class count the number of class nodes. *)
Theorem cyclomatic_counts_branch_nodes (rt : Runtime)
    (path : string) (content : text) (tree : node) :
  ast_parse rt content = Some tree ->
  cyclomatic_complexity (analyze_complexity rt path content)
  = count is_branch (nodes tree)
  /\ class_count (analyze_complexity rt path content)
     = count is_class_def (nodes tree).
Proof.
  intros Hparse. rewrite (analyze_complexity_parsed rt path content tree Hparse).
  split; reflexivity.
Qed.

Lemma cyclomatic_counts_branch_nodes_witness :
  cyclomatic_complexity
    (analyze_complexity scenario_runtime "process.py" scenario_source)
  = count is_branch (nodes scenario_tree)
  /\ class_count
       (analyze_complexity scenario_runtime "process.py" scenario_source)
     = count is_class_def (nodes scenario_tree).
Proof.
  apply (cyclomatic_counts_branch_nodes scenario_runtime "process.py"
           scenario_source scenario_tree). reflexivity.
Defined.

(** X2. The maximal nesting depth of a file that parses is the largest
    number of function, class, [if], [while], [for] and [try] nodes on a
    path of its tree ([except] handlers do not count); it is at most the
    number of such nodes, and it is 0 exactly when the tree has none. *)
Theorem max_nesting_depth_is_height (rt : Runtime)
    (path : string) (content : text) (tree : node) :
  ast_parse rt content = Some tree ->
  max_nesting_depth (analyze_complexity rt path content)
  = nesting_height tree
  /\ max_nesting_depth (analyze_complexity rt path content)
     <= count block_node (nodes tree)
  /\ (max_nesting_depth (analyze_complexity rt path content) = 0
      <-> Forall (fun n => block_node n = false) (nodes tree)).
Proof.
  intros Hparse. rewrite (analyze_complexity_parsed rt path content tree Hparse).
  cbn [max_nesting_depth].
  pose proof (nesting_height_bound tree) as Hle.
  pose proof (nesting_height_positive tree) as Hpos.
  pose proof (nesting_height_nonneg tree) as H0.
  pose proof (count_nonneg block_node (nodes tree)) as Hc.
  split; [reflexivity|]. split; [exact Hle|].
  rewrite <- count_zero_iff. lia.
Qed.

Lemma max_nesting_depth_is_height_witness :
  max_nesting_depth
    (analyze_complexity scenario_runtime "process.py" scenario_source)
  = nesting_height scenario_tree.
Proof.
  apply (max_nesting_depth_is_height scenario_runtime "process.py"
           scenario_source scenario_tree). reflexivity.
Defined.

(** X3. The visitor is balanced: started in a state whose recorded maximum
    is at least the current depth (as the initial state), the visit of
    any tree restores the nesting depth, never lowers the recorded maximum
    nor any counter, and ends in such a state again. *)
Theorem visit_restores_depth (n : node) (s : ComplexityAnalyzer.t) :
  depth_recorded s ->
  ComplexityAnalyzer.nesting_depth (ComplexityAnalyzer.visit n s)
  = ComplexityAnalyzer.nesting_depth s
  /\ ComplexityAnalyzer.max_nesting_depth s
     <= ComplexityAnalyzer.max_nesting_depth (ComplexityAnalyzer.visit n s)
  /\ ComplexityAnalyzer.complexity s
     <= ComplexityAnalyzer.complexity (ComplexityAnalyzer.visit n s)
  /\ ComplexityAnalyzer.function_count s
     <= ComplexityAnalyzer.function_count (ComplexityAnalyzer.visit n s)
  /\ ComplexityAnalyzer.class_count s
     <= ComplexityAnalyzer.class_count (ComplexityAnalyzer.visit n s)
  /\ depth_recorded (ComplexityAnalyzer.visit n s).
Proof.
  intros Hs. rewrite (visit_closed_form n s Hs).
  pose proof (count_nonneg is_branch (nodes n)).
  pose proof (count_nonneg is_any_function (nodes n)).
  pose proof (count_nonneg is_class_def (nodes n)).
  unfold depth_recorded in *. unfold visited. simpl.
  repeat split; lia.
Qed.

Lemma visit_restores_depth_witness :
  ComplexityAnalyzer.nesting_depth
    (ComplexityAnalyzer.visit scenario_tree ComplexityAnalyzer.init)
  = ComplexityAnalyzer.nesting_depth ComplexityAnalyzer.init.
Proof.
  apply (visit_restores_depth scenario_tree ComplexityAnalyzer.init).
  unfold depth_recorded. simpl. lia.
Defined.

(** X4. The average function length is the mean of
    [end_lineno - lineno + 1] over the function and async function nodes
    that have an end line, taken in source order, and 0 when there is
    none; there is at most one length per counted function.  When no
    function ends before it starts, the average is at least 1, so it is 0
    only for a file without measured functions. *)
Theorem average_function_length (rt : Runtime)
    (path : string) (content : text) (tree : node) :
  ast_parse rt content = Some tree ->
  avg_function_length (analyze_complexity rt path content)
  = mean (flat_map node_length (nodes tree))
  /\ len (flat_map node_length (nodes tree))
     <= function_count (analyze_complexity rt path content)
  /\ (Forall (fun x => 1 <= x) (flat_map node_length (nodes tree)) ->
      flat_map node_length (nodes tree) <> [] ->
      (1 <= avg_function_length (analyze_complexity rt path content))%Q).
Proof.
  intros Hparse. rewrite (analyze_complexity_parsed rt path content tree Hparse).
  cbn [avg_function_length function_count].
  split; [reflexivity|]. split; [|apply mean_at_least_one].
  generalize (nodes tree). intros l.
  induction l as [|n l IH]; [reflexivity|].
  cbn [flat_map]. rewrite len_app, count_cons.
  assert (Hn : len (node_length n) <= (if is_any_function n then 1 else 0)).
  { unfold node_length, is_any_function, is_function_def,
      is_async_function_def.
    destruct (node_kind n) as [|l0 [e|]|l0 [e|]| | | | | | | | | | |];
      try destruct (Z.eqb e 0); unfold len; simpl; lia. }
  lia.
Qed.

Lemma average_function_length_witness :
  avg_function_length
    (analyze_complexity scenario_runtime "process.py" scenario_source)
  = mean (flat_map node_length (nodes scenario_tree)).
Proof.
  apply (average_function_length scenario_runtime "process.py"
           scenario_source scenario_tree). reflexivity.
Defined.

(** X5. Whatever the content, the integer metrics of [analyze_complexity]
    are not negative, and the lines of code are at most the lines of the
    text. *)
Theorem complexity_metrics_nonnegative (rt : Runtime)
    (path : string) (content : text) :
  0 <= cyclomatic_complexity (analyze_complexity rt path content)
  /\ 0 <= function_count (analyze_complexity rt path content)
  /\ 0 <= class_count (analyze_complexity rt path content)
  /\ 0 <= max_nesting_depth (analyze_complexity rt path content)
  /\ 0 <= lines_of_code (analyze_complexity rt path content)
       <= len (PyStr.split_lines content).
Proof.
  destruct (ast_parse rt content) as [tree|] eqn:Hparse.
  - rewrite (analyze_complexity_parsed rt path content tree Hparse).
    cbn [cyclomatic_complexity function_count class_count max_nesting_depth
           lines_of_code].
    pose proof (count_nonneg is_branch (nodes tree)).
    pose proof (count_nonneg is_any_function (nodes tree)).
    pose proof (count_nonneg is_class_def (nodes tree)).
    pose proof (nesting_height_nonneg tree).
    pose proof (len_filter_le is_code_line (PyStr.split_lines content)).
    repeat split; lia.
  - unfold analyze_complexity. rewrite Hparse. simpl.
    unfold len. repeat split; lia.
Qed.

(** ** Documentation analyzer *)

Lemma count_nodes_closed_form (rt : Runtime) (l : list node)
    (c : doc_counts) :
  fold_left (count_node rt) l c
  = mkDocCounts
      (functions_with_docstrings c + count (documented_function rt) l)
      (n_functions c + count is_function_def l)
      (classes_with_docstrings c + count (documented_class rt) l)
      (n_classes c + count is_class_def l).
Proof.
  revert c. induction l as [|n l IH]; intros c.
  - rewrite !count_nil. destruct c. simpl. f_equal; lia.
  - cbn [fold_left]. rewrite IH, !count_cons.
    unfold count_node, documented_function, documented_class,
      is_function_def, is_class_def.
    destruct (node_kind n), (has_docstring rt n); simpl; f_equal; lia.
Qed.

Lemma analyze_documentation_parsed (rt : Runtime) (path : string) (content : text)
    (tree : node) :
  ast_parse rt content = Some tree ->
  analyze_documentation rt path content
  = {| function_docstring_coverage :=
         coverage (count (documented_function rt) (nodes tree))
                  (count is_function_def (nodes tree));
       class_docstring_coverage :=
         coverage (count (documented_class rt) (nodes tree))
                  (count is_class_def (nodes tree));
       total_functions := count is_function_def (nodes tree);
       total_classes := count is_class_def (nodes tree);
       documented_functions := count (documented_function rt) (nodes tree);
       documented_classes := count (documented_class rt) (nodes tree) |}.
Proof.
  intros Hparse. unfold analyze_documentation. rewrite Hparse.
  rewrite count_nodes_closed_form. cbn.
  now rewrite !(count_permutation _ _ _ (walk_complete tree)).
Qed.

Lemma coverage_bounds (documented total : Z) :
  0 <= documented <= total ->
  (0 <= coverage documented total)%Q
  /\ (coverage documented total <= 100)%Q.
Proof.
  intros [H0 Hle]. unfold coverage.
  destruct (0 <? total) eqn:Hpos; [|split; discriminate].
  apply Z.ltb_lt in Hpos.
  assert (Ht : (0 < inject_Z total)%Q)
    by (change 0%Q with (inject_Z 0); now rewrite <- Zlt_Qlt).
  split.
  - apply Qmult_le_0_compat; [|discriminate].
    apply Qle_shift_div_l; [exact Ht|].
    rewrite Qmult_0_l. change 0%Q with (inject_Z 0).
    now rewrite <- Zle_Qle.
  - apply Qle_trans with (1 * 100)%Q; [|exact (Qle_refl 100)].
    apply Qmult_le_compat_r; [|discriminate].
    apply Qle_shift_div_r; [exact Ht|].
    rewrite Qmult_1_l. now rewrite <- Zle_Qle.
Qed.

Lemma coverage_of_none (documented : Z) : coverage documented 0 = 0%Q.
Proof. reflexivity. Qed.

(** X6. For every content, the documented functions and classes are at
    most the totals, both coverages lie between 0 and 100, and a coverage
    is exactly 0 when its total is 0. *)
Theorem documentation_coverage_bounds (rt : Runtime)
    (path : string) (content : text) :
  0 <= documented_functions (analyze_documentation rt path content)
    <= total_functions (analyze_documentation rt path content)
  /\ 0 <= documented_classes (analyze_documentation rt path content)
       <= total_classes (analyze_documentation rt path content)
  /\ (0 <= function_docstring_coverage
             (analyze_documentation rt path content) <= 100)%Q
  /\ (0 <= class_docstring_coverage
             (analyze_documentation rt path content) <= 100)%Q
  /\ (total_functions (analyze_documentation rt path content) = 0 ->
      function_docstring_coverage (analyze_documentation rt path content)
      = 0%Q)
  /\ (total_classes (analyze_documentation rt path content) = 0 ->
      class_docstring_coverage (analyze_documentation rt path content)
      = 0%Q).
Proof.
  destruct (ast_parse rt content) as [tree|] eqn:Hparse.
  - rewrite (analyze_documentation_parsed rt path content tree Hparse).
    cbn [documented_functions total_functions documented_classes
           total_classes function_docstring_coverage
           class_docstring_coverage].
    assert (Hf : 0 <= count (documented_function rt) (nodes tree)
                   <= count is_function_def (nodes tree)).
    { split; [apply count_nonneg|]. apply count_le. intros n.
      unfold documented_function. now intros [H _]%andb_prop. }
    assert (Hc : 0 <= count (documented_class rt) (nodes tree)
                   <= count is_class_def (nodes tree)).
    { split; [apply count_nonneg|]. apply count_le. intros n.
      unfold documented_class. now intros [H _]%andb_prop. }
    split; [exact Hf|]. split; [exact Hc|].
    split; [apply coverage_bounds, Hf|].
    split; [apply coverage_bounds, Hc|].
    split; intros ->; apply coverage_of_none.
  - unfold analyze_documentation. rewrite Hparse. simpl.
    repeat split; try lia; discriminate.
Qed.

(** X7. The two analyzers agree on classes: for a file that parses, the
    class count of the complexity metrics equals the total of classes of
    the documentation metrics, the number of class nodes of the tree. *)
Theorem class_counts_agree (rt : Runtime) (path : string) (content : text)
    (tree : node) :
  ast_parse rt content = Some tree ->
  class_count (analyze_complexity rt path content)
  = total_classes (analyze_documentation rt path content)
  /\ total_classes (analyze_documentation rt path content)
     = count is_class_def (nodes tree).
Proof.
  intros Hparse.
  rewrite (analyze_complexity_parsed rt path content tree Hparse),
    (analyze_documentation_parsed rt path content tree Hparse).
  split; reflexivity.
Qed.

Lemma class_counts_agree_witness :
  class_count (analyze_complexity sample_runtime "fetch.py" async_source)
  = total_classes (analyze_documentation sample_runtime "fetch.py" async_source).
Proof.
  apply (class_counts_agree sample_runtime "fetch.py" async_source async_tree).
  reflexivity.
Defined.

(** ** Security scanner: where the issues point *)

Lemma len_enumerate {A} (l : list A) (start : Z) :
  len (PyStr.enumerate start l) = len l.
Proof.
  unfold len. f_equal. revert start.
  induction l as [|x l IH]; intros start; simpl; [reflexivity|].
  now rewrite IH.
Qed.

Lemma sum_map_bound {A} (g : A -> Z) (b : Z) (l : list A) :
  (forall x, g x <= b) -> sum (map g l) <= b * len l.
Proof.
  intros Hg. induction l as [|x l IH]; [unfold sum, len; simpl; lia|].
  cbn [map]. rewrite sum_cons. specialize (Hg x).
  unfold len in *. simpl length. lia.
Qed.

Lemma len_line_issues (il : Z * text) :
  len (line_issues il) <= 8.
Proof.
  unfold line_issues, matching_rules, len. rewrite length_map.
  pose proof (filter_length_le
                (fun rule => Re.search (fst rule) (snd il) Re.IGNORECASE)
                SECURITY_PATTERNS) as H.
  change (length SECURITY_PATTERNS) with 8%nat in H. lia.
Qed.

(** The line numbers of the issues of the numbered lines. *)
Lemma line_numbers_sorted (lines : list text) (start : Z) :
  exists ls,
    map line (flat_map line_issues (PyStr.enumerate start lines))
    = map Some ls
    /\ StronglySorted Z.le ls /\ Forall (Z.le start) ls.
Proof.
  revert start. induction lines as [|l lines IH]; intros start.
  - exists []. repeat split; constructor.
  - destruct (IH (start + 1)) as (ls & Hmap & Hsorted & Hall).
    cbn [PyStr.enumerate flat_map]. rewrite map_app, Hmap.
    unfold line_issues at 1. cbn [fst snd].
    generalize (matching_rules l). intros rules.
    assert (Hall' : Forall (Z.le start) ls).
    { eapply List.Forall_impl; [|exact Hall]. intros x Hx. simpl in Hx. lia. }
    induction rules as [|r rules IHr].
    + exists ls. auto.
    + destruct IHr as (ls' & Hmap' & Hsorted' & Hge').
      exists (start :: ls'). cbn [map app]. rewrite Hmap'.
      split; [reflexivity|]. split.
      * constructor; assumption.
      * constructor; [lia | assumption].
Qed.

(** X8. Every issue of the security scanner points to a line of the text:
    its line number is between 1 and the number of lines and its code is
    that line stripped.  The issues come in the order of the lines (their
    line numbers never decrease), and there are at most 8 per line. *)
Theorem security_issues_point_to_lines (file_path : string) (content : text) :
  Forall (fun x =>
            exists i l,
              line x = Some i
              /\ 1 <= i <= len (PyStr.split_lines content)
              /\ PyStr.split_lines content !! Z.to_nat (i - 1) = Some l
              /\ code x = Some (PyStr.strip l))
         (SecurityAnalyzer.analyze_file file_path content)
  /\ (exists ls,
         map line (SecurityAnalyzer.analyze_file file_path content)
         = map Some ls
         /\ StronglySorted Z.le ls)
  /\ len (SecurityAnalyzer.analyze_file file_path content)
     <= 8 * len (PyStr.split_lines content).
Proof.
  split; [|split].
  - apply List.Forall_forall. intros x Hx.
    apply in_security_issues in Hx as (i & l & rule & Hi & Hl & _ & _ & ->).
    exists i, l. cbn [line code SecurityAnalyzer.issue].
    repeat split; auto.
    apply lookup_lt_Some in Hl. unfold len. lia.
  - rewrite security_analyze_file_spec.
    destruct (line_numbers_sorted (PyStr.split_lines content) 1)
      as (ls & Hmap & Hsorted & _).
    exists ls. auto.
  - rewrite security_analyze_file_spec, len_flat_map.
    rewrite <- (len_enumerate (PyStr.split_lines content) 1).
    apply sum_map_bound, len_line_issues.
Qed.

(** ** Dependency extractor: the imports of a file *)

Lemma get_add_same (key name : string) (s : DependencyAnalyzer.t) :
  DependencyAnalyzer.get key (DependencyAnalyzer.add key name s)
  = DependencyAnalyzer.get key s ∪ {[name]}.
Proof.
  unfold DependencyAnalyzer.get, DependencyAnalyzer.add.
  cbn [DependencyAnalyzer.imports_of]. now rewrite lookup_insert_eq.
Qed.

Lemma get_add_all (key : string) (names : list string)
    (s : DependencyAnalyzer.t) :
  DependencyAnalyzer.get key
    (fold_left (fun s name => DependencyAnalyzer.add key name s) names s)
  = DependencyAnalyzer.get key s ∪ list_to_set names.
Proof.
  revert s. induction names as [|x names IH]; intros s; simpl.
  - set_solver.
  - rewrite IH, get_add_same. set_solver.
Qed.

Lemma get_record_node (key : string) (s : DependencyAnalyzer.t) (n : node) :
  DependencyAnalyzer.get key (DependencyAnalyzer.record_node key s n)
  = DependencyAnalyzer.get key s ∪ list_to_set (node_modules n).
Proof.
  unfold DependencyAnalyzer.record_node, node_modules.
  destruct (node_kind n) as [| | | | | | | | |names|[m|]| | |];
    try (simpl; set_solver).
  - apply get_add_all.
  - destruct (PyStr.truthy m); [rewrite get_add_same|]; simpl; set_solver.
Qed.

Lemma get_record_nodes (key : string) (l : list node)
    (s : DependencyAnalyzer.t) :
  DependencyAnalyzer.get key
    (fold_left (DependencyAnalyzer.record_node key) l s)
  = DependencyAnalyzer.get key s ∪ list_to_set (flat_map node_modules l).
Proof.
  revert s. induction l as [|n l IH]; intros s; simpl.
  - set_solver.
  - rewrite IH, get_record_node, list_to_set_app_L. set_solver.
Qed.

Lemma get_touch (key : string) (s : DependencyAnalyzer.t) :
  DependencyAnalyzer.get key (DependencyAnalyzer.touch key s)
  = DependencyAnalyzer.get key s.
Proof.
  unfold DependencyAnalyzer.get, DependencyAnalyzer.touch.
  destruct (DependencyAnalyzer.imports_of s !! key) eqn:E.
  - now rewrite E.
  - cbn [DependencyAnalyzer.imports_of]. now rewrite lookup_insert_eq.
Qed.

(** X9. In the result of [analyze_file] for a readable file, the imports
    list has no duplicates and holds exactly the modules the file
    imports, and the reported total of modules is the length of that
    list. *)
Theorem file_imports_are_its_modules (rt : Runtime)
    (path : string) (content : text) :
  read_file rt path = ReadOk content ->
  exists m,
    metrics (analyze_file rt path) = Some m
    /\ NoDup (imports (m_dependencies m))
    /\ (forall x, In x (imports (m_dependencies m))
                  <-> x ∈ file_modules (ast_parse rt) content)
    /\ total_modules (m_dependencies m) = len (imports (m_dependencies m)).
Proof.
  intros Hread.
  destruct (analyze_file_readable rt path content Hread) as (_ & _ & _ & Hm).
  eexists. split; [exact Hm|]. cbn [m_dependencies].
  unfold DependencyAnalyzer.analyze_file. cbn [snd imports total_modules].
  rewrite get_touch, touch_modules.
  assert (Hget :
    DependencyAnalyzer.get path
      match ast_parse rt content with
      | Some tree =>
          fold_left (DependencyAnalyzer.record_node path) (walk tree)
                    DependencyAnalyzer.init
      | None => DependencyAnalyzer.init
      end
    = file_modules (ast_parse rt) content).
  { unfold file_modules. destruct (ast_parse rt content) as [tree|].
    - rewrite get_record_nodes. unfold DependencyAnalyzer.get. simpl.
      rewrite lookup_empty. simpl. set_solver.
    - unfold DependencyAnalyzer.get. simpl. now rewrite lookup_empty. }
  assert (Hmod :
    DependencyAnalyzer.modules
      match ast_parse rt content with
      | Some tree =>
          fold_left (DependencyAnalyzer.record_node path) (walk tree)
                    DependencyAnalyzer.init
      | None => DependencyAnalyzer.init
      end
    = file_modules (ast_parse rt) content).
  { unfold file_modules. destruct (ast_parse rt content) as [tree|].
    - rewrite record_nodes_modules. simpl. set_solver.
    - reflexivity. }
  rewrite Hget, Hmod. split; [apply NoDup_elements|].
  split.
  - intros x. rewrite <- list_elem_of_In. apply elem_of_elements.
  - reflexivity.
Qed.

Lemma file_imports_are_its_modules_witness :
  exists m,
    metrics (analyze_file sample_runtime "a.py") = Some m
    /\ NoDup (imports (m_dependencies m))
    /\ (forall x, In x (imports (m_dependencies m))
                  <-> x ∈ file_modules (ast_parse sample_runtime)
                                       import_os_source)
    /\ total_modules (m_dependencies m) = len (imports (m_dependencies m)).
Proof.
  apply (file_imports_are_its_modules sample_runtime "a.py" import_os_source).
  reflexivity.
Defined.

Lemma others_add (key other name : string) (s : DependencyAnalyzer.t) :
  other <> key ->
  DependencyAnalyzer.imports_of (DependencyAnalyzer.add key name s) !! other
  = DependencyAnalyzer.imports_of s !! other.
Proof.
  intros Hne. unfold DependencyAnalyzer.add.
  cbn [DependencyAnalyzer.imports_of]. now rewrite lookup_insert_ne.
Qed.

Lemma others_record_node (key other : string) (s : DependencyAnalyzer.t)
    (n : node) :
  other <> key ->
  DependencyAnalyzer.imports_of (DependencyAnalyzer.record_node key s n)
    !! other
  = DependencyAnalyzer.imports_of s !! other.
Proof.
  intros Hne. unfold DependencyAnalyzer.record_node.
  destruct (node_kind n) as [| | | | | | | | |names|[m|]| | |];
    try reflexivity.
  - revert s. induction names as [|x names IH]; intros s; simpl;
      [reflexivity|].
    now rewrite IH, others_add.
  - destruct (PyStr.truthy m); [now apply others_add | reflexivity].
Qed.

Lemma others_record_nodes (key other : string) (l : list node)
    (s : DependencyAnalyzer.t) :
  other <> key ->
  DependencyAnalyzer.imports_of
    (fold_left (DependencyAnalyzer.record_node key) l s) !! other
  = DependencyAnalyzer.imports_of s !! other.
Proof.
  intros Hne. revert s. induction l as [|n l IH]; intros s; simpl;
    [reflexivity|].
  now rewrite IH, others_record_node.
Qed.

Lemma others_touch (key other : string) (s : DependencyAnalyzer.t) :
  other <> key ->
  DependencyAnalyzer.imports_of (DependencyAnalyzer.touch key s) !! other
  = DependencyAnalyzer.imports_of s !! other.
Proof.
  intros Hne. unfold DependencyAnalyzer.touch.
  destruct (DependencyAnalyzer.imports_of s !! key); [reflexivity|].
  cbn [DependencyAnalyzer.imports_of]. now rewrite lookup_insert_ne.
Qed.

Lemma dependency_analyze_file_imports (parse : text -> option node)
    (path : string) (content : text) (self : DependencyAnalyzer.t) :
  DependencyAnalyzer.get path
    (fst (DependencyAnalyzer.analyze_file parse path content self))
  = DependencyAnalyzer.get path self ∪ file_modules parse content
  /\ imports (snd (DependencyAnalyzer.analyze_file parse path content self))
     = elements (DependencyAnalyzer.get path self
                 ∪ file_modules parse content).
Proof.
  unfold DependencyAnalyzer.analyze_file, file_modules.
  cbn [fst snd imports]. rewrite get_touch.
  destruct (parse content) as [tree|].
  - rewrite get_record_nodes. auto.
  - replace (DependencyAnalyzer.get path self ∪ ∅)
      with (DependencyAnalyzer.get path self) by set_solver.
    auto.
Qed.

(** X10. One call of [DependencyAnalyzer.analyze_file] on an analyzer adds
    the modules of the file to the modules seen so far and to the imports
    recorded under the file's path, loses none, reports the size of the
    set seen so far, and leaves the imports recorded under every other
    path as they were.  A file that does not parse adds nothing.  A
    second call on the same file reports the same imports and total. *)
Theorem dependency_analyzer_accumulates (parse : text -> option node)
    (path : string) (content : text) (self : DependencyAnalyzer.t) :
  DependencyAnalyzer.modules
    (fst (DependencyAnalyzer.analyze_file parse path content self))
  = DependencyAnalyzer.modules self ∪ file_modules parse content
  /\ DependencyAnalyzer.modules self
     ⊆ DependencyAnalyzer.modules
         (fst (DependencyAnalyzer.analyze_file parse path content self))
  /\ total_modules
       (snd (DependencyAnalyzer.analyze_file parse path content self))
     = Z.of_nat
         (size (DependencyAnalyzer.modules
                  (fst (DependencyAnalyzer.analyze_file parse path content
                          self))))
  /\ (forall other,
         other <> path ->
         DependencyAnalyzer.imports_of
           (fst (DependencyAnalyzer.analyze_file parse path content self))
           !! other
         = DependencyAnalyzer.imports_of self !! other)
  /\ (parse content = None ->
      DependencyAnalyzer.modules
        (fst (DependencyAnalyzer.analyze_file parse path content self))
      = DependencyAnalyzer.modules self)
  /\ snd (DependencyAnalyzer.analyze_file parse path content
            (fst (DependencyAnalyzer.analyze_file parse path content self)))
     = snd (DependencyAnalyzer.analyze_file parse path content self).
Proof.
  destruct (dependency_analyze_file_modules parse path content self)
    as [Hm Ht].
  destruct (dependency_analyze_file_imports parse path content self)
    as [Hg Hi].
  split; [exact Hm|]. split; [rewrite Hm; set_solver|].
  split; [now rewrite Ht, Hm|]. split.
  { intros other Hne. unfold DependencyAnalyzer.analyze_file. cbn [fst].
    rewrite others_touch by assumption.
    destruct (parse content); [now apply others_record_nodes | reflexivity]. }
  split.
  { intros Hnone. rewrite Hm. unfold file_modules. rewrite Hnone.
    set_solver. }
  destruct (dependency_analyze_file_modules parse path content
              (fst (DependencyAnalyzer.analyze_file parse path content self)))
    as [_ Ht2].
  destruct (dependency_analyze_file_imports parse path content
              (fst (DependencyAnalyzer.analyze_file parse path content self)))
    as [_ Hi2].
  destruct (snd (DependencyAnalyzer.analyze_file parse path content
                   (fst (DependencyAnalyzer.analyze_file parse path content
                           self)))) as [i2 t2].
  destruct (snd (DependencyAnalyzer.analyze_file parse path content self))
    as [i1 t1].
  cbn [imports total_modules] in *.
  rewrite Hi2, Ht2, Hi, Ht, Hg, Hm. f_equal.
  - f_equal. set_solver.
  - do 2 f_equal. set_solver.
Qed.

Lemma dependency_analyzer_accumulates_witness :
  DependencyAnalyzer.modules
    (fst (DependencyAnalyzer.analyze_file (ast_parse sample_runtime)
            "broken.py" broken_source DependencyAnalyzer.init))
  = DependencyAnalyzer.modules DependencyAnalyzer.init.
Proof.
  apply (dependency_analyzer_accumulates (ast_parse sample_runtime)
           "broken.py" broken_source DependencyAnalyzer.init).
  reflexivity.
Defined.

(** ** File analyzer: issues and suggestions *)

Lemma len_when {A} (b : bool) (x : A) :
  len (when b x) = if b then 1 else 0.
Proof. now destruct b. Qed.

(** X11. The suggestions of [analyze_file] never repeat and are at most
    five; the result has metrics exactly when the file could be read; and
    for a readable file every issue other than the security issues comes
    with one suggestion. *)
Theorem analyze_file_suggestions (rt : Runtime) (path : string) :
  NoDup (suggestions (analyze_file rt path))
  /\ len (suggestions (analyze_file rt path)) <= 5
  /\ file_path (analyze_file rt path) = path
  /\ (metrics (analyze_file rt path) = None
      <-> exists e, read_file rt path = ReadError e)
  /\ (forall content,
         read_file rt path = ReadOk content ->
         len (issues (analyze_file rt path))
         = len (suggestions (analyze_file rt path))
           + len (SecurityAnalyzer.analyze_file path content)).
Proof.
  destruct (read_file rt path) as [e|content] eqn:Hread.
  - unfold analyze_file. rewrite Hread. cbn.
    split; [constructor|]. split; [unfold len; simpl; lia|].
    split; [reflexivity|]. split; [|intros c Hc; discriminate Hc].
    split; eauto.
  - destruct (analyze_file_readable rt path content Hread)
      as (Hp & Hi & Hs & Hm).
    rewrite Hi, Hs, Hm. clear Hi Hs Hm.
    split; [|split; [|split; [exact Hp|split]]].
    + destruct (cyclomatic_complexity _ >? 10), (max_nesting_depth _ >? 4),
        (Qgtb _ 50), (Qltb _ 50), (Qltb _ 70);
        apply (bool_decide_unpack _); vm_compute; reflexivity.
    + rewrite !len_app, !len_when.
      destruct (cyclomatic_complexity _ >? 10), (max_nesting_depth _ >? 4),
        (Qgtb _ 50), (Qltb _ 50), (Qltb _ 70); lia.
    + split; [discriminate | intros [e He]; discriminate He].
    + intros c Hc. inversion Hc; subst c.
      rewrite !len_app, !len_when.
      destruct (cyclomatic_complexity _ >? 10), (max_nesting_depth _ >? 4),
        (Qgtb _ 50), (Qltb _ 50), (Qltb _ 70); lia.
Qed.

Lemma analyze_file_suggestions_witness :
  len (issues (analyze_file scenario_runtime "process.py"))
  = len (suggestions (analyze_file scenario_runtime "process.py"))
    + len (SecurityAnalyzer.analyze_file "process.py" scenario_source).
Proof.
  apply (analyze_file_suggestions scenario_runtime "process.py").
  reflexivity.
Defined.

(** ** Report renderers: thresholds, failures and totals *)

Lemma min_level_of_cases (ms : string) :
  (ms = "info" /\ min_level_of ms = inr 1)
  \/ (ms = "warning" /\ min_level_of ms = inr 2)
  \/ (ms = "error" /\ min_level_of ms = inr 3)
  \/ (ms <> "info" /\ ms <> "warning" /\ ms <> "error"
      /\ min_level_of ms = inl (KeyError ms)).
Proof.
  destruct (decide (ms = "info")) as [->|H1]; [left; split; reflexivity|].
  destruct (decide (ms = "warning")) as [->|H2];
    [right; left; split; reflexivity|].
  destruct (decide (ms = "error")) as [->|H3];
    [right; right; left; split; reflexivity|].
  do 3 right. repeat split; try assumption.
  unfold min_level_of, severity_levels.
  rewrite !lookup_insert_ne by congruence. now rewrite lookup_empty.
Qed.

Lemma style_of_cases (s : string) :
  ((s = "info" \/ s = "warning" \/ s = "error")
   /\ exists st, style_of s = inr st)
  \/ (s <> "info" /\ s <> "warning" /\ s <> "error"
      /\ style_of s = inl (KeyError s)).
Proof.
  destruct (decide (s = "info")) as [->|H1];
    [left; split; [auto | eexists; reflexivity]|].
  destruct (decide (s = "warning")) as [->|H2];
    [left; split; [auto | eexists; reflexivity]|].
  destruct (decide (s = "error")) as [->|H3];
    [left; split; [auto | eexists; reflexivity]|].
  right. repeat split; try assumption.
  unfold style_of, severity_styles.
  rewrite !lookup_insert_ne by congruence. now rewrite lookup_empty.
Qed.

Lemma unstyled_spec (i : Issue) :
  unstyled i = true
  <-> exists s, severity i = Some s
                /\ s <> "info" /\ s <> "warning" /\ s <> "error".
Proof.
  unfold unstyled. destruct (severity i) as [s|] eqn:E.
  - rewrite unranked_spec, E. split.
    + intros [H | H]; [discriminate H | exact H].
    + intros H. right. exact H.
  - split; [discriminate | intros (s & H & _); discriminate H].
Qed.

Lemma unstyled_unranked (i : Issue) : unstyled i = true -> unranked i = true.
Proof.
  unfold unstyled. destruct (severity i); [auto | discriminate].
Qed.

Lemma issue_level_range (i : Issue) : 1 <= issue_level i <= 3.
Proof.
  destruct (unranked i) eqn:U.
  - rewrite (unranked_level i U). lia.
  - unfold unranked in U. unfold issue_level.
    destruct (severity i) as [s|]; [|discriminate U].
    apply negb_false_iff in U. rewrite !orb_true_iff in U.
    rewrite !String.eqb_eq in U.
    destruct U as [[-> | ->] | ->]; vm_compute; split; discriminate.
Qed.

Lemma filter_issues_info (l : list Issue) : filter_issues 1 l = l.
Proof.
  unfold filter_issues. induction l as [|i l IH]; simpl; [reflexivity|].
  pose proof (issue_level_range i) as [H _].
  apply Z.geb_le in H. now rewrite H, IH.
Qed.

Lemma filter_issues_nested (lo hi : Z) (l : list Issue) :
  lo <= hi -> incl (filter_issues hi l) (filter_issues lo l).
Proof.
  intros Hle i Hi. unfold filter_issues in *.
  apply filter_In in Hi as [Hin Hlvl]. apply filter_In. split; [exact Hin|].
  apply Z.geb_le in Hlvl. apply Z.geb_le. lia.
Qed.

Lemma render_issue_cases (i : Issue) :
  (unstyled i = false /\ exists x, render_issue i = inr x)
  \/ (unstyled i = true
      /\ exists s, severity i = Some s /\ render_issue i = inl (KeyError s)).
Proof.
  destruct (unstyled i) eqn:U.
  - right. split; [reflexivity|].
    apply unstyled_spec in U as (s & Hs & H1 & H2 & H3).
    exists s. split; [exact Hs|]. unfold render_issue. rewrite Hs.
    cbn [default from_option id].
    destruct (style_of_cases s) as [[[->| [->| ->]] _] | (_ & _ & _ & ->)];
      congruence.
  - left. split; [reflexivity|]. unfold render_issue.
    destruct (style_of_cases (default "info" (severity i)))
      as [[_ [st ->]] | (H1 & H2 & H3 & _)]; [eauto|].
    exfalso. destruct (severity i) as [s|] eqn:Hs.
    + assert (unstyled i = true); [|congruence].
      apply unstyled_spec. exists s. auto.
    + apply H1. reflexivity.
Qed.

Lemma render_issues_cases (l : list Issue) :
  (Forall (fun i => unstyled i = false) l
   /\ exists xs, render_issues l = inr xs)
  \/ (exists i s, In i l /\ unstyled i = true /\ severity i = Some s
                  /\ render_issues l = inl (KeyError s)).
Proof.
  induction l as [|i l IH]; [left; split; [constructor | eexists; reflexivity]|].
  cbn [render_issues].
  destruct (render_issue_cases i) as [[U [x ->]] | [U (s & Hs & ->)]].
  - destruct IH as [[Hall [xs ->]] | (j & s & Hj & Uj & Hs & ->)].
    + left. split; [constructor; assumption | eexists; reflexivity].
    + right. exists j, s. simpl. auto.
  - right. exists i, s. simpl. auto.
Qed.

Lemma render_details_cases (rt : Runtime) (lvl : Z)
    (results : list AnalysisResult) :
  (Forall (fun r => Forall (fun i => unstyled i = false)
                           (filter_issues lvl (issues r))) results
   /\ exists d, render_details rt lvl results = inr d)
  \/ (exists r i s,
         In r results /\ In i (filter_issues lvl (issues r))
         /\ unstyled i = true /\ severity i = Some s
         /\ render_details rt lvl results = inl (KeyError s)).
Proof.
  induction results as [|r results IH];
    [left; split; [constructor | eexists; reflexivity]|].
  cbn [render_details].
  destruct (render_issues_cases (filter_issues lvl (issues r)))
    as [[Hall [xs Hxs]] | (i & s & Hi & Ui & Hs & Hfail)].
  - destruct IH as [[Hrest [d Hd]] | (r' & i & s & Hr & Hi & Ui & Hs & Hfail)].
    + left. split; [constructor; assumption|].
      rewrite Hxs, Hd. destruct (filter_issues lvl (issues r)); eauto.
    + right. exists r', i, s. rewrite Hxs, Hfail.
      repeat split; try assumption; [right; assumption|].
      destruct (filter_issues lvl (issues r)); reflexivity.
  - right. exists r, i, s. rewrite Hfail.
    repeat split; try assumption; [left; reflexivity|].
    destruct (filter_issues lvl (issues r)); [destruct Hi | reflexivity].
Qed.

Lemma fold_add_sum {A} (g : A -> Z) (l : list A) (a : Z) :
  fold_left (fun n x => n + g x) l a = a + sum (map g l).
Proof.
  revert a. induction l as [|x l IH]; intros a; simpl.
  - unfold sum. simpl. lia.
  - rewrite IH, sum_cons. lia.
Qed.

Lemma sum_map_member {A} (g : A -> Z) (l : list A) (x : A) :
  (forall y, 0 <= g y) -> In x l -> g x <= sum (map g l).
Proof.
  intros Hg. induction l as [|y l IH]; [intros []|].
  cbn [map]. rewrite sum_cons. intros [-> | Hin].
  - assert (0 <= sum (map g l)).
    { clear -Hg. induction l as [|z l IH]; [unfold sum; simpl; lia|].
      cbn [map]. rewrite sum_cons. specialize (Hg z). lia. }
    lia.
  - specialize (IH Hin). specialize (Hg y). lia.
Qed.

Lemma len_nonneg {A} (l : list A) : 0 <= len l.
Proof. unfold len. lia. Qed.

Lemma len_pos_of_member {A} (l : list A) (x : A) : In x l -> 1 <= len l.
Proof. destruct l; [intros [] | unfold len; simpl; lia]. Qed.

(** The text report at a known threshold: it fails on an issue to show
    whose severity has no style, and otherwise returns its parts. *)
Lemma text_report_cases (rt : Runtime) (results : list AnalysisResult)
    (ms : string) (lvl : Z) :
  min_level_of ms = inr lvl ->
  (Forall (fun r => Forall (fun i => unstyled i = false)
                           (filter_issues lvl (issues r))) results
   /\ exists rep,
        generate_text_report rt results ms = inr rep
        /\ summary_table rep = map (summary_row rt lvl) results
        /\ printed_total_issues rep
           = sum (map (fun r => len (filter_issues lvl (issues r))) results)
        /\ printed_total_suggestions rep
           = sum (map (fun r => len (suggestions r)) results)
        /\ suggestion_list rep
           = if printed_total_suggestions rep >? 0
             then map (fun p => "  " +:+ PyStr.of_int (fst p) +:+ ". "
                                +:+ snd p)
                      (PyStr.enumerate 1
                         (unique_suggestions
                            (flat_map suggestions results)))
             else [])
  \/ (exists r i s,
         In r results /\ In i (filter_issues lvl (issues r))
         /\ unstyled i = true /\ severity i = Some s
         /\ generate_text_report rt results ms = inl (KeyError s)).
Proof.
  intros Hms. unfold generate_text_report. rewrite Hms.
  rewrite (fold_add_sum (fun r => len (filter_issues lvl (issues r)))),
    (fold_add_sum (fun r => len (suggestions r))).
  rewrite (fold_append_flat_map suggestions
             (fun all r => all ++ suggestions r)) by reflexivity.
  rewrite !Z.add_0_l. cbn [app].
  destruct (render_details_cases rt lvl results)
    as [[Hall [d Hd]] | (r & i & s & Hr & Hi & Ui & Hs & Hfail)].
  - left. split; [exact Hall|]. rewrite Hd.
    destruct (sum _ >? 0); eexists; (split; [reflexivity|]); auto.
  - right. exists r, i, s. repeat split; try assumption.
    assert (Hpos : 1 <= sum (map (fun r => len (filter_issues lvl (issues r)))
                                 results)).
    { pose proof (sum_map_member
                    (fun r => len (filter_issues lvl (issues r))) results r
                    (fun y => len_nonneg _) Hr) as Hle.
      pose proof (len_pos_of_member _ _ Hi). simpl in Hle. lia. }
    assert (Hgt : (sum (map (fun r => len (filter_issues lvl (issues r)))
                            results) >? 0) = true)
      by (apply Z.gtb_lt; lia).
    rewrite Hgt, Hfail. reflexivity.
Qed.

Lemma filter_issues_len_mono (lo hi : Z) (l : list Issue) :
  lo <= hi -> len (filter_issues hi l) <= len (filter_issues lo l).
Proof.
  intros Hle. unfold filter_issues, len.
  induction l as [|i l IH]; simpl; [lia|].
  destruct (issue_level i >=? hi) eqn:Ehi.
  - apply Z.geb_le in Ehi.
    assert (Elo : (issue_level i >=? lo) = true) by (apply Z.geb_le; lia).
    rewrite Elo. simpl. lia.
  - destruct (issue_level i >=? lo); simpl; lia.
Qed.

Lemma json_report_known_threshold (rt : Runtime)
    (results : list AnalysisResult) (ms : string) :
  ms = "info" \/ ms = "warning" \/ ms = "error" ->
  exists rep, generate_json_report rt results ms = inr rep.
Proof.
  intros [-> | [-> | ->]].
  - rewrite (json_report_spec _ _ _ _ min_level_of_info). eauto.
  - rewrite (json_report_spec _ _ _ _ min_level_of_warning). eauto.
  - rewrite (json_report_spec _ _ _ _ min_level_of_error). eauto.
Qed.

(** X12. The structured report fails only on the threshold: it raises
    [KeyError] for a threshold other than [info], [warning] and [error],
    and returns a report for these three whatever the results. *)
Theorem json_report_fails_only_on_threshold (rt : Runtime)
    (results : list AnalysisResult) (ms : string) :
  (ms <> "info" /\ ms <> "warning" /\ ms <> "error"
   /\ generate_json_report rt results ms = inl (KeyError ms))
  \/ ((ms = "info" \/ ms = "warning" \/ ms = "error")
      /\ exists rep, generate_json_report rt results ms = inr rep).
Proof.
  destruct (min_level_of_cases ms)
    as [[-> H] | [[-> H] | [[-> H] | (H1 & H2 & H3 & H)]]].
  - right. split; [auto|]. rewrite (json_report_spec _ _ _ _ H). eauto.
  - right. split; [auto|]. rewrite (json_report_spec _ _ _ _ H). eauto.
  - right. split; [auto|]. rewrite (json_report_spec _ _ _ _ H). eauto.
  - left. repeat split; try assumption.
    unfold generate_json_report. now rewrite H.
Qed.

(** X13. A structured report agrees with itself: its file entries are those
    of the results, in order, the total of files is their number, and the
    totals of issues and of suggestions are the sums over the entries
    listed. *)
Theorem json_summary_matches_files (rt : Runtime)
    (results : list AnalysisResult) (ms : string) (rep : JsonReport) :
  generate_json_report rt results ms = inr rep ->
  map fd_path (files rep) = map file_path results
  /\ total_files (summary rep) = len (files rep)
  /\ total_issues (summary rep)
     = sum (map (fun fd => len (fd_issues fd)) (files rep))
  /\ total_suggestions (summary rep)
     = sum (map (fun fd => len (fd_suggestions fd)) (files rep))
  /\ md_min_severity (metadata rep) = ms.
Proof.
  intros H. destruct (min_level_of ms) as [e|lvl] eqn:Hl.
  - unfold generate_json_report in H. rewrite Hl in H. discriminate H.
  - rewrite (json_report_spec rt results ms lvl Hl) in H.
    inversion H; subst rep. cbn. rewrite !map_map. cbn.
    unfold len. rewrite length_map. auto.
Qed.

Lemma json_summary_matches_files_witness :
  exists rep,
    generate_json_report sample_runtime [sample_result] "warning" = inr rep
    /\ total_issues (summary rep)
       = sum (map (fun fd => len (fd_issues fd)) (files rep)).
Proof.
  destruct (generate_json_report sample_runtime [sample_result] "warning")
    as [e|rep] eqn:H; [vm_compute in H; discriminate H|].
  exists rep. split; [reflexivity|].
  apply (json_summary_matches_files sample_runtime [sample_result]
           "warning" rep H).
Defined.

(** X14. At the [info] threshold nothing is filtered: the structured report
    lists every issue of every result.  Raising the threshold only
    removes issues: what is listed at [error] is listed at [warning], and
    the totals of issues do not grow. *)
Theorem thresholds_nest (rt : Runtime) (results : list AnalysisResult) :
  exists ri rw re,
    generate_json_report rt results "info" = inr ri
    /\ generate_json_report rt results "warning" = inr rw
    /\ generate_json_report rt results "error" = inr re
    /\ map fd_issues (files ri) = map issues results
    /\ Forall2 (fun fe fw => incl (fd_issues fe) (fd_issues fw))
               (files re) (files rw)
    /\ total_issues (summary re) <= total_issues (summary rw)
       <= total_issues (summary ri).
Proof.
  rewrite (json_report_spec rt results "info" 1 min_level_of_info),
    (json_report_spec rt results "warning" 2 min_level_of_warning),
    (json_report_spec rt results "error" 3 min_level_of_error).
  do 3 eexists. do 3 (split; [reflexivity|]). cbn.
  split; [|split].
  - rewrite map_map. apply map_ext. intros r. cbn. apply filter_issues_info.
  - induction results as [|r results IH]; simpl; constructor; [|exact IH].
    apply filter_issues_nested. lia.
  - induction results as [|r results IH]; [unfold sum; simpl; lia|].
    cbn [map]. rewrite !sum_cons.
    pose proof (filter_issues_len_mono 2 3 (issues r)).
    pose proof (filter_issues_len_mono 1 2 (issues r)).
    lia.
Qed.

(** X15. At a known threshold the text report fails exactly when some
    issue it has to show carries a severity other than [info], [warning]
    and [error]; the failure is then a [KeyError] on the severity of
    such an issue. *)
Theorem text_report_fails_on_unstyled_issue (rt : Runtime)
    (results : list AnalysisResult) (ms : string) (lvl : Z) :
  min_level_of ms = inr lvl ->
  ((exists e, generate_text_report rt results ms = inl e)
   <-> exists r i,
         In r results /\ In i (filter_issues lvl (issues r))
         /\ unstyled i = true)
  /\ (forall e,
         generate_text_report rt results ms = inl e ->
         exists r i s,
           In r results /\ In i (issues r)
           /\ severity i = Some s
           /\ s <> "info" /\ s <> "warning" /\ s <> "error"
           /\ e = KeyError s).
Proof.
  intros Hms.
  destruct (text_report_cases rt results ms lvl Hms)
    as [[Hall (rep & Hrep & _)] | (r & i & s & Hr & Hi & Ui & Hs & Hfail)].
  - split; [split|].
    + intros [e He]. rewrite Hrep in He. discriminate He.
    + intros (r & i & Hr & Hi & Ui).
      rewrite List.Forall_forall in Hall. specialize (Hall r Hr).
      rewrite List.Forall_forall in Hall. specialize (Hall i Hi). congruence.
    + intros e He. rewrite Hrep in He. discriminate He.
  - split; [split; [intros _; eauto | intros _; eauto]|].
    intros e He. rewrite Hfail in He. inversion He; subst e.
    exists r, i, s.
    apply unstyled_spec in Ui as (s' & Hs' & H1 & H2 & H3).
    assert (s' = s) by congruence. subst s'.
    apply filter_In in Hi as [Hi _]. repeat split; assumption.
Qed.

Lemma text_report_fails_on_unstyled_issue_witness :
  (exists e,
      generate_text_report sample_runtime
        [analyze_file sample_runtime "app.py"] "info" = inl e)
  <-> exists r i,
        In r [analyze_file sample_runtime "app.py"]
        /\ In i (filter_issues 1 (issues r)) /\ unstyled i = true.
Proof.
  apply (text_report_fails_on_unstyled_issue sample_runtime
           [analyze_file sample_runtime "app.py"] "info" 1).
  reflexivity.
Defined.

(** X16. At the thresholds [warning] and [error] the text report never
    fails, whatever severities the issues carry: it returns one summary
    row per result. *)
Theorem text_report_succeeds_above_info (rt : Runtime)
    (results : list AnalysisResult) (ms : string) :
  ms = "warning" \/ ms = "error" ->
  exists rep,
    generate_text_report rt results ms = inr rep
    /\ len (summary_table rep) = len results.
Proof.
  intros Hms.
  assert (Hlvl : exists lvl, min_level_of ms = inr lvl /\ 2 <= lvl).
  { destruct Hms as [-> | ->]; [exists 2 | exists 3];
      (split; [vm_compute; reflexivity | lia]). }
  destruct Hlvl as (lvl & Hmin & Hlvl).
  destruct (text_report_cases rt results ms lvl Hmin)
    as [[_ (rep & Hrep & Hrows & _)] | (r & i & s & Hr & Hi & Ui & _)].
  - exists rep. split; [exact Hrep|]. rewrite Hrows.
    unfold len. now rewrite length_map.
  - exfalso. apply unstyled_unranked in Ui.
    pose proof (filter_issues_ranked lvl (issues r) Hlvl) as Hranked.
    rewrite List.Forall_forall in Hranked. specialize (Hranked i Hi).
    congruence.
Qed.

Lemma text_report_succeeds_above_info_witness :
  exists rep,
    generate_text_report sample_runtime
      [analyze_file sample_runtime "app.py"] "error" = inr rep
    /\ len (summary_table rep) = len [analyze_file sample_runtime "app.py"].
Proof.
  apply (text_report_succeeds_above_info sample_runtime
           [analyze_file sample_runtime "app.py"] "error").
  right. reflexivity.
Defined.

(** X17. When the text report and the structured report are both produced
    for the same results and threshold, they agree: the same totals of
    issues and of suggestions, one row per file entry, and in each row
    the number of issues of the entry. *)
Theorem text_and_json_agree (rt : Runtime) (results : list AnalysisResult)
    (ms : string) (text : TextReport) (json : JsonReport) :
  generate_text_report rt results ms = inr text ->
  generate_json_report rt results ms = inr json ->
  printed_total_issues text = total_issues (summary json)
  /\ printed_total_suggestions text = total_suggestions (summary json)
  /\ len (summary_table text) = total_files (summary json)
  /\ map row_issues (summary_table text)
     = map (fun fd => PyStr.of_int (len (fd_issues fd))) (files json).
Proof.
  intros Ht Hj. destruct (min_level_of ms) as [e|lvl] eqn:Hl.
  - unfold generate_json_report in Hj. rewrite Hl in Hj. discriminate Hj.
  - rewrite (json_report_spec rt results ms lvl Hl) in Hj.
    inversion Hj; subst json. clear Hj.
    destruct (text_report_cases rt results ms lvl Hl)
      as [[_ (rep & Hrep & Hrows & Hi & Hs & _)]
         | (r & i & s & _ & _ & _ & _ & Hf)];
      [|rewrite Hf in Ht; discriminate Ht].
    rewrite Hrep in Ht. inversion Ht; subst rep.
    cbn. rewrite Hrows, Hi, Hs, !map_map. cbn.
    repeat split. unfold len. now rewrite length_map.
Qed.

Lemma text_and_json_agree_witness :
  exists text json,
    generate_text_report sample_runtime [sample_result] "warning" = inr text
    /\ generate_json_report sample_runtime [sample_result] "warning"
       = inr json
    /\ printed_total_issues text = total_issues (summary json).
Proof.
  destruct (generate_text_report sample_runtime [sample_result] "warning")
    as [e|text] eqn:Ht; [vm_compute in Ht; discriminate Ht|].
  destruct (generate_json_report sample_runtime [sample_result] "warning")
    as [e|json] eqn:Hj; [vm_compute in Hj; discriminate Hj|].
  exists text, json. split; [reflexivity|]. split; [reflexivity|].
  apply (text_and_json_agree sample_runtime [sample_result] "warning"
           text json Ht Hj).
Defined.

(** ** The suggestion list of the text report *)

Lemma existsb_eqb_in (s : string) (u : list string) :
  existsb (String.eqb s) u = true <-> In s u.
Proof.
  rewrite existsb_exists. split.
  - intros (x & Hx & E). apply String.eqb_eq in E. now subst.
  - intros H. exists s. split; [exact H | apply String.eqb_refl].
Qed.

Lemma unique_loop (l acc : list string) :
  List.NoDup acc ->
  let u :=
    fold_left
      (fun unique suggestion =>
         if existsb (String.eqb suggestion) unique then unique
         else unique ++ [suggestion]) l acc in
  List.NoDup u
  /\ (forall x, In x u <-> In x acc \/ In x l)
  /\ len u <= len acc + len l
  /\ (List.NoDup (acc ++ l) -> u = acc ++ l).
Proof.
  revert acc. induction l as [|s l IH]; intros acc Hacc; cbn zeta.
  - simpl. rewrite app_nil_r.
    split; [exact Hacc|]. split; [intros x; tauto|].
    split; [unfold len; simpl; lia | reflexivity].
  - cbn [fold_left].
    destruct (existsb (String.eqb s) acc) eqn:E.
    + apply existsb_eqb_in in E.
      destruct (IH acc Hacc) as (Hn & Hin & Hlen & Hid).
      split; [exact Hn|]. split; [|split].
      * intros x. rewrite Hin. simpl. split; [tauto|].
        intros [H | [<- | H]]; auto.
      * unfold len in *. simpl length. lia.
      * intros Hnd. exfalso. apply List.NoDup_remove_2 in Hnd.
        apply Hnd. apply in_or_app. left. exact E.
    + assert (Hs : ~ In s acc).
      { intros H. apply existsb_eqb_in in H. congruence. }
      assert (Hacc' : List.NoDup (acc ++ [s])).
      { apply List.NoDup_app; [exact Hacc | repeat constructor; intros [] |].
        intros a Ha [<- | []]. exact (Hs Ha). }
      destruct (IH (acc ++ [s]) Hacc') as (Hn & Hin & Hlen & Hid).
      split; [exact Hn|]. split; [|split].
      * intros x. rewrite Hin, in_app_iff. simpl. tauto.
      * unfold len in *. rewrite length_app in Hlen. simpl length in *. lia.
      * intros Hnd. rewrite <- app_assoc in Hid. apply Hid. exact Hnd.
Qed.

(** X18. The removal of duplicate suggestions keeps every suggestion once:
    the result has no duplicates and the same members as the input, is
    not longer, and is the input itself when that has no duplicates.  The
    text report lists these, so it may list fewer suggestions than the
    total it prints in the heading. *)
Theorem unique_suggestions_spec (rt : Runtime)
    (results : list AnalysisResult) (l : list string) :
  List.NoDup (unique_suggestions l)
  /\ (forall x, In x (unique_suggestions l) <-> In x l)
  /\ len (unique_suggestions l) <= len l
  /\ (List.NoDup l -> unique_suggestions l = l)
  /\ (forall ms rep,
         generate_text_report rt results ms = inr rep ->
         len (suggestion_list rep)
         = len (unique_suggestions (flat_map suggestions results))
         /\ len (suggestion_list rep) <= printed_total_suggestions rep).
Proof.
  destruct (unique_loop l [] (List.NoDup_nil _)) as (Hn & Hin & Hlen & Hid).
  split; [exact Hn|]. split; [intros x; rewrite (Hin x); simpl; tauto|].
  split; [exact Hlen|]. split; [exact Hid|].
  intros ms rep Hrep.
  destruct (min_level_of ms) as [e|lvl] eqn:Hl.
  { unfold generate_text_report in Hrep. rewrite Hl in Hrep. discriminate. }
  destruct (text_report_cases rt results ms lvl Hl)
    as [[_ (rep' & Hrep' & _ & _ & Hs & Hlist)]
       | (r & i & s & _ & _ & _ & _ & Hf)];
    [|rewrite Hf in Hrep; discriminate Hrep].
  rewrite Hrep' in Hrep. inversion Hrep; subst rep'. clear Hrep.
  rewrite Hlist, Hs.
  assert (Htotal : sum (map (fun r => len (suggestions r)) results)
                   = len (flat_map suggestions results))
    by (now rewrite len_flat_map).
  rewrite Htotal.
  destruct (unique_loop (flat_map suggestions results) []
              (List.NoDup_nil _)) as (_ & Hin' & Hlen' & _).
  fold (unique_suggestions (flat_map suggestions results)) in Hin', Hlen'.
  destruct (len (flat_map suggestions results) >? 0) eqn:E.
  - unfold len at 1 3. rewrite length_map.
    fold (len (PyStr.enumerate 1
                 (unique_suggestions (flat_map suggestions results)))).
    rewrite len_enumerate. split; [reflexivity|].
    unfold len in *. simpl in Hlen'. lia.
  - assert (E0 : len (flat_map suggestions results) = 0).
    { pose proof (len_nonneg (flat_map suggestions results)).
      destruct (Z.gtb_spec (len (flat_map suggestions results)) 0);
        [discriminate E | lia]. }
    pose proof (len_nonneg
                  (unique_suggestions (flat_map suggestions results))).
    unfold len in *. simpl in *. lia.
Qed.

Lemma unique_suggestions_spec_witness :
  unique_suggestions ["a"; "b"] = ["a"; "b"].
Proof.
  apply (unique_suggestions_spec sample_runtime [] ["a"; "b"]).
  repeat constructor; simpl; intuition discriminate.
Defined.

(** ** File discovery *)

Lemma prefix_spec (p s : string) :
  String.prefix p s = true <-> exists b, s = p +:+ b.
Proof.
  revert s. induction p as [|c p IH]; intros s.
  - split; [intros _; exists s; reflexivity | destruct s; reflexivity].
  - destruct s as [|d s]; simpl.
    + split; [discriminate | intros [b Hb]; discriminate Hb].
    + destruct (Ascii.ascii_dec c d) as [->|Hne].
      * rewrite IH. split; intros [b Hb]; exists b; [now subst|].
        now inversion Hb.
      * split; [discriminate|]. intros [b Hb]. inversion Hb. congruence.
Qed.

Lemma str_contains_spec (p s : string) :
  str_contains p s = true <-> exists a b, s = a +:+ p +:+ b.
Proof.
  induction s as [|c s IH]; cbn [str_contains].
  - rewrite orb_false_r, prefix_spec. split.
    + intros [b Hb]. exists EmptyString, b. exact Hb.
    + intros (a & b & H). destruct a; [exists b; exact H | discriminate H].
  - rewrite orb_true_iff, prefix_spec, IH. split.
    + intros [[b Hb] | (a & b & Hab)].
      * exists EmptyString, b. exact Hb.
      * exists (String c a), b. simpl. now rewrite Hab.
    + intros (a & b & H). destruct a as [|d a].
      * left. exists b. exact H.
      * right. exists a, b. simpl in H. now inversion H.
Qed.

Lemma skip_file_spec (patterns : list string) (file_path : string) :
  skip_file patterns file_path = true
  <-> exists p, In p patterns /\ str_contains p file_path = true.
Proof.
  induction patterns as [|p patterns IH]; simpl.
  - split; [discriminate | intros (p & [] & _)].
  - destruct (str_contains p file_path) eqn:E.
    + split; [intros _; exists p; auto | reflexivity].
    + rewrite IH. split.
      * intros (q & Hq & Hc). exists q. auto.
      * intros (q & [<- | Hq] & Hc); [congruence | exists q; auto].
Qed.

Lemma find_python_files_filter (rglob : string -> list string)
    (directory : string) (exclude_patterns : option (list string)) :
  find_python_files rglob directory exclude_patterns
  = List.filter
      (fun f => negb (skip_file (exclusions exclude_patterns) f))
      (rglob directory).
Proof.
  unfold find_python_files. fold (exclusions exclude_patterns).
  generalize (exclusions exclude_patterns). intros pats.
  assert (Hloop : forall l acc,
    fold_left
      (fun python_files file_path =>
         if skip_file pats file_path then python_files
         else python_files ++ [file_path]) l acc
    = acc ++ List.filter (fun f => negb (skip_file pats f)) l).
  { induction l as [|f l IH]; intros acc; simpl.
    - now rewrite app_nil_r.
    - rewrite IH. destruct (skip_file pats f); simpl; [reflexivity|].
      now rewrite <- app_assoc. }
  apply Hloop.
Qed.

(** X19. File discovery returns, in the order of the listing, exactly the
    listed files whose path contains none of the exclusion patterns as a
    substring, the six default patterns when none are given.  The test is
    on the whole path, so an empty pattern excludes every file, and no
    pattern excludes none. *)
Theorem find_python_files_excludes (rglob : string -> list string)
    (directory : string) (exclude_patterns : option (list string)) :
  find_python_files rglob directory exclude_patterns
  = List.filter
      (fun f => negb (skip_file (exclusions exclude_patterns) f))
      (rglob directory)
  /\ (forall f,
         In f (find_python_files rglob directory exclude_patterns)
         <-> In f (rglob directory)
             /\ forall p a b,
                  In p (exclusions exclude_patterns) ->
                  f <> a +:+ p +:+ b)
  /\ find_python_files rglob directory (Some []) = rglob directory
  /\ (In EmptyString (exclusions exclude_patterns) ->
      find_python_files rglob directory exclude_patterns = []).
Proof.
  split; [apply find_python_files_filter|]. split; [|split].
  - intros f. rewrite find_python_files_filter, filter_In, negb_true_iff.
    rewrite <- not_true_iff_false, skip_file_spec.
    split; intros [Hin H]; (split; [exact Hin|]).
    + intros p a b Hp E. apply H. exists p. split; [exact Hp|].
      apply str_contains_spec. eauto.
    + intros (p & Hp & Hc). apply str_contains_spec in Hc as (a & b & E).
      exact (H p a b Hp E).
  - rewrite find_python_files_filter. simpl.
    induction (rglob directory) as [|f l IH]; simpl; [reflexivity|].
    now rewrite IH.
  - intros Hempty. rewrite find_python_files_filter.
    induction (rglob directory) as [|f l IH]; simpl; [reflexivity|].
    assert (Hskip : skip_file (exclusions exclude_patterns) f = true).
    { apply skip_file_spec. exists EmptyString. split; [exact Hempty|].
      apply str_contains_spec. exists EmptyString, f. reflexivity. }
    now rewrite Hskip.
Qed.

Lemma find_python_files_excludes_witness :
  find_python_files (fun _ => ["a.py"; "venv/b.py"]) "." (Some [""]) = [].
Proof.
  apply (find_python_files_excludes (fun _ => ["a.py"; "venv/b.py"]) "."
           (Some [""])).
  left. reflexivity.
Defined.

(** A directory whose name merely contains an excluded word is skipped
    too. *)
Example rebuild_directory_is_skipped :
  find_python_files
    (fun _ => ["src/app.py"; "src/rebuild/tool.py"; ".venv/lib/x.py"])
    "src" None
  = ["src/app.py"].
Proof. vm_compute. reflexivity. Qed.

(** ** The hypertext report *)

Lemma html_report_spec (rt : Runtime) (cli : Cli)
    (results : list AnalysisResult) (ms out : string) :
  generate_html_report rt cli results ms out
  = if can_write cli out
    then inr {| html_tool := TOOL_NAME;
                html_generated_on := strftime_now cli;
                html_total_files := len results;
                html_min_severity := ms;
                html_files := map (html_file rt) results |}
    else inl (WriteFailed out).
Proof.
  unfold generate_html_report.
  assert (Hdivs : forall l acc,
             fold_left (fun divs i => divs ++ [html_issue i]) l acc
             = acc ++ map html_issue l).
  { induction l as [|i l IH]; intros acc; simpl;
      [now rewrite app_nil_r | now rewrite IH, <- app_assoc]. }
  assert (Hloop : forall l h,
    fold_left
      (fun html result =>
         {| html_tool := html_tool html;
            html_generated_on := html_generated_on html;
            html_total_files := html_total_files html;
            html_min_severity := html_min_severity html;
            html_files :=
              html_files html
              ++ [(path_name rt (file_path result),
                   fold_left (fun divs i => divs ++ [html_issue i])
                             (issues result) [])] |}) l h
    = {| html_tool := html_tool h;
         html_generated_on := html_generated_on h;
         html_total_files := html_total_files h;
         html_min_severity := html_min_severity h;
         html_files := html_files h ++ map (html_file rt) l |}).
  { induction l as [|r l IH]; intros h; simpl.
    - rewrite app_nil_r. now destruct h.
    - rewrite IH. simpl. rewrite Hdivs, <- app_assoc. reflexivity. }
  rewrite Hloop. reflexivity.
Qed.

(** X20. The hypertext report has no severity filter: when it can be
    written it has one section per result with one entry per issue of
    that result, for every threshold, so it shows as many issues as the
    structured report counts at [info]; the threshold only appears in its
    summary.  Its only failure is the write of the file. *)
Theorem html_report_lists_every_issue (rt : Runtime) (cli : Cli)
    (results : list AnalysisResult) (ms out : string) :
  (can_write cli out = false
   /\ generate_html_report rt cli results ms out = inl (WriteFailed out))
  \/ (can_write cli out = true
      /\ exists h ji,
           generate_html_report rt cli results ms out = inr h
           /\ generate_json_report rt results "info" = inr ji
           /\ map fst (html_files h) = map (path_name rt) (map file_path results)
           /\ map snd (html_files h)
              = map (fun r => map html_issue (issues r)) results
           /\ sum (map (fun f => len (snd f)) (html_files h))
              = total_issues (summary ji)
           /\ html_total_files h = total_files (summary ji)
           /\ html_min_severity h = ms).
Proof.
  rewrite html_report_spec.
  destruct (can_write cli out); [right | left; auto].
  split; [reflexivity|].
  rewrite (json_report_spec rt results "info" 1 min_level_of_info).
  do 2 eexists. do 2 (split; [reflexivity|]).
  cbn [html_files summary total_issues total_files html_total_files
         html_min_severity].
  rewrite !map_map.
  split; [reflexivity|]. split; [reflexivity|]. split; [|split; reflexivity].
  f_equal. apply map_ext. intros r. cbn [html_file snd].
  rewrite filter_issues_info. unfold len. now rewrite length_map.
Qed.

(** ** The [analyze] command *)

Lemma analyze_file_unstyled (rt : Runtime) (path : string) (i : Issue) :
  In i (issues (analyze_file rt path)) -> unstyled i = true ->
  severity i = Some "high".
Proof.
  intros Hin Hun. destruct (read_file rt path) as [e|content] eqn:Hread.
  - unfold analyze_file in Hin. rewrite Hread in Hin.
    destruct Hin as [<- | []]. discriminate Hun.
  - destruct (analyze_file_readable rt path content Hread) as (_ & Hi & _).
    rewrite Hi in Hin. rewrite !in_app_iff, !in_when in Hin.
    decompose [and or] Hin; clear Hin; subst;
      try discriminate Hun.
    match goal with H : In _ (SecurityAnalyzer.analyze_file _ _) |- _ =>
      apply security_issue_type in H; destruct H as [_ H]; exact H end.
Qed.

Lemma in_analyze_files (rt : Runtime) (files : list string)
    (r : AnalysisResult) :
  In r (analyze_files rt files)
  <-> exists p, In p files /\ r = analyze_file rt p.
Proof.
  rewrite analyze_files_map, in_map_iff. split; intros (p & H1 & H2); eauto.
Qed.

(** *** Exceptions out of the analysis *)

Lemma analyze_complexity_exn_inl (rt : Runtime) (ex : Raising)
    (path : string) (content : text) (e : string) :
  analyze_complexity_exn rt ex path content = inl e
  <-> parse_raises ex content = Some e
      \/ (parse_raises ex content = None
          /\ exists tree,
               ast_parse rt content = Some tree
               /\ visit_raises ex tree = Some e).
Proof.
  unfold analyze_complexity_exn.
  destruct (parse_raises ex content) as [e0|] eqn:Hp.
  - split.
    + intros H. inversion H. auto.
    + intros [H | [H _]]; [now inversion H | discriminate H].
  - destruct (ast_parse rt content) as [tree|] eqn:Ht.
    + destruct (visit_raises ex tree) as [e1|] eqn:Hv.
      * split.
        -- intros H. inversion H; subst. right. split; [reflexivity|].
           exists tree. auto.
        -- intros [H | [_ (t & Et & Hv')]]; [discriminate H|].
           inversion Et; subst t. congruence.
      * split; [discriminate|].
        intros [H | [_ (t & Et & Hv')]]; [discriminate H|].
        inversion Et; subst t. congruence.
    + split; [discriminate|].
      intros [H | [_ (t & Et & _)]]; discriminate.
Qed.

Lemma analyze_complexity_exn_inr (rt : Runtime) (ex : Raising)
    (path : string) (content : text) (m : ComplexityMetrics) :
  analyze_complexity_exn rt ex path content = inr m ->
  m = analyze_complexity rt path content.
Proof.
  unfold analyze_complexity_exn.
  destruct (parse_raises ex content); [discriminate|].
  destruct (ast_parse rt content) as [tree|];
    [destruct (visit_raises ex tree); [discriminate|]|];
    intros H; now inversion H.
Qed.

(** The analysis of a file raises exactly as its complexity analysis
    does; when it returns, it returns the result of [analyze_file]. *)
Lemma analyze_file_exn_inl (rt : Runtime) (ex : Raising) (p e : string) :
  analyze_file_exn rt ex p = inl e <-> raises rt ex p e.
Proof.
  unfold analyze_file_exn, raises.
  destruct (read_file rt p) as [msg|content] eqn:Hread.
  - split; [discriminate | intros (c & H & _); discriminate H].
  - destruct (analyze_complexity_exn rt ex p content) as [e0|m] eqn:Hc.
    + apply analyze_complexity_exn_inl in Hc. split.
      * intros H. inversion H; subst. exists content. auto.
      * intros (c & Ec & H). inversion Ec; subst c.
        apply (analyze_complexity_exn_inl rt ex p) in H.
        apply (analyze_complexity_exn_inl rt ex p) in Hc. congruence.
    + assert (Hnone : parse_raises ex content = None).
      { unfold analyze_complexity_exn in Hc.
        destruct (parse_raises ex content); [discriminate Hc | reflexivity]. }
      unfold analyze_documentation_exn, dependency_analyze_file_exn.
      rewrite Hnone. split; [discriminate|].
      intros (c & Ec & H). inversion Ec; subst c.
      apply (analyze_complexity_exn_inl rt ex p) in H. congruence.
Qed.

Lemma analyze_file_exn_inr (rt : Runtime) (ex : Raising) (p : string)
    (r : AnalysisResult) :
  analyze_file_exn rt ex p = inr r -> r = analyze_file rt p.
Proof.
  unfold analyze_file_exn.
  destruct (read_file rt p) as [msg|content];
    [intros H; now inversion H|].
  destruct (analyze_complexity_exn rt ex p content); [discriminate|].
  destruct (analyze_documentation_exn rt ex p content); [discriminate|].
  destruct (dependency_analyze_file_exn rt ex p content _); [discriminate|].
  intros H. now inversion H.
Qed.

Lemma analyze_file_exn_returns (rt : Runtime) (ex : Raising) (p : string) :
  (forall e, ~ raises rt ex p e) ->
  analyze_file_exn rt ex p = inr (analyze_file rt p).
Proof.
  intros Hno. destruct (analyze_file_exn rt ex p) as [e|r] eqn:E.
  - apply analyze_file_exn_inl in E. destruct (Hno e E).
  - now rewrite (analyze_file_exn_inr rt ex p r E).
Qed.

(** The loop over the files stops at the first file whose analysis
    raises; without one it gives the results of all the files. *)
Lemma analyze_files_exn_inl (rt : Runtime) (ex : Raising)
    (files : list string) (e : string) :
  analyze_files_exn rt ex files = inl e
  <-> exists pre q post,
        files = pre ++ q :: post
        /\ (forall p e', In p pre -> ~ raises rt ex p e')
        /\ raises rt ex q e.
Proof.
  induction files as [|f files IH]; cbn [analyze_files_exn].
  - split; [discriminate|].
    intros (pre & q & post & E & _). destruct pre; discriminate E.
  - destruct (analyze_file_exn rt ex f) as [e0|r] eqn:Ef.
    + apply analyze_file_exn_inl in Ef. split.
      * intros H. inversion H; subst. exists [], f, files.
        split; [reflexivity|]. split; [intros p e' []|exact Ef].
      * intros (pre & q & post & E & Hpre & Hq).
        destruct pre as [|p pre]; simpl in E; inversion E; subst.
        -- apply (analyze_file_exn_inl rt ex) in Ef, Hq. congruence.
        -- destruct (Hpre p e0 (or_introl eq_refl) Ef).
    + assert (Hf : forall e', ~ raises rt ex f e').
      { intros e' H. apply analyze_file_exn_inl in H. congruence. }
      destruct (analyze_files_exn rt ex files) as [e1|rs] eqn:Er.
      * split.
        -- intros H. inversion H; subst.
           destruct (proj1 IH eq_refl) as (pre & q & post & -> & Hpre & Hq).
           exists (f :: pre), q, post. split; [reflexivity|].
           split; [|exact Hq].
           intros p e' [<- | Hin]; [apply Hf | now apply Hpre].
        -- intros (pre & q & post & E & Hpre & Hq).
           destruct pre as [|p pre]; simpl in E; inversion E; subst.
           ++ destruct (Hf e Hq).
           ++ f_equal. assert (Hi : inl e1 = inl e :> string + list AnalysisResult).
              { apply IH. exists pre, q, post. split; [reflexivity|].
                split; [|exact Hq]. intros p0 e' Hin. apply Hpre. now right. }
              now inversion Hi.
      * split; [discriminate|].
        intros (pre & q & post & E & Hpre & Hq).
        destruct pre as [|p pre]; simpl in E; inversion E; subst.
        -- destruct (Hf e Hq).
        -- assert (Hi : inr rs = inl e :> string + list AnalysisResult).
           { apply IH. exists pre, q, post. split; [reflexivity|].
             split; [|exact Hq]. intros p0 e' Hin. apply Hpre. now right. }
           discriminate Hi.
Qed.

Lemma analyze_files_exn_inr (rt : Runtime) (ex : Raising)
    (files : list string) (rs : list AnalysisResult) :
  analyze_files_exn rt ex files = inr rs -> rs = analyze_files rt files.
Proof.
  rewrite analyze_files_map. revert rs.
  induction files as [|f files IH]; cbn [analyze_files_exn map]; intros rs.
  - intros H. now inversion H.
  - destruct (analyze_file_exn rt ex f) as [e|r] eqn:Ef; [discriminate|].
    destruct (analyze_files_exn rt ex files) as [e|rs'] eqn:Er;
      [discriminate|].
    intros H. inversion H; subst.
    now rewrite (analyze_file_exn_inr rt ex f r Ef), (IH rs' eq_refl).
Qed.

Lemma analyze_files_exn_returns (rt : Runtime) (ex : Raising)
    (files : list string) :
  (forall q e, In q files -> ~ raises rt ex q e) ->
  analyze_files_exn rt ex files = inr (analyze_files rt files).
Proof.
  intros Hno. destruct (analyze_files_exn rt ex files) as [e|rs] eqn:E.
  - apply analyze_files_exn_inl in E as (pre & q & post & -> & _ & Hq).
    destruct (Hno q e); [|exact Hq]. apply in_app_iff. right. now left.
  - now rewrite (analyze_files_exn_inr rt ex files rs E).
Qed.

(** X21. With text output at the [info] threshold, the [analyze] command
    ends with exit status 1 as soon as one of the files it analyzes is
    readable and has a line matched by a security rule: on the exception
    of the analysis when the analysis of one of the files raises, and on
    [KeyError('high')] otherwise. *)
Theorem analyze_text_exits_on_security_issue (rt : Runtime) (ex : Raising)
    (cli : Cli) (path p : string) (content : text)
    (report_file : option string) :
  In p (files_of cli path) ->
  read_file rt p = ReadOk content ->
  SecurityAnalyzer.analyze_file p content <> [] ->
  (exists q e,
      In q (files_of cli path) /\ raises rt ex q e
      /\ analyze rt ex cli path "text" "info" report_file
         = Exit1 (Escaped e))
  \/ ((forall q e, In q (files_of cli path) -> ~ raises rt ex q e)
      /\ analyze rt ex cli path "text" "info" report_file
         = Exit1 (Raised (KeyError "high"))).
Proof.
  intros Hp Hread Hsec. unfold analyze. fold (files_of cli path).
  destruct (files_of cli path) as [|f files] eqn:Hfiles; [destruct Hp|].
  rewrite <- Hfiles in *. clear Hfiles f files.
  destruct (analyze_files_exn rt ex (files_of cli path)) as [e|rs] eqn:Hrun.
  { left. apply analyze_files_exn_inl in Hrun
      as (pre & q & post & E & _ & Hq).
    exists q, e. split; [|split; [exact Hq | reflexivity]].
    rewrite E. apply in_app_iff. right. now left. }
  right.
  assert (Hno : forall q e, In q (files_of cli path) -> ~ raises rt ex q e).
  { intros q e Hq Hr.
    pose proof (analyze_files_exn_inl rt ex (files_of cli path) e) as H.
    apply in_split in Hq as (l1 & l2 & E).
    assert (Hfirst : exists pre q' post e',
               files_of cli path = pre ++ q' :: post
               /\ (forall p0 e0, In p0 pre -> ~ raises rt ex p0 e0)
               /\ raises rt ex q' e').
    { clear H Hrun. revert E Hr. generalize (files_of cli path).
      induction l1 as [|x l1 IH]; intros l E Hr.
      - exists [], q, l2, e. split; [exact E|]. split; [intros ? ? []|exact Hr].
      - simpl in E. subst l.
        destruct (analyze_file_exn rt ex x) as [e0|r] eqn:Ex.
        + apply analyze_file_exn_inl in Ex.
          exists [], x, (l1 ++ q :: l2), e0.
          split; [reflexivity|]. split; [intros ? ? []|exact Ex].
        + destruct (IH _ eq_refl Hr) as (pre & q' & post & e' & E' & Hpre & Hq').
          exists (x :: pre), q', post, e'. split; [simpl; now rewrite E'|].
          split; [|exact Hq'].
          intros p0 e0 [<- | Hin]; [|now apply Hpre].
          intros Hx. apply analyze_file_exn_inl in Hx. congruence. }
    destruct Hfirst as (pre & q' & post & e' & E' & Hpre & Hq').
    assert (Hinl : analyze_files_exn rt ex (files_of cli path) = inl e').
    { apply analyze_files_exn_inl. exists pre, q', post. auto. }
    congruence. }
  split; [exact Hno|].
  rewrite (analyze_files_exn_inr rt ex _ rs Hrun).
  cbn [String.eqb Ascii.eqb Bool.eqb andb].
  destruct (text_report_cases rt (analyze_files rt (files_of cli path))
              "info" 1 min_level_of_info)
    as [[Hall _] | (r & i & s & Hr & Hi & Ui & Hs & Hfail)].
  - exfalso.
    destruct (SecurityAnalyzer.analyze_file p content) as [|x xs] eqn:E;
      [congruence|].
    assert (Hx : In x (issues (analyze_file rt p))).
    { destruct (analyze_file_readable rt p content Hread) as (_ & Hi & _).
      rewrite Hi, E, !in_app_iff. do 3 right. left. left. reflexivity. }
    assert (Ux : unstyled x = true).
    { assert (Hin : In x (SecurityAnalyzer.analyze_file p content))
        by (rewrite E; left; reflexivity).
      apply in_security_issues in Hin as (n & l & rule & _ & _ & _ & _ & ->).
      reflexivity. }
    rewrite List.Forall_forall in Hall.
    specialize (Hall (analyze_file rt p)).
    rewrite in_analyze_files in Hall.
    specialize (Hall (ex_intro _ p (conj Hp eq_refl))).
    rewrite filter_issues_info, List.Forall_forall in Hall.
    specialize (Hall x Hx). congruence.
  - rewrite Hfail.
    apply in_analyze_files in Hr as (q & _ & ->).
    rewrite filter_issues_info in Hi.
    pose proof (analyze_file_unstyled rt q i Hi Ui) as Hhigh.
    rewrite Hs in Hhigh. inversion Hhigh. reflexivity.
Qed.

Lemma analyze_text_exits_on_security_issue_witness :
  analyze sample_runtime null_byte_raising (listing_cli ["app.py"] [])
          "app.py" "text" "info" None
  = Exit1 (Raised (KeyError "high")).
Proof.
  destruct (analyze_text_exits_on_security_issue sample_runtime
              null_byte_raising (listing_cli ["app.py"] []) "app.py" "app.py"
              eval_source None) as [(q & e & _ & _ & H) | [_ H]].
  - left. reflexivity.
  - reflexivity.
  - vm_compute. discriminate.
  - vm_compute in H. discriminate H.
  - exact H.
Defined.

(** X22. The [analyze] command ends without a report when no file is
    found, whatever the output format.  When the analysis of one of the
    files found raises, the command exits with status 1 on the exception
    of the first such file, whatever the output format and the threshold.
    Otherwise, with structured output and one of the three thresholds, it
    prints the report of all the files found, or saves it when a report
    file is given, and fails only when that file cannot be written.  With
    hypertext output a missing or empty report file stands for
    [analysis_report.html]. *)
Theorem analyze_outcomes (rt : Runtime) (ex : Raising) (cli : Cli)
    (path ms : string) :
  (files_of cli path = [] ->
   forall output report_file,
     analyze rt ex cli path output ms report_file = NoPythonFiles)
  /\ (forall pre q post e,
         files_of cli path = pre ++ q :: post ->
         (forall p e', In p pre -> ~ raises rt ex p e') ->
         raises rt ex q e ->
         forall output report_file,
           analyze rt ex cli path output ms report_file = Exit1 (Escaped e))
  /\ (files_of cli path <> [] ->
      (forall q e, In q (files_of cli path) -> ~ raises rt ex q e) ->
      ms = "info" \/ ms = "warning" \/ ms = "error" ->
      exists rep,
        generate_json_report rt (analyze_files rt (files_of cli path)) ms
        = inr rep
        /\ map fd_path (files rep) = files_of cli path
        /\ analyze rt ex cli path "json" ms None = JsonPrinted rep
        /\ analyze rt ex cli path "json" ms (Some EmptyString)
           = JsonPrinted rep
        /\ forall c f,
             analyze rt ex cli path "json" ms (Some (String c f))
             = if can_write cli (String c f) then JsonSaved (String c f) rep
               else Exit1 (WriteFailed (String c f)))
  /\ analyze rt ex cli path "html" ms None
     = analyze rt ex cli path "html" ms (Some "analysis_report.html")
  /\ analyze rt ex cli path "html" ms (Some EmptyString)
     = analyze rt ex cli path "html" ms (Some "analysis_report.html").
Proof.
  split; [|split; [|split; [|split]]].
  - intros Hnone output rf. unfold analyze. fold (files_of cli path).
    now rewrite Hnone.
  - intros pre q post e E Hpre Hq output rf.
    assert (Hrun : analyze_files_exn rt ex (files_of cli path) = inl e).
    { apply analyze_files_exn_inl. exists pre, q, post. auto. }
    unfold analyze. fold (files_of cli path). rewrite Hrun.
    destruct (files_of cli path); [destruct pre; discriminate E|].
    reflexivity.
  - intros Hsome Hno Hms.
    destruct (json_report_known_threshold rt
                (analyze_files rt (files_of cli path)) ms Hms) as [rep Hrep].
    exists rep. split; [exact Hrep|]. split.
    { destruct (min_level_of ms) as [e|lvl] eqn:Hl.
      - unfold generate_json_report in Hrep. rewrite Hl in Hrep.
        discriminate Hrep.
      - rewrite (json_report_spec _ _ _ _ Hl) in Hrep.
        inversion Hrep; subst rep. cbn [files].
        rewrite map_map, analyze_files_map, map_map.
        cbn [file_data fd_path]. rewrite <- (map_id (files_of cli path)) at 2.
        apply map_ext. intros p.
        destruct (read_file rt p) as [e|c] eqn:Hread.
        + unfold analyze_file. now rewrite Hread.
        + now destruct (analyze_file_readable rt p c Hread) as (Hp & _). }
    unfold analyze. fold (files_of cli path).
    rewrite (analyze_files_exn_returns rt ex _ Hno).
    destruct (files_of cli path) as [|f0 files0] eqn:Hfiles; [congruence|].
    cbn [String.eqb Ascii.eqb Bool.eqb andb given PyStr.truthy].
    rewrite Hrep. repeat split.
  - unfold analyze. reflexivity.
  - unfold analyze. reflexivity.
Qed.

Lemma analyze_outcomes_witness :
  analyze scan_runtime null_byte_raising
          (listing_cli [] ["a.py"; "nul.py"; "broken.py"]) "." "json" "info"
          None
  = Exit1 (Escaped "ValueError")
  /\ exists rep,
       analyze scan_runtime null_byte_raising
               (listing_cli [] ["a.py"; "broken.py"]) "." "json" "info" None
       = JsonPrinted rep
       /\ map fd_path (files rep) = ["a.py"; "broken.py"].
Proof.
  split.
  - apply (proj1 (proj2 (analyze_outcomes scan_runtime null_byte_raising
                           (listing_cli [] ["a.py"; "nul.py"; "broken.py"])
                           "." "info"))
             ["a.py"] "nul.py" ["broken.py"] "ValueError").
    + reflexivity.
    + intros p e' [<- | []] (c & Hc & H). vm_compute in Hc.
      inversion Hc; subst c. vm_compute in H.
      destruct H as [H | [_ (t & _ & H)]]; discriminate H.
    + exists nul_source. split; [reflexivity | left; reflexivity].
  - destruct (proj1 (proj2 (proj2
                (analyze_outcomes scan_runtime null_byte_raising
                   (listing_cli [] ["a.py"; "broken.py"]) "." "info"))))
      as (rep & _ & Hfiles & Hprint & _).
    + vm_compute. discriminate.
    + intros q e Hq (c & Hc & H). vm_compute in Hq.
      destruct Hq as [<- | [<- | []]]; vm_compute in Hc;
        inversion Hc; subst c; vm_compute in H;
        destruct H as [H | [_ (t & _ & H)]]; discriminate H.
    + left. reflexivity.
    + exists rep. split; [exact Hprint | exact Hfiles].
Defined.

(** ** The [complexity] command *)

Lemma measure_spec (rt : Runtime) (ex : Raising) (f : string) :
  (measure rt ex f = None
   <-> (exists msg, read_file rt f = ReadError msg)
       \/ exists e, raises rt ex f e)
  /\ (forall m, measure rt ex f = Some m ->
        exists content,
          read_file rt f = ReadOk content
          /\ m = analyze_complexity rt f content).
Proof.
  unfold measure, raises.
  destruct (read_file rt f) as [msg|content] eqn:Hread.
  - split; [|discriminate]. split; [eauto | reflexivity].
  - destruct (analyze_complexity_exn rt ex f content) as [e|m] eqn:Hc.
    + split; [|discriminate]. split; [|reflexivity].
      intros _. right. exists e, content. split; [reflexivity|].
      now apply (analyze_complexity_exn_inl rt ex f).
    + split.
      * split; [discriminate|].
        intros [(msg & H) | (e & c & Ec & H)]; [discriminate H|].
        inversion Ec; subst c.
        apply (analyze_complexity_exn_inl rt ex f) in H. congruence.
      * intros m' H. inversion H; subst m'. exists content.
        split; [reflexivity|].
        now apply (analyze_complexity_exn_inr rt ex f).
Qed.

Lemma complexity_loop (rt : Runtime) (ex : Raising) (files : list string)
    (table : list ComplexityRow) (t : Totals) :
  fold_left (complexity_step rt ex) files (table, t)
  = (table ++ map (complexity_row rt ex) files,
     {| total_complexity :=
          total_complexity t
          + sum (map cyclomatic_complexity (measured rt ex files));
        total_loc :=
          total_loc t + sum (map lines_of_code (measured rt ex files));
        total_function_count :=
          total_function_count t
          + sum (map function_count (measured rt ex files));
        total_class_count :=
          total_class_count t
          + sum (map class_count (measured rt ex files)) |}).
Proof.
  revert table t. induction files as [|f files IH]; intros table t.
  - simpl. rewrite app_nil_r. destruct t. unfold sum. simpl.
    do 2 f_equal; lia.
  - cbn [fold_left].
    assert (Hstep :
      complexity_step rt ex (table, t) f
      = (table ++ [complexity_row rt ex f],
         match measure rt ex f with
         | Some m =>
             {| total_complexity := total_complexity t + cyclomatic_complexity m;
                total_loc := total_loc t + lines_of_code m;
                total_function_count :=
                  total_function_count t + function_count m;
                total_class_count := total_class_count t + class_count m |}
         | None => t
         end)).
    { unfold complexity_step, complexity_row, measure.
      destruct (read_file rt f) as [msg|content]; [reflexivity|].
      destruct (analyze_complexity_exn rt ex f content); reflexivity. }
    rewrite Hstep, IH. clear Hstep IH.
    change (measured rt ex (f :: files))
      with (match measure rt ex f with Some m => [m] | None => [] end
            ++ measured rt ex files).
    cbn [map]. rewrite <- app_assoc. cbn [app]. f_equal.
    destruct (measure rt ex f) as [m|]; [|reflexivity].
    cbn [app map total_complexity total_loc total_function_count
           total_class_count].
    rewrite !sum_cons. f_equal; lia.
Qed.

Lemma recommend_cases (total n : Z) :
  0 < n ->
  (recommend (inject_Z total / inject_Z n) = HighComplexity
   <-> 15 * n < total)
  /\ (recommend (inject_Z total / inject_Z n) = ModerateComplexity
      <-> 8 * n < total <= 15 * n)
  /\ (recommend (inject_Z total / inject_Z n) = GoodComplexity
      <-> total <= 8 * n).
Proof.
  intros Hn.
  assert (Hq : forall k : Z,
             Qgtb (inject_Z total / inject_Z n) (inject_Z k) = true
             <-> k * n < total).
  { intros k. rewrite Qgtb_lt.
    assert (Hpos : (0 < inject_Z n)%Q)
      by (change 0%Q with (inject_Z 0); now rewrite <- Zlt_Qlt).
    split.
    - intros H. apply (Qmult_lt_r _ _ _ Hpos) in H.
      rewrite Qmult_comm, (Qmult_comm (_ / _)), Qmult_div_r in H
        by (intros E; rewrite E in Hpos; discriminate Hpos).
      rewrite <- inject_Z_mult, <- Zlt_Qlt in H. lia.
    - intros H. apply Qlt_shift_div_l; [exact Hpos|].
      rewrite <- inject_Z_mult, <- Zlt_Qlt. exact H. }
  unfold recommend.
  change 15%Q with (inject_Z 15). change 8%Q with (inject_Z 8).
  pose proof (Hq 15) as H15. pose proof (Hq 8) as H8.
  destruct (Qgtb (inject_Z total / inject_Z n) (inject_Z 15)) eqn:E15;
    destruct (Qgtb (inject_Z total / inject_Z n) (inject_Z 8)) eqn:E8.
  - destruct H15 as [H15 _]. specialize (H15 eq_refl).
    repeat split; try discriminate; try lia; auto.
  - destruct H15 as [H15 _]. specialize (H15 eq_refl).
    repeat split; try discriminate; try lia; auto.
  - destruct H8 as [H8 _]. specialize (H8 eq_refl).
    assert (~ 15 * n < total) by (intros Hc; apply H15 in Hc; discriminate Hc).
    repeat split; try discriminate; try lia; auto.
  - assert (~ 15 * n < total) by (intros Hc; apply H15 in Hc; discriminate Hc).
    assert (~ 8 * n < total) by (intros Hc; apply H8 in Hc; discriminate Hc).
    repeat split; try discriminate; try lia; auto.
Qed.

(** X23. The [complexity] command reports no files when none is found.
    Otherwise its table has one row per file, an [Error] row for each
    file whose read fails or whose analysis raises; the totals are the
    sums over the other files, each measured by [analyze_complexity]; and
    the advice goes by the total complexity divided by the number of all
    files found: high above 15, moderate above 8, good otherwise. *)
Theorem complexity_command_totals (rt : Runtime) (ex : Raising) (cli : Cli)
    (path : string) :
  (forall f,
      (complexity_row rt ex f = error_row rt f /\ measured rt ex [f] = []
       /\ ((exists msg, read_file rt f = ReadError msg)
           \/ exists e, raises rt ex f e))
      \/ (exists content,
            read_file rt f = ReadOk content
            /\ (forall e, ~ raises rt ex f e)
            /\ measured rt ex [f] = [analyze_complexity rt f content]
            /\ cr_complexity (complexity_row rt ex f)
               = PyStr.of_int
                   (cyclomatic_complexity (analyze_complexity rt f content))))
  /\ ((files_of cli path = []
       /\ complexity rt ex cli path = ComplexityNoFiles)
      \/ (files_of cli path <> []
          /\ exists advice,
               complexity rt ex cli path
               = ComplexityTable
                   (map (complexity_row rt ex) (files_of cli path))
                   {| total_complexity :=
                        sum (map cyclomatic_complexity
                                 (measured rt ex (files_of cli path)));
                      total_loc :=
                        sum (map lines_of_code
                                 (measured rt ex (files_of cli path)));
                      total_function_count :=
                        sum (map function_count
                                 (measured rt ex (files_of cli path)));
                      total_class_count :=
                        sum (map class_count
                                 (measured rt ex (files_of cli path))) |}
                   advice
               /\ (advice = HighComplexity
                   <-> 15 * len (files_of cli path)
                       < sum (map cyclomatic_complexity
                                  (measured rt ex (files_of cli path))))
               /\ (advice = ModerateComplexity
                   <-> 8 * len (files_of cli path)
                       < sum (map cyclomatic_complexity
                                  (measured rt ex (files_of cli path)))
                       <= 15 * len (files_of cli path))
               /\ (advice = GoodComplexity
                   <-> sum (map cyclomatic_complexity
                                (measured rt ex (files_of cli path)))
                       <= 8 * len (files_of cli path)))).
Proof.
  split.
  { intros f. destruct (measure_spec rt ex f) as [Hnone Hsome].
    unfold complexity_row, measured. cbn [flat_map]. rewrite app_nil_r.
    destruct (measure rt ex f) as [m|] eqn:Hm.
    - right. destruct (Hsome m eq_refl) as (content & Hread & ->).
      exists content. split; [exact Hread|]. split; [|split; reflexivity].
      intros e Hr.
      assert (H : Some (analyze_complexity rt f content) = None);
        [|discriminate H].
      apply Hnone. right. eauto.
    - left. split; [reflexivity|]. split; [reflexivity|]. now apply Hnone. }
  unfold complexity. fold (files_of cli path).
  destruct (files_of cli path) as [|f files] eqn:Hfiles; [left; auto|].
  right. split; [discriminate|].
  rewrite complexity_loop. cbn [app]. rewrite !Z.add_0_l.
  eexists. split; [reflexivity|].
  cbn [total_complexity].
  apply recommend_cases. unfold len. simpl length. lia.
Qed.

(** On the three files [a.py], [nul.py] and [broken.py]: the file with
    the null character gets the [Error] row, the file with the syntax
    error a row of zeros, and the command goes on. *)
Example complexity_command_rows :
  exists advice totals,
    complexity scan_runtime null_byte_raising
               (listing_cli [] ["a.py"; "nul.py"; "broken.py"]) "."
    = ComplexityTable
        [ {| cr_file := "a.py"; cr_complexity := "0"; cr_loc := "1";
             cr_functions := "0"; cr_classes := "0"; cr_max_depth := "0";
             cr_style := "green" |};
          {| cr_file := "nul.py"; cr_complexity := "Error"; cr_loc := "-";
             cr_functions := "-"; cr_classes := "-"; cr_max_depth := "-";
             cr_style := "red" |};
          {| cr_file := "broken.py"; cr_complexity := "0"; cr_loc := "0";
             cr_functions := "0"; cr_classes := "0"; cr_max_depth := "0";
             cr_style := "green" |} ]
        totals advice.
Proof. do 2 eexists. vm_compute. reflexivity. Qed.

(** * Files that fail to read or to parse *)

(** What holds of an unreadable file: [analyze_file] returns a result for
    that path with one issue of type [error], whose message reports the
    failure, with empty metrics and no suggestion. *)
Lemma unreadable_file_result (rt : Runtime) (path e : string) :
  read_file rt path = ReadError e ->
  analyze_file rt path
  = {| file_path := path;
       issues := [read_error_issue e];
       metrics := None;
       suggestions := [] |}.
Proof. intros Hread. unfold analyze_file. now rewrite Hread. Qed.

(** Every issue of a readable file carries a severity. *)
Lemma readable_issues_have_severity (rt : Runtime) (path : string)
    (content : text) :
  read_file rt path = ReadOk content ->
  Forall (fun i => exists s, severity i = Some s)
         (issues (analyze_file rt path)).
Proof.
  intros Hread.
  destruct (analyze_file_readable rt path content Hread) as (_ & Hi & _).
  rewrite Hi. apply List.Forall_forall. intros i Hin.
  rewrite !in_app_iff, !in_when in Hin.
  decompose [and or] Hin; clear Hin; subst; try (eexists; reflexivity).
  match goal with H : In _ (SecurityAnalyzer.analyze_file _ _) |- _ =>
    apply security_issue_type in H; destruct H as [_ H]; eauto end.
Qed.

(** C3, the code at a missing file.  [analyze_file] returns one issue of
    type [error] with empty metrics and no suggestion, but the issue has
    no severity, while every issue of the readable scenario file has one:
    the filters rank it at level 1, the reports at the thresholds
    [warning] and [error] leave it out, and the text report at [info]
    hands it to the console under the label and the style of [info]. *)
Theorem unreadable_issue_lacks_severity :
  read_file sample_runtime "nope.py"
  = ReadError "[Errno 2] No such file or directory: 'nope.py'"
  /\ analyze_file sample_runtime "nope.py"
     = {| file_path := "nope.py";
          issues :=
            [{| type_ := "error";
                severity := None;
                message :=
                  "Cannot read file: [Errno 2] No such file or directory: 'nope.py'";
                line := None; threshold_ := None; code := None |}];
          metrics := None;
          suggestions := [] |}
  /\ map issue_level (issues (analyze_file sample_runtime "nope.py")) = [1]
  /\ filter_issues 2 (issues (analyze_file sample_runtime "nope.py")) = []
  /\ filter_issues 3 (issues (analyze_file sample_runtime "nope.py")) = []
  /\ (exists rep,
         generate_json_report sample_runtime
           [analyze_file sample_runtime "nope.py"] "error" = inr rep
         /\ map fd_issues (files rep) = [[]]
         /\ total_issues (summary rep) = 0)
  /\ (exists rep,
         generate_text_report sample_runtime
           [analyze_file sample_runtime "nope.py"] "error" = inr rep
         /\ printed_total_issues rep = 0
         /\ detailed_issues rep = [])
  /\ (exists rep,
         generate_text_report sample_runtime
           [analyze_file sample_runtime "nope.py"] "info" = inr rep
         /\ detailed_issues rep
            = [("nope.py",
                [("  [INFO] error: Cannot read file: [Errno 2] No such file or directory: 'nope.py'",
                  "cyan")])])
  /\ map severity (issues (analyze_file scenario_runtime "process.py"))
     = [Some "high"; Some "info"; Some "info"].
Proof.
  split; [reflexivity|]. split; [reflexivity|].
  split; [reflexivity|]. split; [reflexivity|]. split; [reflexivity|].
  repeat (split;
          [eexists; split; [vm_compute; reflexivity | repeat split]|]).
  vm_compute. reflexivity.
Qed.

(** When [ast.parse] raises [SyntaxError] and nothing else is raised, the
    two analyses return their all-zero metrics and [analyze_file] returns
    a result carrying them. *)
Lemma syntax_error_zero_metrics (rt : Runtime) (ex : Raising)
    (path : string) (content : text) :
  parse_raises ex content = None ->
  ast_parse rt content = None ->
  analyze_complexity_exn rt ex path content
  = inr (mkComplexityMetrics 0 0 0 0 0 0%Q)
  /\ analyze_documentation_exn rt ex path content
     = inr (mkDocumentationMetrics 0%Q 0%Q 0 0 0 0)
  /\ (read_file rt path = ReadOk content ->
      analyze_file_exn rt ex path = inr (analyze_file rt path)
      /\ metrics (analyze_file rt path)
         = Some {| m_complexity := mkComplexityMetrics 0 0 0 0 0 0%Q;
                   m_documentation :=
                     mkDocumentationMetrics 0%Q 0%Q 0 0 0 0;
                   m_dependencies :=
                     {| imports := []; total_modules := 0 |} |}).
Proof.
  intros Hraise Hparse.
  assert (Hc : analyze_complexity rt path content
               = mkComplexityMetrics 0 0 0 0 0 0%Q).
  { unfold analyze_complexity. now rewrite Hparse. }
  assert (Hd : analyze_documentation rt path content
               = mkDocumentationMetrics 0%Q 0%Q 0 0 0 0).
  { unfold analyze_documentation. now rewrite Hparse. }
  split; [|split].
  - unfold analyze_complexity_exn. now rewrite Hraise, Hparse, Hc.
  - unfold analyze_documentation_exn. now rewrite Hraise, Hd.
  - intros Hread. split.
    + unfold analyze_file_exn, analyze_complexity_exn,
        analyze_documentation_exn, dependency_analyze_file_exn.
      now rewrite Hread, Hraise, Hparse.
    + destruct (analyze_file_readable rt path content Hread)
        as (_ & _ & _ & Hm).
      rewrite Hm, Hc, Hd. do 2 f_equal.
      unfold DependencyAnalyzer.analyze_file. rewrite Hparse.
      unfold DependencyAnalyzer.touch, DependencyAnalyzer.get,
        DependencyAnalyzer.init.
      cbn [DependencyAnalyzer.imports_of DependencyAnalyzer.modules snd].
      rewrite lookup_empty.
      cbn [DependencyAnalyzer.imports_of DependencyAnalyzer.modules snd].
      rewrite lookup_insert_eq. unfold default, from_option.
      rewrite elements_empty, size_empty. reflexivity.
Qed.

(** C5, the code at a file with a null character.  On [broken.py], whose
    text raises [SyntaxError], the two analyses return all-zero metrics.
    On [nul.py], whose text makes [ast.parse] raise [ValueError], both
    analyses raise, [analyze_file] raises, and the scan of [a.py],
    [nul.py] and [broken.py] by the [analyze] command ends with exit
    status 1 whatever the output format, while the scan of the two other
    files gives two results and the [complexity] command, whose loop
    catches every exception per file, goes on after [nul.py]. *)
Theorem null_byte_aborts_scan :
  analyze_complexity_exn scan_runtime null_byte_raising "broken.py"
    broken_source
  = inr (mkComplexityMetrics 0 0 0 0 0 0%Q)
  /\ analyze_documentation_exn scan_runtime null_byte_raising "broken.py"
       broken_source
     = inr (mkDocumentationMetrics 0%Q 0%Q 0 0 0 0)
  /\ read_file scan_runtime "nul.py" = ReadOk nul_source
  /\ analyze_complexity_exn scan_runtime null_byte_raising "nul.py"
       nul_source
     = inl "ValueError"
  /\ analyze_documentation_exn scan_runtime null_byte_raising "nul.py"
       nul_source
     = inl "ValueError"
  /\ analyze_file_exn scan_runtime null_byte_raising "nul.py"
     = inl "ValueError"
  /\ analyze_files_exn scan_runtime null_byte_raising
       ["a.py"; "nul.py"; "broken.py"]
     = inl "ValueError"
  /\ (forall output min_severity report_file,
         analyze scan_runtime null_byte_raising
                 (listing_cli [] ["a.py"; "nul.py"; "broken.py"]) "."
                 output min_severity report_file
         = Exit1 (Escaped "ValueError"))
  /\ analyze_files_exn scan_runtime null_byte_raising ["a.py"; "broken.py"]
     = inr [analyze_file scan_runtime "a.py";
            analyze_file scan_runtime "broken.py"]
  /\ (exists rows totals advice,
         complexity scan_runtime null_byte_raising
                    (listing_cli [] ["a.py"; "nul.py"; "broken.py"]) "."
         = ComplexityTable rows totals advice
         /\ map cr_complexity rows = ["0"; "Error"; "0"]).
Proof.
  do 7 (split; [vm_compute; reflexivity|]).
  split; [intros output ms rf; reflexivity|].
  split; [vm_compute; reflexivity|].
  do 3 eexists. split; vm_compute; reflexivity.
Qed.

(** * The scenario of one undocumented function *)

Lemma count_control (p : node -> bool) (pk : kind -> bool) (l : list node) :
  (forall n, p n = pk (node_kind n)) ->
  (forall n, p n = true -> control_node n = true) ->
  count p l
  = len (List.filter pk (map node_kind (List.filter control_node l))).
Proof.
  intros Hk Hc. unfold count, len. f_equal.
  induction l as [|n l IH]; [reflexivity|].
  cbn [List.filter]. specialize (Hc n). rewrite Hk in Hc.
  destruct (control_node n) eqn:E; cbn [map List.filter]; rewrite Hk.
  - destruct (pk (node_kind n)); simpl; now rewrite IH.
  - destruct (pk (node_kind n)); [now specialize (Hc eq_refl)|]. exact IH.
Qed.

Lemma lengths_control (l : list node) :
  flat_map node_length l
  = flat_map kind_length (map node_kind (List.filter control_node l)).
Proof.
  induction l as [|n l IH]; [reflexivity|].
  cbn [flat_map List.filter]. rewrite IH.
  destruct n as [k pre body post].
  unfold control_node, block_node, is_branch, node_length. cbn [node_kind].
  destruct k as [| ln [e|] | ln [e|] | | | | | | | | | | |]; reflexivity.
Qed.

Lemma security_issues_of_matches (file_path : string) (content : text) :
  SecurityAnalyzer.analyze_file file_path content
  = map (fun h => SecurityAnalyzer.issue (fst (fst h)) (snd (fst h))
                    (snd (snd h)))
        (rule_matches content).
Proof.
  rewrite security_analyze_file_spec. unfold rule_matches.
  induction (PyStr.enumerate 1 (PyStr.split_lines content)) as [|il l IH];
    [reflexivity|].
  cbn [flat_map]. rewrite map_app, IH. f_equal.
  unfold line_issues. rewrite map_map. reflexivity.
Qed.

Lemma in_rule_matches (content : text) (i : Z) (l : text)
    (rule : Re.regex * string) :
  In (i, l, rule) (rule_matches content)
  <-> 1 <= i /\ PyStr.split_lines content !! Z.to_nat (i - 1) = Some l
      /\ In rule SECURITY_PATTERNS
      /\ Re.search (fst rule) l Re.IGNORECASE = true.
Proof.
  unfold rule_matches. rewrite in_flat_map. split.
  - intros ([i' l'] & Hin & Hm). cbn [fst snd] in Hm.
    apply in_map_iff in Hm as (r & E & Hr). inversion E; subst.
    apply in_enumerate in Hin as [Hi Hl].
    apply filter_In in Hr as [Hr Hs]. auto.
  - intros (Hi & Hl & Hr & Hs). exists (i, l).
    split; [apply in_enumerate; auto|]. cbn [fst snd].
    apply in_map_iff. exists rule. split; [reflexivity|].
    apply filter_In. auto.
Qed.

(** C2, as amended.  A readable file whose control skeleton is one
    function, one [for] loop and two [if] statements, the function
    without documentation string and not longer than 50 lines, and whose
    only match of a security rule is the [os.system] rule on one line:
    the cyclomatic complexity is 3, the function coverage is 0 of one
    function, there is no class, and the issues are the security issue of
    the [os.system] line, the function coverage issue and the class
    coverage issue, three in all, each kept at the [info] threshold. *)
Theorem undocumented_function_scenario (rt : Runtime) (path : string)
    (content : text) (tree : node) (lineno : Z) (end_lineno : option Z)
    (i : Z) (call_line : text) :
  read_file rt path = ReadOk content ->
  ast_parse rt content = Some tree ->
  skeleton tree = [KFunctionDef lineno end_lineno; KFor; KIf; KIf] ->
  count (documented_function rt) (nodes tree) = 0 ->
  (forall e, end_lineno = Some e -> e - lineno + 1 <= 50) ->
  rule_matches content = [(i, call_line, os_system_rule)] ->
  cyclomatic_complexity (analyze_complexity rt path content) = 3
  /\ analyze_documentation rt path content
     = mkDocumentationMetrics 0%Q 0%Q 1 0 0 0
  /\ (1 <= i
      /\ PyStr.split_lines content !! Z.to_nat (i - 1) = Some call_line
      /\ SECURITY_PATTERNS !! 7%nat = Some os_system_rule
      /\ Re.search (fst os_system_rule) call_line Re.IGNORECASE = true)
  /\ issues (analyze_file rt path)
     = [SecurityAnalyzer.issue i call_line
          "Use of os.system() can be dangerous";
        function_doc_issue rt (mkDocumentationMetrics 0%Q 0%Q 1 0 0 0);
        class_doc_issue rt (mkDocumentationMetrics 0%Q 0%Q 1 0 0 0)]
  /\ len (issues (analyze_file rt path)) = 3
  /\ min_level_of "info" = inr 1
  /\ filter_issues 1 (issues (analyze_file rt path))
     = issues (analyze_file rt path).
Proof.
  intros Hread Hparse Hskel Hdoc Hlen Hsec.
  assert (Hcount : forall p pk,
             (forall n, p n = pk (node_kind n)) ->
             (forall n, p n = true -> control_node n = true) ->
             count p (nodes tree)
             = len (List.filter pk
                      [KFunctionDef lineno end_lineno; KFor; KIf; KIf])).
  { intros p pk Hk Hc. rewrite (count_control p pk _ Hk Hc).
    fold (skeleton tree). now rewrite Hskel. }
  assert (Hbranch : count is_branch (nodes tree) = 3).
  { apply (Hcount is_branch
             (fun k => match k with
                       | KIf | KWhile | KFor | KTry | KExceptHandler => true
                       | _ => false
                       end)); [reflexivity|].
    intros n H. unfold control_node. rewrite H. apply orb_true_r. }
  assert (Hfun : count is_function_def (nodes tree) = 1).
  { apply (Hcount is_function_def
             (fun k => match k with KFunctionDef _ _ => true | _ => false end));
      [reflexivity|].
    intros [k pre body post] H. unfold control_node, block_node.
    destruct k; try discriminate H; reflexivity. }
  assert (Hany : count is_any_function (nodes tree) = 1).
  { apply (Hcount is_any_function
             (fun k => match k with
                       | KFunctionDef _ _ | KAsyncFunctionDef _ _ => true
                       | _ => false
                       end)).
    - intros [k pre body post]. destruct k; reflexivity.
    - intros [k pre body post] H. unfold control_node, block_node.
      destruct k; try discriminate H; reflexivity. }
  assert (Hclass : count is_class_def (nodes tree) = 0).
  { apply (Hcount is_class_def
             (fun k => match k with KClassDef => true | _ => false end));
      [reflexivity|].
    intros [k pre body post] H. unfold control_node, block_node.
    destruct k; try discriminate H; reflexivity. }
  assert (Hblock : count block_node (nodes tree) = 4).
  { apply (Hcount block_node opens_block); [reflexivity|].
    intros n H. unfold control_node. now rewrite H. }
  assert (Hdclass : count (documented_class rt) (nodes tree) = 0).
  { pose proof (count_le (documented_class rt) is_class_def (nodes tree)) as H.
    pose proof (count_nonneg (documented_class rt) (nodes tree)).
    assert (count (documented_class rt) (nodes tree)
            <= count is_class_def (nodes tree)); [|lia].
    apply H. intros n Hn. unfold documented_class in Hn.
    now apply andb_true_iff in Hn as [Hn _]. }
  assert (Hc : analyze_complexity rt path content
               = {| cyclomatic_complexity := 3;
                    lines_of_code :=
                      len (List.filter is_code_line
                             (PyStr.split_lines content));
                    function_count := 1;
                    class_count := 0;
                    max_nesting_depth := nesting_height tree;
                    avg_function_length :=
                      mean (kind_length (KFunctionDef lineno end_lineno)) |}).
  { rewrite (analyze_complexity_parsed rt path content tree Hparse).
    rewrite Hbranch, Hany, Hclass, lengths_control.
    fold (skeleton tree). rewrite Hskel. cbn [flat_map kind_length].
    now rewrite !app_nil_r. }
  assert (Hd : analyze_documentation rt path content
               = mkDocumentationMetrics 0%Q 0%Q 1 0 0 0).
  { rewrite (analyze_documentation_parsed rt path content tree Hparse).
    rewrite Hfun, Hclass, Hdoc, Hdclass. reflexivity. }
  assert (Hdepth : (nesting_height tree >? 4) = false).
  { pose proof (nesting_height_bound tree).
    rewrite Z.gtb_ltb. apply Z.ltb_ge. lia. }
  assert (Havg : Qgtb (mean (kind_length (KFunctionDef lineno end_lineno))) 50
                 = false).
  { apply not_true_iff_false. intros H. apply Qgtb_lt in H. revert H.
    cbn [kind_length]. destruct end_lineno as [e|]; [|discriminate].
    destruct (Z.eqb e 0); [discriminate|].
    specialize (Hlen e eq_refl). unfold mean, sum, len. simpl.
    unfold Qlt, Qdiv, Qmult, Qinv. simpl. lia. }
  assert (Hs : SecurityAnalyzer.analyze_file path content
               = [SecurityAnalyzer.issue i call_line
                    "Use of os.system() can be dangerous"]).
  { now rewrite security_issues_of_matches, Hsec. }
  assert (Hi : issues (analyze_file rt path)
               = [SecurityAnalyzer.issue i call_line
                    "Use of os.system() can be dangerous";
                  function_doc_issue rt (mkDocumentationMetrics 0%Q 0%Q 1 0 0 0);
                  class_doc_issue rt (mkDocumentationMetrics 0%Q 0%Q 1 0 0 0)]).
  { destruct (analyze_file_readable rt path content Hread) as (_ & Hi & _).
    rewrite Hi, Hd, Hs, Hc.
    cbn [cyclomatic_complexity max_nesting_depth avg_function_length
           function_docstring_coverage class_docstring_coverage].
    rewrite Hdepth, Havg. reflexivity. }
  split; [now rewrite Hc|]. split; [exact Hd|]. split.
  { assert (Hin : In (i, call_line, os_system_rule) (rule_matches content))
      by (rewrite Hsec; now left).
    apply in_rule_matches in Hin as (H1 & H2 & _ & H4).
    repeat split; assumption. }
  split; [exact Hi|]. rewrite Hi.
  split; [reflexivity|]. split; [reflexivity|]. apply filter_issues_info.
Qed.

Lemma undocumented_function_scenario_witness :
  cyclomatic_complexity
    (analyze_complexity scenario_runtime "process.py" scenario_source) = 3
  /\ issues (analyze_file scenario_runtime "process.py")
     = [SecurityAnalyzer.issue 5 (PyStr.chars scenario_call_line)
          "Use of os.system() can be dangerous";
        function_doc_issue scenario_runtime
          (mkDocumentationMetrics 0%Q 0%Q 1 0 0 0);
        class_doc_issue scenario_runtime
          (mkDocumentationMetrics 0%Q 0%Q 1 0 0 0)]
  /\ len (issues (analyze_file scenario_runtime "process.py")) = 3.
Proof.
  destruct (undocumented_function_scenario scenario_runtime "process.py"
              scenario_source scenario_tree 1 (Some 5) 5
              (PyStr.chars scenario_call_line))
    as (Hc & _ & _ & Hi & Hl & _).
  - reflexivity.
  - reflexivity.
  - reflexivity.
  - reflexivity.
  - intros e H. inversion H. lia.
  - vm_compute. reflexivity.
  - split; [exact Hc|]. split; [exact Hi | exact Hl].
Defined.

(** C2 as stated fails.  The file [variant_source] has one function
    without documentation string, two nested [if] statements inside one
    [for] loop and a line calling [os.system]; its complexity is 3, but
    the argument of the call is matched by the [eval] rule as well, and
    the file has four issues.  So has the file [long_source], whose
    function spans 60 lines: the fourth issue is the one on the length of
    functions. *)
Lemma undocumented_function_four_issues :
  read_file variant_runtime "process.py" = ReadOk variant_source
  /\ ast_parse variant_runtime variant_source = Some variant_tree
  /\ skeleton variant_tree = [KFunctionDef 1 (Some 5); KFor; KIf; KIf]
  /\ count (documented_function variant_runtime) (nodes variant_tree) = 0
  /\ nesting_height variant_tree = 4
  /\ PyStr.split_lines variant_source !! 4%nat
     = Some (PyStr.chars "                os.system(eval(cmd))")
  /\ map (fun h => (fst (fst h), snd (snd h))) (rule_matches variant_source)
     = [(5, "Use of eval() can be dangerous");
        (5, "Use of os.system() can be dangerous")]
  /\ cyclomatic_complexity
       (analyze_complexity variant_runtime "process.py" variant_source) = 3
  /\ map (fun i => (type_ i, line i))
         (issues (analyze_file variant_runtime "process.py"))
     = [("security", Some 5); ("security", Some 5);
        ("documentation", None); ("documentation", None)]
  /\ len (issues (analyze_file variant_runtime "process.py")) = 4
  /\ len (issues (analyze_file variant_runtime "process.py")) <> 3
  /\ read_file long_runtime "process.py" = ReadOk long_source
  /\ ast_parse long_runtime long_source = Some long_tree
  /\ skeleton long_tree = [KFunctionDef 1 (Some 60); KFor; KIf; KIf]
  /\ count (documented_function long_runtime) (nodes long_tree) = 0
  /\ rule_matches long_source
     = [(60, PyStr.chars scenario_call_line, os_system_rule)]
  /\ cyclomatic_complexity
       (analyze_complexity long_runtime "process.py" long_source) = 3
  /\ map (fun i => (type_ i, message i))
         (issues (analyze_file long_runtime "process.py"))
     = [("complexity", "Long functions detected: avg 60.0 lines");
        ("security", "Use of os.system() can be dangerous");
        ("documentation", "Low function documentation coverage: 0.0%");
        ("documentation", "Low class documentation coverage: 0.0%")]
  /\ len (issues (analyze_file long_runtime "process.py")) <> 3.
Proof.
  do 10 (split; [vm_compute; reflexivity|]).
  split; [vm_compute; discriminate|].
  do 7 (split; [vm_compute; reflexivity|]).
  vm_compute. discriminate.
Qed.

Lemma documentation_coverage_bounds_witness :
  total_functions
    (analyze_documentation sample_runtime "a.py" import_os_source) = 0
  /\ function_docstring_coverage
       (analyze_documentation sample_runtime "a.py" import_os_source) = 0%Q.
Proof.
  split; [reflexivity|].
  apply (documentation_coverage_bounds sample_runtime "a.py" import_os_source).
  reflexivity.
Defined.
